(** * Environment detector ([scripts/env-detect.py])

    A shallow embedding of the [EnvironmentDetector] class.

    - What the detector reads is an explicit [world]: the entries of
      the project directory (a tree of files and directories, files
      without content), [os.environ], [sys.executable], the outcome of
      every command [subprocess.run] may launch, and the outcome of
      loading a file as JSON.  The world does not change during a run.
    - Python dictionaries are association lists in insertion order
      ([Dict]); the findings are dictionaries of [value]s, as in the
      source.
    - Exceptions are explicit: code that may raise computes a [result],
      a bare [except] is [try_except].  "The run completes without
      raising" is then a statement about the value a function returns.
    - Strings are byte strings holding UTF-8, as Rocq reads its own
      string literals; a byte outside a well-formed sequence stands for
      the lone surrogate Python keeps for it.  [str.strip], [repr] and
      [json.dumps] read the bytes as characters: the whitespace is
      Unicode's, and [repr] escapes what [str.isprintable] rejects.
    - The report texts are computed: [str] and [repr] for the console
      report, the [json.dumps] encoder for the structured one.
    - The test fixture [test-project/app.py] has a module of its own,
      [App]. *)

From Stdlib Require Import String Ascii List Bool Arith NArith ZArith Lia.
From Stdlib Require Import Floats.
From Stdlib Require Import DecimalString.
Import ListNotations.
Open Scope string_scope.
Open Scope nat_scope.

Set Implicit Arguments.

(** [xs +++ ys] is list concatenation, [s ++ t] string concatenation. *)
Infix "+++" := List.app (right associativity, at level 60) : list_scope.
Set Warnings "-register-all".

(* ================================================================== *)
(** * Python strings *)
(* ================================================================== *)

Module PyStr.

(** [sep.join(parts)] *)
Fixpoint join (sep : string) (parts : list string) : string :=
  match parts with
  | [] => ""
  | [p] => p
  | p :: rest => p ++ sep ++ join sep rest
  end.

(** [s * n] *)
Fixpoint repeat (s : string) (n : nat) : string :=
  match n with
  | O => ""
  | S n' => s ++ repeat s n'
  end.

(** [s.startswith(p)] *)
Fixpoint startswith (s p : string) {struct p} : bool :=
  match p with
  | EmptyString => true
  | String c p' =>
      match s with
      | EmptyString => false
      | String d s' => Ascii.eqb c d && startswith s' p'
      end
  end.

(** [p in s] on strings: [p] occurs in [s] as a contiguous run. *)
Fixpoint contains (s p : string) : bool :=
  startswith s p ||
  match s with
  | EmptyString => false
  | String _ s' => contains s' p
  end.

Definition is_upper (c : ascii) : bool :=
  let n := nat_of_ascii c in (65 <=? n) && (n <=? 90).
Definition is_lower (c : ascii) : bool :=
  let n := nat_of_ascii c in (97 <=? n) && (n <=? 122).
Definition to_upper (c : ascii) : ascii :=
  if is_lower c then ascii_of_nat (nat_of_ascii c - 32) else c.
Definition to_lower (c : ascii) : ascii :=
  if is_upper c then ascii_of_nat (nat_of_ascii c + 32) else c.

(** [s.upper()], on the ASCII letters (every string the detector
    upper-cases is one of its own ASCII dictionary keys). *)
Fixpoint upper (s : string) : string :=
  match s with
  | EmptyString => EmptyString
  | String c s' => String (to_upper c) (upper s')
  end.

(** [s.title()]: a letter that follows a letter is lower-cased, any
    other letter is upper-cased. *)
Fixpoint title_from (prev_cased : bool) (s : string) : string :=
  match s with
  | EmptyString => EmptyString
  | String c s' =>
      let cased := is_upper c || is_lower c in
      String (if prev_cased then to_lower c else to_upper c)
             (title_from cased s')
  end.
Definition title (s : string) : string := title_from false s.

(** [s.replace(old, new)] for a one-character [old] and [new]. *)
Fixpoint replace_char (old new : ascii) (s : string) : string :=
  match s with
  | EmptyString => EmptyString
  | String c s' =>
      String (if Ascii.eqb c old then new else c) (replace_char old new s')
  end.

(** The whitespace [str.strip] removes is the characters [str.isspace]
    accepts.  In ASCII: tab to carriage return, the four separators
    0x1c-0x1f and the space. *)
Definition is_space (c : ascii) : bool :=
  let n := nat_of_ascii c in
  ((9 <=? n) && (n <=? 13)) || ((28 <=? n) && (n <=? 32)).

(** In two UTF-8 bytes: U+0085 (next line) and U+00A0 (no-break
    space). *)
Definition two_byte_space (c d : ascii) : bool :=
  let x := N_of_ascii c in
  let y := N_of_ascii d in
  ((x =? 194) && ((y =? 133) || (y =? 160)))%N.

(** In three UTF-8 bytes: U+1680, U+2000 to U+200A, U+2028, U+2029,
    U+202F, U+205F and U+3000. *)
Definition three_byte_space (c d e : ascii) : bool :=
  let x := N_of_ascii c in
  let y := N_of_ascii d in
  let z := N_of_ascii e in
  (((x =? 225) && (y =? 154) && (z =? 128))
   || ((x =? 226) && (y =? 128)
       && (((128 <=? z) && (z <=? 138)) || (z =? 168) || (z =? 169)
           || (z =? 175)))
   || ((x =? 226) && (y =? 129) && (z =? 159))
   || ((x =? 227) && (y =? 128) && (z =? 128)))%N.

(** The string is made of whitespace only (the empty string too). *)
Fixpoint all_space (s : string) : bool :=
  match s with
  | EmptyString => true
  | String c s1 =>
      if is_space c then all_space s1
      else
        match s1 with
        | EmptyString => false
        | String d s2 =>
            if two_byte_space c d then all_space s2
            else
              match s2 with
              | EmptyString => false
              | String e s3 =>
                  if three_byte_space c d e then all_space s3 else false
              end
        end
  end.

Fixpoint lstrip (s : string) : string :=
  match s with
  | EmptyString => EmptyString
  | String c s1 =>
      if is_space c then lstrip s1
      else
        match s1 with
        | EmptyString => s
        | String d s2 =>
            if two_byte_space c d then lstrip s2
            else
              match s2 with
              | EmptyString => s
              | String e s3 =>
                  if three_byte_space c d e then lstrip s3 else s
              end
        end
  end.

(** The string is cut where what is left is whitespace only. *)
Fixpoint rstrip (s : string) : string :=
  match s with
  | EmptyString => EmptyString
  | String c s' => if all_space s then EmptyString else String c (rstrip s')
  end.

(** [s.strip()] *)
Definition strip (s : string) : string := rstrip (lstrip s).

(** [s.split(sep)] for a one-character separator. *)
Fixpoint split (sep : ascii) (s : string) : list string :=
  match s with
  | EmptyString => [EmptyString]
  | String c s' =>
      if Ascii.eqb c sep then EmptyString :: split sep s'
      else match split sep s' with
           | [] => [String c EmptyString]
           | w :: ws => String c w :: ws
           end
  end.

(** [str(n)] for an integer. *)
Definition of_int (n : Z) : string :=
  NilZero.string_of_int (Z.to_int n).

(** [fnmatch.fnmatchcase(name, pattern)] for patterns made of literal
    characters and [*] (all the detector uses): [*] stands for any run
    of characters, everything else for itself. *)
Fixpoint fnmatch (pattern : string) : string -> bool :=
  match pattern with
  | EmptyString =>
      fun name => match name with EmptyString => true | _ => false end
  | String p pattern' =>
      if Ascii.eqb p "*"%char then
        fix star (name : string) : bool :=
          fnmatch pattern' name ||
          match name with
          | EmptyString => false
          | String _ name' => star name'
          end
      else
        fun name =>
          match name with
          | EmptyString => false
          | String c name' => Ascii.eqb p c && fnmatch pattern' name'
          end
  end.

End PyStr.

(* ================================================================== *)
(** * Python values, exceptions and dictionaries *)
(* ================================================================== *)

(** The values the detector stores in its result tree or reads back from
    [package.json].  A [pathlib.PosixPath] is kept by its parts below the
    filesystem root; a float by its [repr]. *)
Inductive value : Type :=
| VNone
| VBool (b : bool)
| VInt (n : Z)
| VFloat (repr : string)
| VStr (s : string)
| VList (items : list value)
| VDict (items : list (string * value))
| VPath (parts : list string).

(** Python truth value, as [if x:] and [not x] take it. *)
Definition truthy (v : value) : bool :=
  match v with
  | VNone => false
  | VBool b => b
  | VInt n => negb (Z.eqb n 0)
  | VFloat repr => negb (String.eqb repr "0.0" || String.eqb repr "-0.0")
  | VStr s => negb (String.eqb s "")
  | VList items => match items with [] => false | _ => true end
  | VDict items => match items with [] => false | _ => true end
  | VPath _ => true
  end.

(** An [Optional[str]] as the value it is. *)
Definition of_optional (o : option string) : value :=
  match o with
  | Some s => VStr s
  | None => VNone
  end.

Inductive exn : Type :=
| KeyError (key : string)
| TypeError (msg : string)
| AttributeError (msg : string)
| ValueError (msg : string)
| OSError (msg : string)
| CalledProcessError (returncode : Z).

(** The outcome of running a piece of Python: it returns or it raises. *)
Inductive result (A : Type) : Type :=
| Return (a : A)
| Raise (e : exn).
Arguments Return {A} a.
Arguments Raise {A} e.

Definition bind {A B : Type} (c : result A) (k : A -> result B) : result B :=
  match c with
  | Return a => k a
  | Raise e => Raise e
  end.

Declare Scope py_scope.
Notation "x <- c ;; k" := (bind c (fun x => k))
  (at level 61, c at next level, right associativity) : py_scope.
Open Scope py_scope.

(** [try: return body / except: return handler] with a bare [except]. *)
Definition try_except {A : Type} (body : result A) (handler : A) : A :=
  match body with
  | Return a => a
  | Raise _ => handler
  end.

(** [[f(x) for x in xs]] where [f] may raise: the first exception ends
    the comprehension. *)
Section ForEach.
Variables A B : Type.
Variable f : A -> result B.

Fixpoint for_each (xs : list A) : result (list B) :=
  match xs with
  | [] => Return []
  | x :: xs' => y <- f x ;; ys <- for_each xs' ;; Return (y :: ys)
  end.
End ForEach.

(** A [dict] with [str] keys: the items in insertion order. *)
Module Dict.
Section WithValues.
Variable V : Type.

Definition t := list (string * V).

(** [d.get(k)] *)
Fixpoint get (d : t) (k : string) : option V :=
  match d with
  | [] => None
  | (k', v) :: d' => if String.eqb k' k then Some v else get d' k
  end.

(** [d.get(k, default)] *)
Definition get_default (d : t) (k : string) (default : V) : V :=
  match get d k with
  | Some v => v
  | None => default
  end.

(** [k in d] *)
Definition mem (k : string) (d : t) : bool :=
  match get d k with
  | Some _ => true
  | None => false
  end.

(** [d[k]] *)
Definition getitem (d : t) (k : string) : result V :=
  match get d k with
  | Some v => Return v
  | None => Raise (KeyError k)
  end.

(** [d[k] = v]: an existing key keeps its place, a new one goes last. *)
Fixpoint set (d : t) (k : string) (v : V) : t :=
  match d with
  | [] => [(k, v)]
  | (k', v') :: d' =>
      if String.eqb k' k then (k, v) :: d' else (k', v') :: set d' k v
  end.

(** [list(d.keys())] *)
Definition keys (d : t) : list string := map fst d.

(** [{**a, **b}] *)
Definition merge (a b : t) : t :=
  fold_left (fun acc kv => set acc (fst kv) (snd kv)) b a.
End WithValues.
End Dict.

Definition dict (V : Type) : Type := Dict.t V.

(* ================================================================== *)
(** * The world the detector reads *)
(* ================================================================== *)

(** A directory entry of the project tree. *)
Inductive entry : Type :=
| File (name : string)
| Dir (name : string) (children : list entry).

Definition entry_name (e : entry) : string :=
  match e with
  | File n => n
  | Dir n _ => n
  end.

(** A path under the project root, by its parts relative to the root:
    every [Path] the detector builds is [self.project_path / ...] or
    comes out of [self.project_path.rglob(...)]. *)
Definition path := list string.

(** What [subprocess.run(..., capture_output=True)] hands back. *)
Record CompletedProcess : Type := {
  returncode : Z;
  stdout : string
}.

Record world : Type := {
  (** [self.project_path]: the resolved absolute root, by its parts. *)
  project_path : list string;
  (** The entries of the project directory. *)
  tree : list entry;
  (** [os.environ] *)
  environ : dict string;
  (** [sys.executable] *)
  sys_executable : string;
  (** Launching a command, with an optional [cwd]: the launch raises
      (no such binary, undecodable output) or the process completes. *)
  spawn : option path -> list string -> result CompletedProcess;
  (** [with open(p) as f: json.load(f)] for a path under the root. *)
  load_json : path -> result value
}.

Module Fs.

(** [PurePath(s).parts] for a relative [s]: empty and [.] segments
    are dropped. *)
Definition parts_of (s : string) : path :=
  filter (fun seg => negb (String.eqb seg "") && negb (String.eqb seg "."))
         (PyStr.split "/" s).

(** [p / s] *)
Definition joinpath (p : path) (s : string) : path := p +++ parts_of s.

(** [p.name] *)
Definition name (p : path) : string := last p "".

(** [str(p)] for an absolute path given by its parts. *)
Definition str_absolute (parts : list string) : string :=
  "/" ++ PyStr.join "/" parts.

(** [str(p.relative_to(self.project_path))] *)
Definition str_relative (p : path) : string :=
  match p with
  | [] => "."
  | _ => PyStr.join "/" p
  end.

(** Is there an entry at [p] below the directory with entries [es]? *)
Fixpoint exists_in (p : path) (es : list entry) : bool :=
  match p with
  | [] => true
  | [n] => existsb (fun e => String.eqb (entry_name e) n) es
  | n :: p' =>
      existsb (fun e =>
                 match e with
                 | Dir m children => String.eqb m n && exists_in p' children
                 | File _ => false
                 end) es
  end.

(** The entries of one directory whose name matches the pattern. *)
Definition matching (pattern : string) (dir : path) (es : list entry)
  : list path :=
  map (fun e => dir +++ [entry_name e])
      (filter (fun e => PyStr.fnmatch pattern (entry_name e)) es).

(** The matches inside [e] (when it is a directory) and below it:
    each directory contributes its matching entries, files and
    directories alike, then its subdirectories are visited in turn. *)
Fixpoint rglob_below (pattern : string) (parent : path) (e : entry)
  : list path :=
  match e with
  | File _ => []
  | Dir n children =>
      let here := parent +++ [n] in
      matching pattern here children
        +++ flat_map (rglob_below pattern here) children
  end.

(** [self.project_path.rglob(pattern)] *)
Definition rglob (w : world) (pattern : string) : list path :=
  matching pattern [] (tree w)
    +++ flat_map (rglob_below pattern []) (tree w).

(** [self.project_path.rglob("*")]: every entry below the root, files
    and directories alike, in the order [rglob] visits them. *)
Definition children_paths (dir : path) (es : list entry) : list path :=
  map (fun e => dir +++ [entry_name e]) es.

Fixpoint walk_below (parent : path) (e : entry) : list path :=
  match e with
  | File _ => []
  | Dir n children =>
      let here := parent +++ [n] in
      children_paths here children +++ flat_map (walk_below here) children
  end.

Definition walk (w : world) : list path :=
  children_paths [] (tree w) +++ flat_map (walk_below []) (tree w).

(** [(self.project_path / s).exists()] *)
Definition exists_ (w : world) (p : path) : bool := exists_in p (tree w).

(** [str(p)] for a path under the root. *)
Definition str (w : world) (p : path) : string :=
  str_absolute (project_path w +++ p).

(** The [Path] object itself, as a value. *)
Definition as_value (w : world) (p : path) : value :=
  VPath (project_path w +++ p).

End Fs.

(** [subprocess.run(args, capture_output=True, cwd=cwd, check=check)] *)
Definition subprocess_run (w : world) (args : list string)
  (cwd : option path) (check : bool) : result CompletedProcess :=
  p <- spawn w cwd args ;;
  if check && negb (Z.eqb (returncode p) 0)
  then Raise (CalledProcessError (returncode p))
  else Return p.

(* ================================================================== *)
(** * EnvironmentDetector: helper methods *)
(* ================================================================== *)

(** The body shared by the version getters:
    [result = subprocess.run(args, capture_output=True, text=True);
     return result.stdout.strip()] under [try/except: return None]. *)
Definition stripped_stdout (w : world) (args : list string)
  (cwd : option path) : option string :=
  try_except
    (r <- subprocess_run w args cwd false ;;
     Return (Some (PyStr.strip (stdout r))))
    None.

Definition _get_python_version (w : world) : option string :=
  stripped_stdout w [sys_executable w; "--version"] None.

Definition _detect_python_env (w : world) : option string :=
  if truthy (of_optional (Dict.get (environ w) "VIRTUAL_ENV")) then
    Dict.get (environ w) "VIRTUAL_ENV"
  else if Fs.exists_ w (Fs.joinpath [] "venv") then
    Some (Fs.str w (Fs.joinpath [] "venv"))
  else if Fs.exists_ w (Fs.joinpath [] ".venv") then
    Some (Fs.str w (Fs.joinpath [] ".venv"))
  else None.

(** [for x in xs: if (self.project_path / x).exists(): return x] *)
Fixpoint first_existing (w : world) (names : list string) : option string :=
  match names with
  | [] => None
  | n :: rest =>
      if Fs.exists_ w (Fs.joinpath [] n) then Some n
      else first_existing w rest
  end.

Definition _find_requirements (w : world) : option string :=
  let req_files :=
    ["requirements.txt"; "pyproject.toml"; "setup.py"; "Pipfile"] in
  first_existing w req_files.

Definition _detect_python_package_manager (w : world) : string :=
  if Fs.exists_ w (Fs.joinpath [] "Pipfile") then "pipenv"
  else if Fs.exists_ w (Fs.joinpath [] "pyproject.toml") then "poetry/pip"
  else if Fs.exists_ w (Fs.joinpath [] "requirements.txt") then "pip"
  else "unknown".

Definition _get_node_version (w : world) : option string :=
  stripped_stdout w ["node"; "--version"] None.

Definition _detect_node_package_manager (w : world) : string :=
  if Fs.exists_ w (Fs.joinpath [] "yarn.lock") then "yarn"
  else if Fs.exists_ w (Fs.joinpath [] "pnpm-lock.yaml") then "pnpm"
  else if Fs.exists_ w (Fs.joinpath [] "package-lock.json") then "npm"
  else "unknown".

(** [data.get(key, {})] on whatever [json.load] returned: only a dict
    has [get]. *)
Definition data_get (data : value) (key : string) : result value :=
  match data with
  | VDict items => Return (Dict.get_default items key (VDict []))
  | _ => Raise (AttributeError "object has no attribute 'get'")
  end.

(** [{**a, **b}]: both operands must be mappings. *)
Definition unpack_merge (a b : value) : result (dict value) :=
  match a, b with
  | VDict xs, VDict ys => Return (Dict.merge xs ys)
  | _, _ => Raise (TypeError "object is not a mapping")
  end.

Definition _detect_js_framework (w : world) : option string :=
  let package_json := Fs.joinpath [] "package.json" in
  if negb (Fs.exists_ w package_json) then None
  else
    try_except
      (data <- load_json w package_json ;;
       dependencies <- data_get data "dependencies" ;;
       devDependencies <- data_get data "devDependencies" ;;
       deps <- unpack_merge dependencies devDependencies ;;
       Return
         (if Dict.mem "react" deps then Some "react"
          else if Dict.mem "vue" deps then Some "vue"
          else if Dict.mem "@angular/core" deps then Some "angular"
          else if Dict.mem "svelte" deps then Some "svelte"
          else None))
      None.

Definition _get_go_version (w : world) : option string :=
  stripped_stdout w ["go"; "version"] None.

Definition _get_rust_version (w : world) : option string :=
  stripped_stdout w ["rustc"; "--version"] None.

Definition _get_git_branch (w : world) : option string :=
  stripped_stdout w ["git"; "branch"; "--show-current"] (Some []).

Definition _get_git_remote (w : world) : option string :=
  stripped_stdout w ["git"; "remote"; "get-url"; "origin"] (Some []).

Definition _has_uncommitted_changes (w : world) : bool :=
  try_except
    (r <- subprocess_run w ["git"; "status"; "--porcelain"] (Some []) false ;;
     Return (truthy (VStr (PyStr.strip (stdout r)))))
    false.

Definition _command_exists (w : world) (command : string) : bool :=
  try_except
    (_ <- subprocess_run w [command; "--version"] None true ;;
     Return true)
    false.

Definition _has_npm_audit (w : world) : bool :=
  try_except
    (r <- subprocess_run w ["npm"; "audit"; "--help"] None false ;;
     Return (PyStr.contains (stdout r) "audit"))
    false.

(* ================================================================== *)
(** * EnvironmentDetector: the detectors *)
(* ================================================================== *)

(** Truth value of a list, as [if xs:] takes it. *)
Definition nonempty {A : Type} (xs : list A) : bool :=
  match xs with
  | [] => false
  | _ :: _ => true
  end.

Definition detect_languages (w : world) : dict (dict value) :=
  let languages : dict (dict value) := [] in
  (* Python detection *)
  let python_files := Fs.rglob w "*.py" in
  let languages :=
    if nonempty python_files then
      Dict.set languages "python"
        [ ("files_count", VInt (Z.of_nat (length python_files)));
          ("current_version", of_optional (_get_python_version w));
          ("virtual_env", of_optional (_detect_python_env w));
          ("requirements", of_optional (_find_requirements w));
          ("package_manager", VStr (_detect_python_package_manager w)) ]
    else languages in
  (* Node.js detection *)
  let package_json := Fs.joinpath [] "package.json" in
  let languages :=
    if Fs.exists_ w package_json
       || nonempty (Fs.rglob w "*.ts") || nonempty (Fs.rglob w "*.js") then
      Dict.set languages "nodejs"
        [ ("files_count",
            VInt (Z.of_nat (length (Fs.rglob w "*.ts" +++ Fs.rglob w "*.js"))));
          ("current_version", of_optional (_get_node_version w));
          ("package_json", VBool (Fs.exists_ w package_json));
          ("package_manager", VStr (_detect_node_package_manager w));
          ("framework", of_optional (_detect_js_framework w)) ]
    else languages in
  (* Go detection *)
  let go_files := Fs.rglob w "*.go" in
  let languages :=
    if nonempty go_files || Fs.exists_ w (Fs.joinpath [] "go.mod") then
      Dict.set languages "go"
        [ ("files_count", VInt (Z.of_nat (length go_files)));
          ("current_version", of_optional (_get_go_version w));
          ("go_mod", VBool (Fs.exists_ w (Fs.joinpath [] "go.mod"))) ]
    else languages in
  (* Rust detection *)
  let cargo_toml := Fs.joinpath [] "Cargo.toml" in
  let languages :=
    if Fs.exists_ w cargo_toml || nonempty (Fs.rglob w "*.rs") then
      Dict.set languages "rust"
        [ ("files_count", VInt (Z.of_nat (length (Fs.rglob w "*.rs"))));
          ("current_version", of_optional (_get_rust_version w));
          ("cargo_toml", VBool (Fs.exists_ w cargo_toml)) ]
    else languages in
  languages.

Definition detect_infrastructure (w : world) : dict (dict value) :=
  let infra : dict (dict value) := [] in
  (* Docker *)
  let dockerfile_patterns :=
    ["Dockerfile*"; "docker-compose*.yml"; "docker-compose*.yaml"] in
  let docker_files := flat_map (Fs.rglob w) dockerfile_patterns in
  let infra :=
    if nonempty docker_files then
      Dict.set infra "docker"
        [ ("files",
            VList (map (fun f => VStr (Fs.str_relative f)) docker_files));
          ("compose_files",
            VList (map (Fs.as_value w)
                     (filter (fun f => PyStr.contains (Fs.name f) "compose")
                        docker_files)));
          ("dockerfiles",
            VList (map (Fs.as_value w)
                     (filter
                        (fun f => PyStr.startswith (Fs.name f) "Dockerfile")
                        docker_files))) ]
    else infra in
  (* Git *)
  let infra :=
    if Fs.exists_ w (Fs.joinpath [] ".git") then
      Dict.set infra "git"
        [ ("current_branch", of_optional (_get_git_branch w));
          ("remote_url", of_optional (_get_git_remote w));
          ("uncommitted_changes", VBool (_has_uncommitted_changes w)) ]
    else infra in
  (* CI/CD *)
  let ci_patterns :=
    [".github/workflows"; ".gitlab-ci.yml"; "Jenkinsfile"; ".travis.yml"] in
  let ci_files :=
    filter (fun pattern => Fs.exists_ w (Fs.joinpath [] pattern)) ci_patterns in
  let infra :=
    if nonempty ci_files then
      Dict.set infra "ci_cd" [ ("detected", VList (map VStr ci_files)) ]
    else infra in
  infra.

(** The body of the [for lang, details in languages.items()] loop of
    [suggest_environment_isolation]: the suggestions for one language.
    [details["virtual_env"]] raises [KeyError] on a missing key,
    [details.get(...)] gives [None]. *)
Definition lang_suggestions (lang : string) (details : dict value)
  : result (list string) :=
  if String.eqb lang "python" then
    virtual_env <- Dict.getitem details "virtual_env" ;;
    Return
      ((if negb (truthy virtual_env)
        then ["Create Python virtual environment (venv/virtualenv)"] else [])
       +++ (if negb (truthy (Dict.get_default details "requirements" VNone))
           then ["Create requirements.txt or pyproject.toml"] else [])
       +++ ["Consider pyenv for Python version management"])
  else if String.eqb lang "nodejs" then
    Return
      ((if negb (truthy (Dict.get_default details "package_json" VNone))
        then ["Initialize package.json"] else [])
       +++ ["Consider nvm for Node.js version management"]
       +++ (match Dict.get_default details "framework" VNone with
           | VStr f =>
               if existsb (String.eqb f) ["react"; "vue"; "angular"]
               then ["Use framework-specific dev containers"] else []
           | _ => []
           end))
  else if String.eqb lang "go" then
    Return
      ((if negb (truthy (Dict.get_default details "go_mod" VNone))
        then ["Initialize go.mod"] else [])
       +++ ["Consider Go workspace for multi-module projects"])
  else if String.eqb lang "rust" then
    Return
      (if negb (truthy (Dict.get_default details "cargo_toml" VNone))
       then ["Initialize Cargo.toml"] else [])
  else Return [].

(** The loop itself, threading the [suggestions] dict. *)
Fixpoint suggest_for_languages (items : list (string * dict value))
  (suggestions : dict (list string)) : result (dict (list string)) :=
  match items with
  | [] => Return suggestions
  | (lang, details) :: rest =>
      lang_suggestions_ <- lang_suggestions lang details ;;
      suggest_for_languages rest
        (if nonempty lang_suggestions_
         then Dict.set suggestions lang lang_suggestions_
         else suggestions)
  end.

Definition suggest_environment_isolation (w : world)
  : result (dict (list string)) :=
  let suggestions : dict (list string) := [] in
  let languages := detect_languages w in
  suggestions <- suggest_for_languages languages suggestions ;;
  (* Docker suggestions *)
  let infra := detect_infrastructure w in
  if negb (Dict.mem "docker" infra) && (1 <? length languages) then
    let suggestions :=
      Dict.set suggestions "general"
        (Dict.get_default suggestions "general" []) in
    general <- Dict.getitem suggestions "general" ;;
    Return
      (Dict.set suggestions "general"
         (general
            +++ ["Consider Docker for consistent development environment"]))
  else Return suggestions.

Definition check_security_tools (w : world) : dict bool :=
  [ ("bandit", _command_exists w "bandit");
    ("safety", _command_exists w "safety");
    ("npm_audit", _command_exists w "npm" && _has_npm_audit w);
    ("snyk", _command_exists w "snyk");
    ("semgrep", _command_exists w "semgrep");
    ("gosec", _command_exists w "gosec") ].

(* ================================================================== *)
(** * Rendering values: [str], [repr] and [json.dumps] *)
(* ================================================================== *)

Module Render.

Definition chr (n : N) : string := String (ascii_of_N n) EmptyString.
Definition newline : string := chr 10.
Definition backslash : string := chr 92.
Definition double_quote : string := chr 34.
Definition single_quote : string := chr 39.

Definition hex_digit (n : N) : string :=
  chr (if n <? 10 then 48 + n else 87 + n)%N.

(** [format(n, '02x')] and [format(n, '04x')] *)
Definition hex2 (n : N) : string :=
  (hex_digit ((n / 16) mod 16) ++ hex_digit (n mod 16))%N.
Definition hex4 (n : N) : string :=
  (hex2 ((n / 256) mod 256) ++ hex2 (n mod 256))%N.

Definition hex8 (n : N) : string :=
  (hex4 ((n / 65536) mod 65536) ++ hex4 (n mod 65536))%N.

(** ** The characters of a string *)

(** A string is held as its UTF-8 bytes.  A byte that belongs to no
    well-formed sequence stands for the lone surrogate U+DC80 to U+DCFF
    Python keeps for it when it decodes a file name, an argument or an
    environment variable. *)
Definition is_continuation (c : ascii) : bool :=
  let n := N_of_ascii c in ((128 <=? n) && (n <? 192))%N.
Definition low6 (c : ascii) : N := (N_of_ascii c - 128)%N.

Definition stray (c : ascii) : N * string :=
  ((56320 + N_of_ascii c)%N, String c EmptyString).

(** The code point of a well-formed sequence of two, three and four
    bytes: shortest form only, no surrogate, nothing above U+10FFFF. *)
Definition two_bytes (c c1 : ascii) : option N :=
  let n := N_of_ascii c in
  if ((194 <=? n) && (n <? 224))%N && is_continuation c1
  then Some ((n - 192) * 64 + low6 c1)%N
  else None.

Definition three_bytes (c c1 c2 : ascii) : option N :=
  let n := N_of_ascii c in
  let cp := ((n - 224) * 4096 + low6 c1 * 64 + low6 c2)%N in
  if ((224 <=? n) && (n <? 240))%N && is_continuation c1
     && is_continuation c2
     && ((2048 <=? cp) && negb ((55296 <=? cp) && (cp <? 57344)))%N
  then Some cp
  else None.

Definition four_bytes (c c1 c2 c3 : ascii) : option N :=
  let n := N_of_ascii c in
  let cp :=
    ((n - 240) * 262144 + low6 c1 * 4096 + low6 c2 * 64 + low6 c3)%N in
  if (240 <=? n)%N && is_continuation c1 && is_continuation c2
     && is_continuation c3 && ((65536 <=? cp) && (cp <? 1114112))%N
  then Some cp
  else None.

(** The characters of [s], each with the bytes that encode it. *)
Fixpoint code_points (s : string) : list (N * string) :=
  match s with
  | EmptyString => []
  | String c s1 =>
      if (N_of_ascii c <? 128)%N
      then (N_of_ascii c, String c EmptyString) :: code_points s1
      else
        match s1 with
        | EmptyString => [stray c]
        | String c1 s2 =>
            match two_bytes c c1 with
            | Some cp =>
                (cp, String c (String c1 EmptyString)) :: code_points s2
            | None =>
                match s2 with
                | EmptyString => stray c :: code_points s1
                | String c2 s3 =>
                    match three_bytes c c1 c2 with
                    | Some cp =>
                        (cp, String c (String c1 (String c2 EmptyString)))
                          :: code_points s3
                    | None =>
                        match s3 with
                        | EmptyString => stray c :: code_points s1
                        | String c3 s4 =>
                            match four_bytes c c1 c2 c3 with
                            | Some cp =>
                                (cp,
                                 String c
                                   (String c1
                                      (String c2 (String c3 EmptyString))))
                                  :: code_points s4
                            | None => stray c :: code_points s1
                            end
                        end
                    end
                end
            end
        end
  end.

(** The code points from U+0080 up that [str.isprintable] rejects
    (control, format, surrogate, private use, unassigned, separators),
    as ranges, in the Unicode 14.0 database CPython 3.11 carries.  An
    interpreter with a later database prints code points assigned
    since. *)
Definition not_printable : list (N * N) :=
  [(128, 160); (173, 173); (888, 889); (896, 899); (907, 907); (909, 909);
   (930, 930); (1328, 1328); (1367, 1368); (1419, 1420); (1424, 1424);
   (1480, 1487); (1515, 1518); (1525, 1541); (1564, 1564); (1757, 1757);
   (1806, 1807); (1867, 1868); (1970, 1983); (2043, 2044); (2094, 2095);
   (2111, 2111); (2140, 2141); (2143, 2143); (2155, 2159); (2191, 2199);
   (2274, 2274); (2436, 2436); (2445, 2446); (2449, 2450); (2473, 2473);
   (2481, 2481); (2483, 2485); (2490, 2491); (2501, 2502); (2505, 2506);
   (2511, 2518); (2520, 2523); (2526, 2526); (2532, 2533); (2559, 2560);
   (2564, 2564); (2571, 2574); (2577, 2578); (2601, 2601); (2609, 2609);
   (2612, 2612); (2615, 2615); (2618, 2619); (2621, 2621); (2627, 2630);
   (2633, 2634); (2638, 2640); (2642, 2648); (2653, 2653); (2655, 2661);
   (2679, 2688); (2692, 2692); (2702, 2702); (2706, 2706); (2729, 2729);
   (2737, 2737); (2740, 2740); (2746, 2747); (2758, 2758); (2762, 2762);
   (2766, 2767); (2769, 2783); (2788, 2789); (2802, 2808); (2816, 2816);
   (2820, 2820); (2829, 2830); (2833, 2834); (2857, 2857); (2865, 2865);
   (2868, 2868); (2874, 2875); (2885, 2886); (2889, 2890); (2894, 2900);
   (2904, 2907); (2910, 2910); (2916, 2917); (2936, 2945); (2948, 2948);
   (2955, 2957); (2961, 2961); (2966, 2968); (2971, 2971); (2973, 2973);
   (2976, 2978); (2981, 2983); (2987, 2989); (3002, 3005); (3011, 3013);
   (3017, 3017); (3022, 3023); (3025, 3030); (3032, 3045); (3067, 3071);
   (3085, 3085); (3089, 3089); (3113, 3113); (3130, 3131); (3141, 3141);
   (3145, 3145); (3150, 3156); (3159, 3159); (3163, 3164); (3166, 3167);
   (3172, 3173); (3184, 3190); (3213, 3213); (3217, 3217); (3241, 3241);
   (3252, 3252); (3258, 3259); (3269, 3269); (3273, 3273); (3278, 3284);
   (3287, 3292); (3295, 3295); (3300, 3301); (3312, 3312); (3315, 3327);
   (3341, 3341); (3345, 3345); (3397, 3397); (3401, 3401); (3408, 3411);
   (3428, 3429); (3456, 3456); (3460, 3460); (3479, 3481); (3506, 3506);
   (3516, 3516); (3518, 3519); (3527, 3529); (3531, 3534); (3541, 3541);
   (3543, 3543); (3552, 3557); (3568, 3569); (3573, 3584); (3643, 3646);
   (3676, 3712); (3715, 3715); (3717, 3717); (3723, 3723); (3748, 3748);
   (3750, 3750); (3774, 3775); (3781, 3781); (3783, 3783); (3790, 3791);
   (3802, 3803); (3808, 3839); (3912, 3912); (3949, 3952); (3992, 3992);
   (4029, 4029); (4045, 4045); (4059, 4095); (4294, 4294); (4296, 4300);
   (4302, 4303); (4681, 4681); (4686, 4687); (4695, 4695); (4697, 4697);
   (4702, 4703); (4745, 4745); (4750, 4751); (4785, 4785); (4790, 4791);
   (4799, 4799); (4801, 4801); (4806, 4807); (4823, 4823); (4881, 4881);
   (4886, 4887); (4955, 4956); (4989, 4991); (5018, 5023); (5110, 5111);
   (5118, 5119); (5760, 5760); (5789, 5791); (5881, 5887); (5910, 5918);
   (5943, 5951); (5972, 5983); (5997, 5997); (6001, 6001); (6004, 6015);
   (6110, 6111); (6122, 6127); (6138, 6143); (6158, 6158); (6170, 6175);
   (6265, 6271); (6315, 6319); (6390, 6399); (6431, 6431); (6444, 6447);
   (6460, 6463); (6465, 6467); (6510, 6511); (6517, 6527); (6572, 6575);
   (6602, 6607); (6619, 6621); (6684, 6685); (6751, 6751); (6781, 6782);
   (6794, 6799); (6810, 6815); (6830, 6831); (6863, 6911); (6989, 6991);
   (7039, 7039); (7156, 7163); (7224, 7226); (7242, 7244); (7305, 7311);
   (7355, 7356); (7368, 7375); (7419, 7423); (7958, 7959); (7966, 7967);
   (8006, 8007); (8014, 8015); (8024, 8024); (8026, 8026); (8028, 8028);
   (8030, 8030); (8062, 8063); (8117, 8117); (8133, 8133); (8148, 8149);
   (8156, 8156); (8176, 8177); (8181, 8181); (8191, 8207); (8232, 8239);
   (8287, 8303); (8306, 8307); (8335, 8335); (8349, 8351); (8385, 8399);
   (8433, 8447); (8588, 8591); (9255, 9279); (9291, 9311); (11124, 11125);
   (11158, 11158); (11508, 11512); (11558, 11558); (11560, 11564);
   (11566, 11567); (11624, 11630); (11633, 11646); (11671, 11679);
   (11687, 11687); (11695, 11695); (11703, 11703); (11711, 11711);
   (11719, 11719); (11727, 11727); (11735, 11735); (11743, 11743);
   (11870, 11903); (11930, 11930); (12020, 12031); (12246, 12271);
   (12284, 12288); (12352, 12352); (12439, 12440); (12544, 12548);
   (12592, 12592); (12687, 12687); (12772, 12783); (12831, 12831);
   (42125, 42127); (42183, 42191); (42540, 42559); (42744, 42751);
   (42955, 42959); (42962, 42962); (42964, 42964); (42970, 42993);
   (43053, 43055); (43066, 43071); (43128, 43135); (43206, 43213);
   (43226, 43231); (43348, 43358); (43389, 43391); (43470, 43470);
   (43482, 43485); (43519, 43519); (43575, 43583); (43598, 43599);
   (43610, 43611); (43715, 43738); (43767, 43776); (43783, 43784);
   (43791, 43792); (43799, 43807); (43815, 43815); (43823, 43823);
   (43884, 43887); (44014, 44015); (44026, 44031); (55204, 55215);
   (55239, 55242); (55292, 63743); (64110, 64111); (64218, 64255);
   (64263, 64274); (64280, 64284); (64311, 64311); (64317, 64317);
   (64319, 64319); (64322, 64322); (64325, 64325); (64451, 64466);
   (64912, 64913); (64968, 64974); (64976, 65007); (65050, 65055);
   (65107, 65107); (65127, 65127); (65132, 65135); (65141, 65141);
   (65277, 65280); (65471, 65473); (65480, 65481); (65488, 65489);
   (65496, 65497); (65501, 65503); (65511, 65511); (65519, 65531);
   (65534, 65535); (65548, 65548); (65575, 65575); (65595, 65595);
   (65598, 65598); (65614, 65615); (65630, 65663); (65787, 65791);
   (65795, 65798); (65844, 65846); (65935, 65935); (65949, 65951);
   (65953, 65999); (66046, 66175); (66205, 66207); (66257, 66271);
   (66300, 66303); (66340, 66348); (66379, 66383); (66427, 66431);
   (66462, 66462); (66500, 66503); (66518, 66559); (66718, 66719);
   (66730, 66735); (66772, 66775); (66812, 66815); (66856, 66863);
   (66916, 66926); (66939, 66939); (66955, 66955); (66963, 66963);
   (66966, 66966); (66978, 66978); (66994, 66994); (67002, 67002);
   (67005, 67071); (67383, 67391); (67414, 67423); (67432, 67455);
   (67462, 67462); (67505, 67505); (67515, 67583); (67590, 67591);
   (67593, 67593); (67638, 67638); (67641, 67643); (67645, 67646);
   (67670, 67670); (67743, 67750); (67760, 67807); (67827, 67827);
   (67830, 67834); (67868, 67870); (67898, 67902); (67904, 67967);
   (68024, 68027); (68048, 68049); (68100, 68100); (68103, 68107);
   (68116, 68116); (68120, 68120); (68150, 68151); (68155, 68158);
   (68169, 68175); (68185, 68191); (68256, 68287); (68327, 68330);
   (68343, 68351); (68406, 68408); (68438, 68439); (68467, 68471);
   (68498, 68504); (68509, 68520); (68528, 68607); (68681, 68735);
   (68787, 68799); (68851, 68857); (68904, 68911); (68922, 69215);
   (69247, 69247); (69290, 69290); (69294, 69295); (69298, 69375);
   (69416, 69423); (69466, 69487); (69514, 69551); (69580, 69599);
   (69623, 69631); (69710, 69713); (69750, 69758); (69821, 69821);
   (69827, 69839); (69865, 69871); (69882, 69887); (69941, 69941);
   (69960, 69967); (70007, 70015); (70112, 70112); (70133, 70143);
   (70162, 70162); (70207, 70271); (70279, 70279); (70281, 70281);
   (70286, 70286); (70302, 70302); (70314, 70319); (70379, 70383);
   (70394, 70399); (70404, 70404); (70413, 70414); (70417, 70418);
   (70441, 70441); (70449, 70449); (70452, 70452); (70458, 70458);
   (70469, 70470); (70473, 70474); (70478, 70479); (70481, 70486);
   (70488, 70492); (70500, 70501); (70509, 70511); (70517, 70655);
   (70748, 70748); (70754, 70783); (70856, 70863); (70874, 71039);
   (71094, 71095); (71134, 71167); (71237, 71247); (71258, 71263);
   (71277, 71295); (71354, 71359); (71370, 71423); (71451, 71452);
   (71468, 71471); (71495, 71679); (71740, 71839); (71923, 71934);
   (71943, 71944); (71946, 71947); (71956, 71956); (71959, 71959);
   (71990, 71990); (71993, 71994); (72007, 72015); (72026, 72095);
   (72104, 72105); (72152, 72153); (72165, 72191); (72264, 72271);
   (72355, 72367); (72441, 72703); (72713, 72713); (72759, 72759);
   (72774, 72783); (72813, 72815); (72848, 72849); (72872, 72872);
   (72887, 72959); (72967, 72967); (72970, 72970); (73015, 73017);
   (73019, 73019); (73022, 73022); (73032, 73039); (73050, 73055);
   (73062, 73062); (73065, 73065); (73103, 73103); (73106, 73106);
   (73113, 73119); (73130, 73439); (73465, 73647); (73649, 73663);
   (73714, 73726); (74650, 74751); (74863, 74863); (74869, 74879);
   (75076, 77711); (77811, 77823); (78895, 82943); (83527, 92159);
   (92729, 92735); (92767, 92767); (92778, 92781); (92863, 92863);
   (92874, 92879); (92910, 92911); (92918, 92927); (92998, 93007);
   (93018, 93018); (93026, 93026); (93048, 93052); (93072, 93759);
   (93851, 93951); (94027, 94030); (94088, 94094); (94112, 94175);
   (94181, 94191); (94194, 94207); (100344, 100351); (101590, 101631);
   (101641, 110575); (110580, 110580); (110588, 110588); (110591, 110591);
   (110883, 110927); (110931, 110947); (110952, 110959); (111356, 113663);
   (113771, 113775); (113789, 113791); (113801, 113807); (113818, 113819);
   (113824, 118527); (118574, 118575); (118599, 118607); (118724, 118783);
   (119030, 119039); (119079, 119080); (119155, 119162); (119275, 119295);
   (119366, 119519); (119540, 119551); (119639, 119647); (119673, 119807);
   (119893, 119893); (119965, 119965); (119968, 119969); (119971, 119972);
   (119975, 119976); (119981, 119981); (119994, 119994); (119996, 119996);
   (120004, 120004); (120070, 120070); (120075, 120076); (120085, 120085);
   (120093, 120093); (120122, 120122); (120127, 120127); (120133, 120133);
   (120135, 120137); (120145, 120145); (120486, 120487); (120780, 120781);
   (121484, 121498); (121504, 121504); (121520, 122623); (122655, 122879);
   (122887, 122887); (122905, 122906); (122914, 122914); (122917, 122917);
   (122923, 123135); (123181, 123183); (123198, 123199); (123210, 123213);
   (123216, 123535); (123567, 123583); (123642, 123646); (123648, 124895);
   (124903, 124903); (124908, 124908); (124911, 124911); (124927, 124927);
   (125125, 125126); (125143, 125183); (125260, 125263); (125274, 125277);
   (125280, 126064); (126133, 126208); (126270, 126463); (126468, 126468);
   (126496, 126496); (126499, 126499); (126501, 126502); (126504, 126504);
   (126515, 126515); (126520, 126520); (126522, 126522); (126524, 126529);
   (126531, 126534); (126536, 126536); (126538, 126538); (126540, 126540);
   (126544, 126544); (126547, 126547); (126549, 126550); (126552, 126552);
   (126554, 126554); (126556, 126556); (126558, 126558); (126560, 126560);
   (126563, 126563); (126565, 126566); (126571, 126571); (126579, 126579);
   (126584, 126584); (126589, 126589); (126591, 126591); (126602, 126602);
   (126620, 126624); (126628, 126628); (126634, 126634); (126652, 126703);
   (126706, 126975); (127020, 127023); (127124, 127135); (127151, 127152);
   (127168, 127168); (127184, 127184); (127222, 127231); (127406, 127461);
   (127491, 127503); (127548, 127551); (127561, 127567); (127570, 127583);
   (127590, 127743); (128728, 128732); (128749, 128751); (128765, 128767);
   (128884, 128895); (128985, 128991); (129004, 129007); (129009, 129023);
   (129036, 129039); (129096, 129103); (129114, 129119); (129160, 129167);
   (129198, 129199); (129202, 129279); (129620, 129631); (129646, 129647);
   (129653, 129655); (129661, 129663); (129671, 129679); (129709, 129711);
   (129723, 129727); (129734, 129743); (129754, 129759); (129768, 129775);
   (129783, 129791); (129939, 129939); (129995, 130031); (130042, 131071);
   (173792, 173823); (177977, 177983); (178206, 178207); (183970, 183983);
   (191457, 194559); (195102, 196607); (201547, 917759);
   (918000, 1114111)]%N.

Definition printable (cp : N) : bool :=
  negb (existsb (fun r : N * N => ((fst r <=? cp) && (cp <=? snd r))%N)
          not_printable).

(** ** [repr] and [str] *)

(** One ASCII character inside [repr(s)], the enclosing quote being
    [quote]. *)
Definition repr_char (quote : N) (n : N) : string :=
  if ((n =? quote) || (n =? 92))%N then backslash ++ chr n
  else if (n =? 9)%N then backslash ++ "t"
  else if (n =? 10)%N then backslash ++ "n"
  else if (n =? 13)%N then backslash ++ "r"
  else if ((n <? 32) || (n =? 127))%N then backslash ++ "x" ++ hex2 n
  else chr n.

(** A character above ASCII stays as it is when it is printable, and
    is escaped by its code point when it is not. *)
Definition repr_code_point (cp : N) (bytes : string) : string :=
  if printable cp then bytes
  else if (cp <? 256)%N then backslash ++ "x" ++ hex2 cp
  else if (cp <? 65536)%N then backslash ++ "u" ++ hex4 cp
  else backslash ++ "U" ++ hex8 cp.

Definition repr_chars (quote : N) (s : string) : string :=
  PyStr.join ""
    (map (fun ch : N * string =>
            if (fst ch <? 128)%N then repr_char quote (fst ch)
            else repr_code_point (fst ch) (snd ch))
       (code_points s)).

(** [repr(s)]: single quotes, unless [s] has a single quote and no
    double quote. *)
Definition repr_str (s : string) : string :=
  let quote :=
    if PyStr.contains s single_quote && negb (PyStr.contains s double_quote)
    then 34%N else 39%N in
  chr quote ++ repr_chars quote s ++ chr quote.

(** [repr(v)] *)
Fixpoint repr (v : value) : string :=
  match v with
  | VNone => "None"
  | VBool b => if b then "True" else "False"
  | VInt n => PyStr.of_int n
  | VFloat float_repr => float_repr
  | VStr s => repr_str s
  | VList items => "[" ++ PyStr.join ", " (map repr items) ++ "]"
  | VDict items =>
      "{" ++ PyStr.join ", "
               (map (fun kv => let '(k, x) := kv in
                               repr_str k ++ ": " ++ repr x) items)
          ++ "}"
  | VPath parts => "PosixPath(" ++ repr_str (Fs.str_absolute parts) ++ ")"
  end.

(** [str(v)], which an f-string applies to [{v}]. *)
Definition str (v : value) : string :=
  match v with
  | VStr s => s
  | VPath parts => Fs.str_absolute parts
  | _ => repr v
  end.

(** ** [json.dumps(v, indent=2)] *)

(** One ASCII character inside a JSON string ([ensure_ascii=True]). *)
Definition json_char (n : N) : string :=
  if (n =? 34)%N then backslash ++ double_quote
  else if (n =? 92)%N then backslash ++ backslash
  else if (n =? 8)%N then backslash ++ "b"
  else if (n =? 12)%N then backslash ++ "f"
  else if (n =? 10)%N then backslash ++ "n"
  else if (n =? 13)%N then backslash ++ "r"
  else if (n =? 9)%N then backslash ++ "t"
  else if ((n <? 32) || (n =? 127))%N then backslash ++ "u" ++ hex4 n
  else chr n.

(** A code point above ASCII: [\uXXXX], a surrogate pair above the
    basic plane. *)
Definition json_code_point (cp : N) : string :=
  if (cp <? 65536)%N then backslash ++ "u" ++ hex4 cp
  else
    let v := (cp - 65536)%N in
    backslash ++ "u" ++ hex4 (55296 + v / 1024)%N
      ++ backslash ++ "u" ++ hex4 (56320 + v mod 1024)%N.

(** The body of a JSON string: every character above ASCII is
    escaped, a stray byte as its lone surrogate. *)
Definition json_chars (s : string) : string :=
  PyStr.join ""
    (map (fun ch : N * string =>
            if (fst ch <? 128)%N then json_char (fst ch)
            else json_code_point (fst ch))
       (code_points s)).

Definition json_string (s : string) : string :=
  double_quote ++ json_chars s ++ double_quote.

Definition newline_indent (level : nat) : string :=
  newline ++ PyStr.repeat "  " level.

(** A float: its [repr], but for the three values JSON has no
    literal for. *)
Definition json_float (repr : string) : string :=
  if String.eqb repr "nan" then "NaN"
  else if String.eqb repr "inf" then "Infinity"
  else if String.eqb repr "-inf" then "-Infinity"
  else repr.

(** The encoder at nesting depth [level], with [indent=2].  A value
    that is none of dict, list, str, int, float, bool or [None] has no
    encoding: [TypeError]. *)
Fixpoint dumps_at (level : nat) (v : value) : result string :=
  match v with
  | VNone => Return "null"
  | VBool b => Return (if b then "true" else "false")
  | VInt n => Return (PyStr.of_int n)
  | VFloat repr => Return (json_float repr)
  | VStr s => Return (json_string s)
  | VList items =>
      chunks <- for_each (dumps_at (S level)) items ;;
      Return
        (match chunks with
         | [] => "[]"
         | _ => "[" ++ newline_indent (S level)
                    ++ PyStr.join ("," ++ newline_indent (S level)) chunks
                    ++ newline_indent level ++ "]"
         end)
  | VDict items =>
      chunks <-
        for_each (fun kv : string * value =>
                    let (k, x) := kv in
                    chunk <- dumps_at (S level) x ;;
                    Return (json_string k ++ ": " ++ chunk))
          items ;;
      Return
        (match chunks with
         | [] => "{}"
         | _ => "{" ++ newline_indent (S level)
                    ++ PyStr.join ("," ++ newline_indent (S level)) chunks
                    ++ newline_indent level ++ "}"
         end)
  | VPath _ =>
      Raise (TypeError "Object of type PosixPath is not JSON serializable")
  end.

Definition json_dumps (v : value) : result string := dumps_at 0 v.

End Render.

(* ================================================================== *)
(** * EnvironmentDetector: the report *)
(* ================================================================== *)

(** The typed result dictionaries as the values [json.dumps] walks. *)
Definition value_of_findings (d : dict (dict value)) : value :=
  VDict (map (fun kv => (fst kv, VDict (snd kv))) d).
Definition value_of_suggestions (d : dict (list string)) : value :=
  VDict (map (fun kv => (fst kv, VList (map VStr (snd kv)))) d).
Definition value_of_tools (d : dict bool) : value :=
  VDict (map (fun kv => (fst kv, VBool (snd kv))) d).

(** The lines of one language block. *)
Definition language_lines (lang : string) (details : dict value)
  : result (list string) :=
  files_count <- Dict.getitem details "files_count" ;;
  version_line <-
    (if Dict.mem "current_version" details then
       current_version <- Dict.getitem details "current_version" ;;
       Return ["    Version: " ++ Render.str current_version]
     else Return []) ;;
  Return
    (["  " ++ PyStr.upper lang ++ ":";
      "    Files: " ++ Render.str files_count]
     +++ version_line
     +++ map (fun kv =>
               "    " ++ PyStr.title (PyStr.replace_char "_" " " (fst kv))
                      ++ ": " ++ Render.str (snd kv))
          (filter (fun kv =>
                     negb (existsb (String.eqb (fst kv))
                             ["files_count"; "current_version"]))
             details)).

(** The lines of one infrastructure block. *)
Definition component_lines (component : string) (details : dict value)
  : list string :=
  ("  " ++ PyStr.upper component ++ ":")
  :: map (fun kv =>
            "    " ++ PyStr.title (PyStr.replace_char "_" " " (fst kv))
                   ++ ": " ++ Render.str (snd kv))
       details.

(** The lines of one suggestion block. *)
Definition category_lines (category : string) (items : list string)
  : list string :=
  ("  " ++ PyStr.upper category ++ ":")
  :: map (fun item => "    • " ++ item) items.

Definition tool_line (tool : string) (available : bool) : string :=
  let status := if available then "✅" else "❌" in
  "  " ++ status ++ " " ++ tool.

Definition suggestions_header : string :=
  Render.newline ++ "💡 ENVIRONMENT ISOLATION SUGGESTIONS:".

(** The [report] list of the console branch, line by line. *)
Definition console_report (languages infra : dict (dict value))
  (suggestions : dict (list string)) (security_tools : dict bool)
  : result (list string) :=
  language_blocks <-
    for_each (fun kv => language_lines (fst kv) (snd kv)) languages ;;
  Return
    (["🔍 ENVIRONMENT DETECTION REPORT";
      PyStr.repeat "=" 50;
      Render.newline ++ "📚 DETECTED LANGUAGES:"]
     (* Languages section *)
     +++ concat language_blocks
     (* Infrastructure section *)
     +++ (if nonempty infra then
           (Render.newline ++ "🏗️  INFRASTRUCTURE:")
           :: flat_map (fun kv => component_lines (fst kv) (snd kv)) infra
         else [])
     (* Suggestions section *)
     +++ (if nonempty suggestions then
           suggestions_header
           :: flat_map (fun kv => category_lines (fst kv) (snd kv)) suggestions
         else [])
     (* Security tools section *)
     +++ (Render.newline ++ "🛡️  SECURITY TOOLS AVAILABILITY:")
     :: map (fun kv => tool_line (fst kv) (snd kv)) security_tools).

Definition generate_report (w : world) (format_type : string)
  : result string :=
  let languages := detect_languages w in
  let infra := detect_infrastructure w in
  suggestions <- suggest_environment_isolation w ;;
  let security_tools := check_security_tools w in
  if String.eqb format_type "json" then
    Render.json_dumps
      (VDict [ ("languages", value_of_findings languages);
               ("infrastructure", value_of_findings infra);
               ("suggestions", value_of_suggestions suggestions);
               ("security_tools", value_of_tools security_tools) ])
  else
    (* Console format *)
    report <- console_report languages infra suggestions security_tools ;;
    Return (PyStr.join Render.newline report).

(* ================================================================== *)
(** * Vocabulary of the specification *)
(* ================================================================== *)

Definition supported_languages : list string :=
  ["python"; "nodejs"; "go"; "rust"].

(** The version command the getter of each language runs. *)
Definition version_command (w : world) (lang : string) : list string :=
  if String.eqb lang "python" then [sys_executable w; "--version"]
  else if String.eqb lang "nodejs" then ["node"; "--version"]
  else if String.eqb lang "go" then ["go"; "version"]
  else ["rustc"; "--version"].

Definition security_tool_names : list string :=
  ["bandit"; "safety"; "npm_audit"; "snyk"; "semgrep"; "gosec"].

(** The binary [check_security_tools] probes for a tool name. *)
Definition tool_binary (tool : string) : string :=
  if String.eqb tool "npm_audit" then "npm" else tool.

(** The command cannot be launched at all (the binary is missing). *)
Definition launch_fails (w : world) (cwd : option path) (args : list string)
  : Prop :=
  exists e, spawn w cwd args = Raise e.

(** The command cannot be launched, or it exits nonzero. *)
Definition invocation_fails (w : world) (cwd : option path)
  (args : list string) : Prop :=
  match spawn w cwd args with
  | Raise _ => True
  | Return p => returncode p <> 0%Z
  end.

(** "Checking a fixed, ordered list of lockfile names and returning the
    first match, unknown if none match", in the specification's words. *)
Fixpoint first_lockfile (w : world) (table : list (string * string))
  : string :=
  match table with
  | [] => "unknown"
  | (lockfile, manager) :: rest =>
      if Fs.exists_ w [lockfile] then manager else first_lockfile w rest
  end.

Definition node_lockfiles : list (string * string) :=
  [ ("yarn.lock", "yarn"); ("pnpm-lock.yaml", "pnpm");
    ("package-lock.json", "npm") ].

(** "Known front-end framework names in a fixed priority order: first
    match wins", in the specification's words; each known dependency
    name with the framework it stands for. *)
Fixpoint first_framework (present : string -> bool)
  (priority : list (string * string)) : option string :=
  match priority with
  | [] => None
  | (dependency, framework) :: rest =>
      if present dependency then Some framework
      else first_framework present rest
  end.

Definition framework_priority : list (string * string) :=
  [ ("react", "react"); ("vue", "vue"); ("@angular/core", "angular");
    ("svelte", "svelte") ].

Definition docker_suggestion : string :=
  "Consider Docker for consistent development environment".

(** A pattern without [*]. *)
Fixpoint literal (pattern : string) : bool :=
  match pattern with
  | EmptyString => true
  | String c pattern' => negb (Ascii.eqb c "*") && literal pattern'
  end.

(** A name carries an extension when it ends with it. *)
Definition has_extension (ext name : string) : Prop :=
  exists stem, name = stem ++ ext.

(** Some entry below the root, at any depth, carries the extension. *)
Definition source_exists (w : world) (ext : string) : Prop :=
  exists p, In p (Fs.walk w) /\ has_extension ext (Fs.name p).

(** The finding dictionaries [detect_languages] stores, one per
    language. *)
Definition python_finding (w : world) : dict value :=
  [ ("files_count", VInt (Z.of_nat (length (Fs.rglob w "*.py"))));
    ("current_version", of_optional (_get_python_version w));
    ("virtual_env", of_optional (_detect_python_env w));
    ("requirements", of_optional (_find_requirements w));
    ("package_manager", VStr (_detect_python_package_manager w)) ].

Definition nodejs_finding (w : world) : dict value :=
  [ ("files_count",
      VInt (Z.of_nat (length (Fs.rglob w "*.ts" +++ Fs.rglob w "*.js"))));
    ("current_version", of_optional (_get_node_version w));
    ("package_json", VBool (Fs.exists_ w ["package.json"]));
    ("package_manager", VStr (_detect_node_package_manager w));
    ("framework", of_optional (_detect_js_framework w)) ].

Definition go_finding (w : world) : dict value :=
  [ ("files_count", VInt (Z.of_nat (length (Fs.rglob w "*.go"))));
    ("current_version", of_optional (_get_go_version w));
    ("go_mod", VBool (Fs.exists_ w ["go.mod"])) ].

Definition rust_finding (w : world) : dict value :=
  [ ("files_count", VInt (Z.of_nat (length (Fs.rglob w "*.rs"))));
    ("current_version", of_optional (_get_rust_version w));
    ("cargo_toml", VBool (Fs.exists_ w ["Cargo.toml"])) ].

(** The test each language's block of [detect_languages] makes. *)
Definition python_signal (w : world) : bool :=
  nonempty (Fs.rglob w "*.py").
Definition nodejs_signal (w : world) : bool :=
  Fs.exists_ w ["package.json"]
  || nonempty (Fs.rglob w "*.ts") || nonempty (Fs.rglob w "*.js").
Definition go_signal (w : world) : bool :=
  nonempty (Fs.rglob w "*.go") || Fs.exists_ w ["go.mod"].
Definition rust_signal (w : world) : bool :=
  Fs.exists_ w ["Cargo.toml"] || nonempty (Fs.rglob w "*.rs").

(** The values [json.dumps] has an encoding for: those that hold no
    [Path] object at any depth. *)
Fixpoint serializable (v : value) : bool :=
  match v with
  | VPath _ => false
  | VList items => forallb serializable items
  | VDict items =>
      forallb (fun kv : string * value => let (_, x) := kv in serializable x)
        items
  | _ => true
  end.

(** The exception [json.dumps] raises on a [Path]. *)
Definition not_serializable_error : exn :=
  TypeError "Object of type PosixPath is not JSON serializable".

(** The document [generate_report] hands to [json.dumps]. *)
Definition report_document (w : world) (suggestions : dict (list string))
  : value :=
  VDict [ ("languages", value_of_findings (detect_languages w));
          ("infrastructure", value_of_findings (detect_infrastructure w));
          ("suggestions", value_of_suggestions suggestions);
          ("security_tools", value_of_tools (check_security_tools w)) ].

(** A dependency is listed when either section of [package.json] has
    it as a key. *)
Definition listed (deps dev : dict value) (name : string) : bool :=
  Dict.mem name deps || Dict.mem name dev.

(** The pieces of [detect_infrastructure]. *)
Definition docker_files (w : world) : list path :=
  flat_map (Fs.rglob w)
    ["Dockerfile*"; "docker-compose*.yml"; "docker-compose*.yaml"].

Definition compose_files (w : world) : list path :=
  filter (fun f => PyStr.contains (Fs.name f) "compose") (docker_files w).

Definition dockerfiles (w : world) : list path :=
  filter (fun f => PyStr.startswith (Fs.name f) "Dockerfile") (docker_files w).

Definition docker_finding (w : world) : dict value :=
  [ ("files", VList (map (fun f => VStr (Fs.str_relative f)) (docker_files w)));
    ("compose_files", VList (map (Fs.as_value w) (compose_files w)));
    ("dockerfiles", VList (map (Fs.as_value w) (dockerfiles w))) ].

Definition git_finding (w : world) : dict value :=
  [ ("current_branch", of_optional (_get_git_branch w));
    ("remote_url", of_optional (_get_git_remote w));
    ("uncommitted_changes", VBool (_has_uncommitted_changes w)) ].

Definition ci_files (w : world) : list string :=
  filter (fun pattern => Fs.exists_ w (Fs.joinpath [] pattern))
    [".github/workflows"; ".gitlab-ci.yml"; "Jenkinsfile"; ".travis.yml"].

Definition ci_finding (w : world) : dict value :=
  [ ("detected", VList (map VStr (ci_files w))) ].

(** What [_detect_python_env] reports when [VIRTUAL_ENV] does not
    decide: the [venv] directory, else the [.venv] directory, else
    nothing. *)
Definition venv_fallback (w : world) : option string :=
  if Fs.exists_ w ["venv"] then Some (Fs.str w ["venv"])
  else if Fs.exists_ w [".venv"] then Some (Fs.str w [".venv"])
  else None.

Definition python_package_managers : list string :=
  ["pipenv"; "poetry/pip"; "pip"; "unknown"].
Definition node_package_managers : list string :=
  ["yarn"; "pnpm"; "npm"; "unknown"].

(* ================================================================== *)
(** * Sample worlds *)
(* ================================================================== *)

Module Sample.

(** An environment where no external command can be launched. *)
Definition no_binaries (cwd : option path) (args : list string)
  : result CompletedProcess :=
  Raise (OSError "No such file or directory").

Definition not_json (p : path) : result value :=
  Raise (ValueError "Expecting value").

Definition make (entries : list entry) : world :=
  {| project_path := ["srv"; "app"];
     tree := entries;
     environ := [("HOME", "/root")];
     sys_executable := "/usr/bin/python3";
     spawn := no_binaries;
     load_json := not_json |}.

Definition empty_project : world := make [].

(** The only Python signal is a manifest. *)
Definition requirements_only : world := make [File "requirements.txt"].

(** The specification's example: [go.mod] and no [.go] file. *)
Definition go_mod_only : world := make [File "go.mod"].

Definition package_json_only : world := make [File "package.json"].

Definition cargo_toml_only : world := make [File "Cargo.toml"].

Definition js_only : world := make [Dir "src" [File "index.js"]].

(** [node] is installed but broken: it prints nothing on its standard
    output and exits with status 1; nothing else can be launched. *)
Definition broken_node (cwd : option path) (args : list string)
  : result CompletedProcess :=
  match args with
  | "node" :: _ => Return {| returncode := 1; stdout := "" |}
  | _ => Raise (OSError "No such file or directory")
  end.

Definition node_exits_nonzero : world :=
  {| project_path := ["srv"; "app"];
     tree := [Dir "src" [File "index.js"]];
     environ := [];
     sys_executable := "/usr/bin/python3";
     spawn := broken_node;
     load_json := not_json |}.

(** A string given by its bytes. *)
Definition bytes (codes : list nat) : string :=
  PyStr.join "" (map (fun code => Render.chr (N.of_nat code)) codes).

(** U+00A0, in UTF-8. *)
Definition no_break_space : string := bytes [194; 160].

(** [node] prints its version, surrounded by whitespace (a no-break
    space too), and exits with status 3; nothing else can be
    launched. *)
Definition node_banner : string :=
  "  v20.11.1" ++ no_break_space ++ Render.newline.

Definition noisy_node (cwd : option path) (args : list string)
  : result CompletedProcess :=
  match args with
  | "node" :: _ => Return {| returncode := 3; stdout := node_banner |}
  | _ => Raise (OSError "No such file or directory")
  end.

Definition node_prints_version : world :=
  {| project_path := ["srv"; "app"];
     tree := [File "index.js"];
     environ := [];
     sys_executable := "/usr/bin/python3";
     spawn := noisy_node;
     load_json := not_json |}.

(** [npm --version] succeeds; [npm audit --help] prints its usage and
    exits with status 1; nothing else can be launched. *)
Definition npm_usage_error (cwd : option path) (args : list string)
  : result CompletedProcess :=
  match args with
  | ["npm"; "--version"] =>
      Return {| returncode := 0; stdout := "10.2.4" ++ Render.newline |}
  | ["npm"; "audit"; "--help"] =>
      Return {| returncode := 1;
                stdout := "npm audit [fix|signatures]" ++ Render.newline |}
  | _ => Raise (OSError "No such file or directory")
  end.

Definition npm_audit_exits_nonzero : world :=
  {| project_path := ["srv"; "app"];
     tree := [File "package.json"];
     environ := [];
     sys_executable := "/usr/bin/python3";
     spawn := npm_usage_error;
     load_json := not_json |}.

Definition git_checkout : world := make [Dir ".git" []; File "README.md"].

Definition dockerfile_only : world := make [File "Dockerfile"].

Definition python_and_go : world :=
  make [File "app.py"; Dir "cmd" [File "main.go"]].

Definition python_and_go_docker : world :=
  make [File "app.py"; Dir "cmd" [File "main.go"];
        File "docker-compose.yml"].

Definition yarn_project : world :=
  make [File "package.json"; File "yarn.lock"].

(** A [package.json] that lists both React and Vue. *)
Definition react_and_vue : value :=
  VDict [ ("name", VStr "shop");
          ("dependencies", VDict [("vue", VStr "^3.4.0")]);
          ("devDependencies", VDict [("react", VStr "^18.2.0")]) ].

Definition react_project : world :=
  {| project_path := ["srv"; "app"];
     tree := [File "package.json"];
     environ := [];
     sys_executable := "/usr/bin/python3";
     spawn := no_binaries;
     load_json := fun _ => Return react_and_vue |}.

(** A [package.json] that lists React and whose [devDependencies] is
    [null]. *)
Definition react_null_dev : value :=
  VDict [ ("name", VStr "shop");
          ("dependencies", VDict [("react", VStr "^18.2.0")]);
          ("devDependencies", VNone) ].

Definition react_null_dev_project : world :=
  {| project_path := ["srv"; "app"];
     tree := [File "package.json"];
     environ := [];
     sys_executable := "/usr/bin/python3";
     spawn := no_binaries;
     load_json := fun _ => Return react_null_dev |}.

Definition with_environ (env : dict string) (entries : list entry)
  : world :=
  {| project_path := ["srv"; "app"];
     tree := entries;
     environ := env;
     sys_executable := "/usr/bin/python3";
     spawn := no_binaries;
     load_json := not_json |}.

(** [VIRTUAL_ENV] names an environment outside the project. *)
Definition activated : world :=
  with_environ [("VIRTUAL_ENV", "/opt/envs/tools")] [File "app.py"].

(** [VIRTUAL_ENV] is set, to the empty string, next to a [venv]. *)
Definition empty_virtual_env : world :=
  with_environ [("VIRTUAL_ENV", "")] [File "app.py"; Dir "venv" []].

(** The same environment, without the [venv] directory. *)
Definition empty_virtual_env_bare : world :=
  with_environ [("VIRTUAL_ENV", "")] [File "app.py"].

Definition unset_virtual_env : world :=
  with_environ [] [File "app.py"; Dir "venv" []].

End Sample.

(* ================================================================== *)
(** * The test fixture ([test-project/app.py]) *)
(* ================================================================== *)

Module App.

(** What [process] asks of an item: the test [item > 0] and the
    product [item*2].  Either may raise. *)
Class Item (A : Type) : Type :=
  { greater_than_zero : A -> result bool;
    times_two : A -> result A }.

Section Process.
Context {A : Type} {item_ops : Item A}.

(** The loop of [process]; [results] is the list built so far. *)
Fixpoint process_loop (results items : list A) : result (list A) :=
  match items with
  | [] => Return results
  | item :: rest =>
      test <- greater_than_zero item ;;
      if (test : bool) then
        doubled <- times_two item ;;
        process_loop (results +++ [doubled]) rest
      else process_loop results rest
  end.

(** [DataProcessor.process(items)] *)
Definition process (items : list A) : result (list A) :=
  process_loop [] items.

End Process.

(** The built-in objects a caller may put in [items]: [int], [bool],
    [float], [str] and [None]. *)
Inductive object : Type :=
| Int (n : Z)
| Bool (b : bool)
| Float (x : float)
| Str (s : string)
| NoneObject.

(** [type(x).__name__] *)
Definition type_name (x : object) : string :=
  match x with
  | Int _ => "int"
  | Bool _ => "bool"
  | Float _ => "float"
  | Str _ => "str"
  | NoneObject => "NoneType"
  end.

(** [x > 0]: numbers are compared, [True] being 1 and [False] 0; a
    string and [None] are not ordered against an [int]. *)
Definition object_greater_than_zero (x : object) : result bool :=
  match x with
  | Int n => Return (n >? 0)%Z
  | Bool b => Return b
  | Float x => Return (0 <? x)%float
  | Str _ | NoneObject =>
      Raise (TypeError ("'>' not supported between instances of '"
                          ++ type_name x ++ "' and 'int'"))
  end.

(** [x * 2]: an [int] for an [int] or a [bool], the IEEE product for a
    [float], the string repeated for a [str]. *)
Definition object_times_two (x : object) : result object :=
  match x with
  | Int n => Return (Int (n * 2))
  | Bool b => Return (Int (if b then 2 else 0))
  | Float x => Return (Float (x * 2)%float)
  | Str s => Return (Str (s ++ s))
  | NoneObject =>
      Raise (TypeError
               "unsupported operand type(s) for *: 'NoneType' and 'int'")
  end.

#[global] Instance object_item : Item object :=
  {| greater_than_zero := object_greater_than_zero;
     times_two := object_times_two |}.

(** The numbers among the objects, those greater than zero, and the
    double of a number. *)
Definition is_number (x : object) : bool :=
  match x with
  | Int _ | Bool _ | Float _ => true
  | Str _ | NoneObject => false
  end.

Definition positive (x : object) : bool :=
  match x with
  | Int n => (0 <? n)%Z
  | Bool b => b
  | Float x => (0 <? x)%float
  | Str _ | NoneObject => false
  end.

Definition double (x : object) : object :=
  match x with
  | Int n => Int (2 * n)
  | Bool true => Int 2
  | Bool false => Int 0
  | Float x => Float (x * 2)%float
  | Str _ | NoneObject => x
  end.

End App.

(* ================================================================== *)
(** * Further vocabulary *)
(* ================================================================== *)

(** The file lists of the helpers, as the source writes them. *)
Definition req_files : list string :=
  ["requirements.txt"; "pyproject.toml"; "setup.py"; "Pipfile"].

Definition ci_patterns : list string :=
  [".github/workflows"; ".gitlab-ci.yml"; "Jenkinsfile"; ".travis.yml"].

Definition dockerfile_patterns : list string :=
  ["Dockerfile*"; "docker-compose*.yml"; "docker-compose*.yaml"].

Definition infrastructure_keys : list string := ["docker"; "git"; "ci_cd"].

(** The section headers of the console report. *)
Definition infrastructure_header : string :=
  Render.newline ++ "🏗️  INFRASTRUCTURE:".

Definition security_tools_header : string :=
  Render.newline ++ "🛡️  SECURITY TOOLS AVAILABILITY:".

(** The lines of a printed text are the pieces between its line
    feeds. *)
Definition line_feed : ascii := ascii_of_N 10.

Definition printed_lines (text : string) : list string :=
  PyStr.split line_feed text.

(** A string that holds no line feed. *)
Fixpoint single_line (s : string) : bool :=
  match s with
  | EmptyString => true
  | String c s' => negb (Ascii.eqb c line_feed) && single_line s'
  end.

(** No value of a finding is printed with a line feed in it. *)
Definition single_line_values (findings : dict (dict value)) : bool :=
  forallb (fun finding : string * dict value =>
             forallb (fun field : string * value =>
                        single_line (Render.str (snd field)))
               (snd finding))
    findings.

(** No category and no item of the suggestions holds a line feed. *)
Definition single_line_suggestions (suggestions : dict (list string))
  : bool :=
  forallb (fun entry : string * list string =>
             single_line (PyStr.upper (fst entry))
             && forallb single_line (snd entry))
    suggestions.

(** A line of the report that is indented: it starts with a space. *)
Definition indented (line : string) : bool := PyStr.startswith line " ".

(** The suggestions of the four languages, read off the world. *)
Definition python_suggestions (w : world) : list string :=
  (match _detect_python_env w with
   | None => ["Create Python virtual environment (venv/virtualenv)"]
   | Some _ => []
   end)
  +++ (match _find_requirements w with
       | None => ["Create requirements.txt or pyproject.toml"]
       | Some _ => []
       end)
  +++ ["Consider pyenv for Python version management"].

Definition nodejs_suggestions (w : world) : list string :=
  (if Fs.exists_ w ["package.json"] then [] else ["Initialize package.json"])
  +++ ["Consider nvm for Node.js version management"]
  +++ (match _detect_js_framework w with
       | Some framework =>
           if existsb (String.eqb framework) ["react"; "vue"; "angular"]
           then ["Use framework-specific dev containers"] else []
       | None => []
       end).

Definition go_suggestions (w : world) : list string :=
  (if Fs.exists_ w ["go.mod"] then [] else ["Initialize go.mod"])
  +++ ["Consider Go workspace for multi-module projects"].

Definition rust_suggestions (w : world) : list string :=
  if Fs.exists_ w ["Cargo.toml"] then [] else ["Initialize Cargo.toml"].

(* ================================================================== *)
(** * Sanity checks of the string model *)
(* ================================================================== *)

Example strip_version :
  PyStr.strip ("  v20.1.0" ++ Render.newline) = "v20.1.0".
Proof. reflexivity. Qed.

Example strip_unicode_whitespace :
  PyStr.strip (Sample.bytes [194; 160] ++ " v20.11.1 "
                 ++ Sample.bytes [194; 133; 227; 128; 128; 10])
  = "v20.11.1"
  /\ PyStr.strip (Sample.bytes [226; 128; 168; 32; 225; 154; 128]) = ""
  /\ PyStr.strip ("a" ++ Sample.bytes [226; 128; 139])
     = "a" ++ Sample.bytes [226; 128; 139]
  /\ PyStr.strip (Sample.bytes [226; 128; 139] ++ " b c" ++ Sample.bytes [9])
     = Sample.bytes [226; 128; 139] ++ " b c".
Proof. repeat split; reflexivity. Qed.

Example title_key :
  PyStr.title (PyStr.replace_char "_" " " "virtual_env") = "Virtual Env".
Proof. reflexivity. Qed.

Example fnmatch_examples :
  PyStr.fnmatch "docker-compose*.yml" "docker-compose.dev.yml" = true
  /\ PyStr.fnmatch "docker-compose*.yml" "docker-compose.yaml" = false
  /\ PyStr.fnmatch "*.py" "setup.py" = true
  /\ PyStr.fnmatch "*.py" "requirements.txt" = false.
Proof. repeat split; reflexivity. Qed.

Example of_int_ex : PyStr.of_int 0 = "0" /\ PyStr.of_int 42 = "42".
Proof. split; reflexivity. Qed.

Example split_parts :
  Fs.parts_of ".github/workflows" = [".github"; "workflows"].
Proof. reflexivity. Qed.

Example str_of_list :
  Render.str (VList [VStr "Dockerfile"; VStr "d/docker-compose.yml"])
  = "['Dockerfile', 'd/docker-compose.yml']"
  /\ Render.str (VList [VPath ["srv"; "app"; "Dockerfile"]])
     = "[PosixPath('/srv/app/Dockerfile')]"
  /\ Render.str VNone = "None"
  /\ Render.str (VBool false) = "False".
Proof. repeat split; reflexivity. Qed.

Example repr_of_characters :
  Render.repr_str ("a" ++ Sample.bytes [194; 160]) = "'a\xa0'"
  /\ Render.repr_str (Sample.bytes [195; 169])
     = "'" ++ Sample.bytes [195; 169] ++ "'"
  /\ Render.repr_str (Sample.bytes [226; 128; 168]) = "'\u2028'"
  /\ Render.repr_str (Sample.bytes [243; 160; 128; 129]) = "'\U000e0001'"
  /\ Render.repr_str (Sample.bytes [233] ++ "t") = "'\udce9t'"
  /\ Render.repr_str (Sample.bytes [192; 128]) = "'\udcc0\udc80'"
  /\ Render.repr_str ("a" ++ Sample.bytes [9; 127])
     = "'a\t\x7f'"
  /\ Render.repr_str "it's"
     = Render.double_quote ++ "it's" ++ Render.double_quote.
Proof. repeat split; reflexivity. Qed.

Example json_of_characters :
  Render.json_chars (Sample.bytes [192; 128]) = "\udcc0\udc80"
  /\ Render.json_chars (Sample.bytes [237; 160; 128])
     = "\udced\udca0\udc80"
  /\ Render.json_chars (Sample.bytes [244; 144; 128; 128])
     = "\udcf4\udc90\udc80\udc80"
  /\ Render.json_chars (Sample.bytes [226; 130]) = "\udce2\udc82"
  /\ Render.json_chars ("a" ++ Sample.bytes [194; 160]) = "a\u00a0"
  /\ Render.json_chars (Sample.bytes [243; 160; 128; 129])
     = "\udb40\udc01".
Proof. repeat split; reflexivity. Qed.

Example json_dumps_list :
  Render.json_dumps (VList [VInt 1; VNone; VBool true])
  = Return ("[" ++ Render.newline ++ "  1," ++ Render.newline
                ++ "  null," ++ Render.newline ++ "  true" ++ Render.newline
                ++ "]")
  /\ Render.json_dumps (VDict []) = Return "{}"
  /\ Render.json_chars "é😀" = "\u00e9\ud83d\ude00".
Proof. repeat split; reflexivity. Qed.

Example console_report_of_empty_project :
  generate_report Sample.empty_project "console" = Return
"🔍 ENVIRONMENT DETECTION REPORT
==================================================

📚 DETECTED LANGUAGES:

🛡️  SECURITY TOOLS AVAILABILITY:
  ❌ bandit
  ❌ safety
  ❌ npm_audit
  ❌ snyk
  ❌ semgrep
  ❌ gosec".
Proof. reflexivity. Qed.

Example console_report_of_go_module :
  generate_report Sample.go_mod_only "console" = Return
"🔍 ENVIRONMENT DETECTION REPORT
==================================================

📚 DETECTED LANGUAGES:
  GO:
    Files: 0
    Version: None
    Go Mod: True

💡 ENVIRONMENT ISOLATION SUGGESTIONS:
  GO:
    • Consider Go workspace for multi-module projects

🛡️  SECURITY TOOLS AVAILABILITY:
  ❌ bandit
  ❌ safety
  ❌ npm_audit
  ❌ snyk
  ❌ semgrep
  ❌ gosec".
Proof. reflexivity. Qed.

(* ================================================================== *)
(** * Facts about dictionaries *)
(* ================================================================== *)

Section DictFacts.
Context {V : Type}.
Implicit Types (d : dict V) (k : string) (v : V).

Lemma get_set d k v k' :
  Dict.get (Dict.set d k v) k' =
  if String.eqb k k' then Some v else Dict.get d k'.
Proof.
  induction d as [|[k0 v0] d IH]; simpl.
  - reflexivity.
  - destruct (String.eqb_spec k0 k) as [->|Hne]; simpl.
    + destruct (String.eqb k k'); reflexivity.
    + rewrite IH.
      destruct (String.eqb_spec k0 k') as [->|Hne'].
      * destruct (String.eqb_spec k k'); [congruence | reflexivity].
      * reflexivity.
Qed.

Lemma mem_set d k v k' :
  Dict.mem k' (Dict.set d k v) = String.eqb k k' || Dict.mem k' d.
Proof.
  unfold Dict.mem. rewrite get_set.
  destruct (String.eqb k k'); reflexivity.
Qed.

Lemma mem_cons k0 v0 d k :
  Dict.mem k ((k0, v0) :: d) = String.eqb k0 k || Dict.mem k d.
Proof. unfold Dict.mem. simpl. now destruct (String.eqb k0 k). Qed.

Lemma mem_merge (a b : dict V) k :
  Dict.mem k (Dict.merge a b) = Dict.mem k a || Dict.mem k b.
Proof.
  unfold Dict.merge. revert a.
  induction b as [|[k0 v0] b IH]; intros a; simpl.
  - now rewrite orb_false_r.
  - rewrite IH, mem_set, mem_cons.
    destruct (String.eqb k0 k), (Dict.mem k a), (Dict.mem k b);
      reflexivity.
Qed.

End DictFacts.

(** Comparisons between two literal keys are decided by computation;
    comparisons with a variable key are left alone. *)
Ltac keys :=
  repeat match goal with
         | |- context [String.eqb ?a ?b] =>
             let r := eval compute in (String.eqb a b) in
             match r with
             | true => change (String.eqb a b) with true
             | false => change (String.eqb a b) with false
             end
         end;
  cbv iota.

Ltac keys_in H :=
  repeat match type of H with
         | context [String.eqb ?a ?b] =>
             let r := eval compute in (String.eqb a b) in
             match r with
             | true => change (String.eqb a b) with true in H
             | false => change (String.eqb a b) with false in H
             end
         end;
  cbv iota in H.

(* ================================================================== *)
(** * The shape of the detection results *)
(* ================================================================== *)

(** [detect_languages] lays the findings out block by block, in the
    order python, nodejs, go, rust. *)
Lemma detect_languages_blocks (w : world) :
  detect_languages w =
    (if python_signal w then [("python", python_finding w)] else [])
    +++ (if nodejs_signal w then [("nodejs", nodejs_finding w)] else [])
    +++ (if go_signal w then [("go", go_finding w)] else [])
    +++ (if rust_signal w then [("rust", rust_finding w)] else []).
Proof.
  unfold detect_languages, python_signal, nodejs_signal, go_signal, rust_signal.
  change (Fs.joinpath [] "package.json") with ["package.json"].
  change (Fs.joinpath [] "go.mod") with ["go.mod"].
  change (Fs.joinpath [] "Cargo.toml") with ["Cargo.toml"].
  fold (python_finding w) (nodejs_finding w) (go_finding w) (rust_finding w).
  destruct (nonempty (Fs.rglob w "*.py"));
    destruct (Fs.exists_ w ["package.json"] || nonempty (Fs.rglob w "*.ts")
              || nonempty (Fs.rglob w "*.js"));
    destruct (nonempty (Fs.rglob w "*.go") || Fs.exists_ w ["go.mod"]);
    destruct (Fs.exists_ w ["Cargo.toml"] || nonempty (Fs.rglob w "*.rs"));
    reflexivity.
Qed.

(** Looking a language up in the result. *)
Lemma detect_languages_get (w : world) (lang : string) :
  Dict.get (detect_languages w) lang =
    if String.eqb lang "python" then
      if python_signal w then Some (python_finding w) else None
    else if String.eqb lang "nodejs" then
      if nodejs_signal w then Some (nodejs_finding w) else None
    else if String.eqb lang "go" then
      if go_signal w then Some (go_finding w) else None
    else if String.eqb lang "rust" then
      if rust_signal w then Some (rust_finding w) else None
    else None.
Proof.
  rewrite detect_languages_blocks.
  destruct (python_signal w), (nodejs_signal w), (go_signal w), (rust_signal w);
    cbn [List.app Dict.get];
    rewrite ?(String.eqb_sym _ lang);
    destruct (String.eqb_spec lang "python") as [->|]; try reflexivity;
    destruct (String.eqb_spec lang "nodejs") as [->|]; try reflexivity;
    destruct (String.eqb_spec lang "go") as [->|]; try reflexivity;
    destruct (String.eqb_spec lang "rust") as [->|]; reflexivity.
Qed.

(** A language has an entry exactly when its block's test passes. *)
Lemma language_detected (w : world) :
  Dict.mem "python" (detect_languages w) = python_signal w
  /\ Dict.mem "nodejs" (detect_languages w) = nodejs_signal w
  /\ Dict.mem "go" (detect_languages w) = go_signal w
  /\ Dict.mem "rust" (detect_languages w) = rust_signal w.
Proof.
  unfold Dict.mem. rewrite !detect_languages_get.
  destruct (python_signal w), (nodejs_signal w), (go_signal w), (rust_signal w);
    repeat split; reflexivity.
Qed.

(** Every item of the result is one of the four blocks. *)
Lemma detect_languages_items (w : world) (lang : string)
  (details : dict value) :
  In (lang, details) (detect_languages w) ->
  (lang = "python" /\ details = python_finding w)
  \/ (lang = "nodejs" /\ details = nodejs_finding w)
  \/ (lang = "go" /\ details = go_finding w)
  \/ (lang = "rust" /\ details = rust_finding w).
Proof.
  rewrite detect_languages_blocks.
  destruct (python_signal w), (nodejs_signal w), (go_signal w), (rust_signal w);
    cbn [List.app In]; intros H;
    repeat match goal with
      | H : _ \/ _ |- _ => destruct H as [H|H]
      | H : (_, _) = (_, _) |- _ => injection H as <- <-
      | H : False |- _ => destruct H
      end;
    auto 6.
Qed.

Lemma detect_languages_keys (w : world) (lang : string) :
  In lang (Dict.keys (detect_languages w)) -> In lang supported_languages.
Proof.
  unfold Dict.keys. rewrite in_map_iff. intros [[k details] [<- Hin]].
  apply detect_languages_items in Hin. unfold supported_languages. simpl.
  intuition.
Qed.

(* ================================================================== *)
(** * The suggestion loop *)
(* ================================================================== *)

(** Only the python block indexes its details, by ["virtual_env"]. *)
Lemma lang_suggestions_returns (lang : string) (details : dict value) :
  (lang = "python" -> Dict.mem "virtual_env" details = true) ->
  exists items, lang_suggestions lang details = Return items.
Proof.
  intros Hpy. unfold lang_suggestions.
  destruct (String.eqb_spec lang "python") as [->|_].
  - specialize (Hpy eq_refl). unfold Dict.mem in Hpy. unfold Dict.getitem.
    destruct (Dict.get details "virtual_env"); [|discriminate].
    cbn [bind]. eauto.
  - destruct (String.eqb lang "nodejs"); [eauto|].
    destruct (String.eqb lang "go"); [eauto|].
    destruct (String.eqb lang "rust"); eauto.
Qed.

(** The loop returns when each block does, and it only writes under
    the keys it iterates over. *)
Lemma suggest_for_languages_returns (items : list (string * dict value)) :
  (forall lang details, In (lang, details) items ->
     exists l, lang_suggestions lang details = Return l) ->
  forall suggestions, exists s,
    suggest_for_languages items suggestions = Return s
    /\ forall k, ~ In k (map fst items) ->
         Dict.get s k = Dict.get suggestions k.
Proof.
  induction items as [|[lang details] items IH]; intros Hall suggestions.
  - exists suggestions. split; [reflexivity | auto].
  - destruct (Hall lang details (or_introl eq_refl)) as [l Hl].
    cbn [suggest_for_languages]. rewrite Hl. cbn [bind].
    destruct (IH (fun a b H => Hall a b (or_intror H))
                (if nonempty l then Dict.set suggestions lang l
                 else suggestions)) as [s [Hs Hkeys]].
    exists s. split; [exact Hs|].
    intros k Hk. cbn [map fst In] in Hk.
    rewrite Hkeys by tauto.
    destruct (nonempty l); [|reflexivity].
    rewrite get_set.
    destruct (String.eqb_spec lang k); [tauto | reflexivity].
Qed.

Lemma detected_suggestions_return (w : world) :
  exists s,
    suggest_for_languages (detect_languages w) [] = Return s
    /\ Dict.get s "general" = None.
Proof.
  destruct (@suggest_for_languages_returns (detect_languages w)) with
    (suggestions := @nil (string * list string)) as [s [Hs Hkeys]].
  - intros lang details Hin. apply lang_suggestions_returns. intros ->.
    apply detect_languages_items in Hin.
    destruct Hin as [[_ ->]|[[E _]|[[E _]|[E _]]]];
      [reflexivity | discriminate E ..].
  - exists s. split; [exact Hs|].
    rewrite Hkeys; [reflexivity|].
    intros Hin. apply (detect_languages_keys w) in Hin.
    unfold supported_languages in Hin. simpl in Hin.
    repeat destruct Hin as [Hin|Hin]; try discriminate Hin. exact Hin.
Qed.

(** [suggest_environment_isolation] never raises, and its ["general"]
    entry is decided by the Docker test alone. *)
Lemma suggest_environment_isolation_returns (w : world) :
  exists s,
    suggest_environment_isolation w = Return s
    /\ Dict.get s "general" =
         if negb (Dict.mem "docker" (detect_infrastructure w))
            && (1 <? length (detect_languages w))
         then Some [docker_suggestion] else None.
Proof.
  destruct (detected_suggestions_return w) as [s0 [Hs0 Hgen]].
  unfold suggest_environment_isolation. rewrite Hs0. cbn [bind].
  destruct (negb (Dict.mem "docker" (detect_infrastructure w))
            && (1 <? length (detect_languages w))).
  - unfold Dict.getitem, Dict.get_default.
    rewrite get_set, Hgen. cbn [String.eqb Ascii.eqb Bool.eqb bind].
    eexists. split; [reflexivity|].
    rewrite get_set. reflexivity.
  - exists s0. split; [reflexivity | exact Hgen].
Qed.

(* ================================================================== *)
(** * Infrastructure findings *)
(* ================================================================== *)

Lemma detect_infrastructure_blocks (w : world) :
  detect_infrastructure w =
    (if nonempty (docker_files w) then [("docker", docker_finding w)] else [])
    +++ (if Fs.exists_ w [".git"] then [("git", git_finding w)] else [])
    +++ (if nonempty (ci_files w) then [("ci_cd", ci_finding w)] else []).
Proof.
  unfold detect_infrastructure.
  change (Fs.joinpath [] ".git") with [".git"].
  fold (docker_files w). fold (compose_files w) (dockerfiles w).
  fold (docker_finding w) (git_finding w). fold (ci_files w).
  fold (ci_finding w).
  destruct (nonempty (docker_files w)), (Fs.exists_ w [".git"]),
    (nonempty (ci_files w)); reflexivity.
Qed.

Lemma detect_infrastructure_docker (w : world) :
  Dict.get (detect_infrastructure w) "docker" =
    if nonempty (docker_files w) then Some (docker_finding w) else None.
Proof.
  rewrite detect_infrastructure_blocks.
  destruct (nonempty (docker_files w)), (Fs.exists_ w [".git"]),
    (nonempty (ci_files w)); reflexivity.
Qed.

Lemma detect_infrastructure_git (w : world) :
  Dict.get (detect_infrastructure w) "git" =
    if Fs.exists_ w [".git"] then Some (git_finding w) else None.
Proof.
  rewrite detect_infrastructure_blocks.
  destruct (nonempty (docker_files w)), (Fs.exists_ w [".git"]),
    (nonempty (ci_files w)); reflexivity.
Qed.

(* ================================================================== *)
(** * The console report *)
(* ================================================================== *)

Lemma for_each_returns {A B : Type} (f : A -> result B) (xs : list A) :
  (forall x, In x xs -> exists y, f x = Return y) ->
  exists ys, for_each f xs = Return ys.
Proof.
  induction xs as [|x xs IH]; intros Hall.
  - exists []. reflexivity.
  - destruct (Hall x (or_introl eq_refl)) as [y Hy].
    destruct (IH (fun a H => Hall a (or_intror H))) as [ys Hys].
    exists (y :: ys). cbn [for_each]. rewrite Hy, Hys. reflexivity.
Qed.

Lemma language_lines_returns (lang : string) (details : dict value) :
  Dict.mem "files_count" details = true ->
  exists lines, language_lines lang details = Return lines.
Proof.
  unfold language_lines, Dict.getitem, Dict.mem.
  destruct (Dict.get details "files_count"); [intros _|discriminate].
  cbn [bind].
  destruct (Dict.get details "current_version"); cbn [bind]; eauto.
Qed.

Lemma console_report_returns (w : world) (infra : dict (dict value))
  (suggestions : dict (list string)) (security_tools : dict bool) :
  exists report,
    console_report (detect_languages w) infra suggestions security_tools
    = Return report.
Proof.
  unfold console_report.
  destruct (@for_each_returns _ _
              (fun kv : string * dict value => language_lines (fst kv) (snd kv))
              (detect_languages w)) as [blocks Hblocks].
  - intros [lang details] Hin. apply language_lines_returns.
    apply detect_languages_items in Hin.
    destruct Hin as [[_ ->]|[[_ ->]|[[_ ->]|[_ ->]]]]; reflexivity.
  - rewrite Hblocks. cbn [bind]. eauto.
Qed.

(** In console mode the report is always produced. *)
Lemma generate_report_console_returns (w : world) :
  exists text, generate_report w "console" = Return text.
Proof.
  unfold generate_report.
  destruct (suggest_environment_isolation_returns w) as [s [-> _]].
  cbn [bind].
  keys.
  destruct (console_report_returns w (detect_infrastructure w) s
              (check_security_tools w)) as [report ->].
  cbn [bind]. eauto.
Qed.

(** With no language and no infrastructure the report is the three
    header lines and the security-tools block. *)
Lemma console_report_nothing (security_tools : dict bool) :
  console_report [] [] [] security_tools =
  Return
    (["🔍 ENVIRONMENT DETECTION REPORT";
      PyStr.repeat "=" 50;
      Render.newline ++ "📚 DETECTED LANGUAGES:";
      Render.newline ++ "🛡️  SECURITY TOOLS AVAILABILITY:"]
     +++ map (fun kv => tool_line (fst kv) (snd kv)) security_tools).
Proof. reflexivity. Qed.

(* ================================================================== *)
(** * What [json.dumps] encodes *)
(* ================================================================== *)

(** Induction over values, through the lists and dictionaries they
    nest in. *)
Lemma value_induction (P : value -> Prop) :
  P VNone ->
  (forall b, P (VBool b)) ->
  (forall n, P (VInt n)) ->
  (forall x, P (VFloat x)) ->
  (forall s, P (VStr s)) ->
  (forall items, Forall P items -> P (VList items)) ->
  (forall items, Forall (fun kv => P (snd kv)) items -> P (VDict items)) ->
  (forall parts, P (VPath parts)) ->
  forall v, P v.
Proof.
  intros HNone HBool HInt HFloat HStr HList HDict HPath.
  fix IH 1. intros [ |b|n|x|s|items|items|parts].
  - exact HNone.
  - apply HBool.
  - apply HInt.
  - apply HFloat.
  - apply HStr.
  - apply HList. induction items as [|x items IHitems]; constructor.
    + apply IH.
    + exact IHitems.
  - apply HDict. induction items as [|[k x] items IHitems]; constructor.
    + apply IH.
    + exact IHitems.
  - apply HPath.
Qed.

Section ForEachFacts.
Context {A B : Type} (f : A -> result B) (e : exn).

(** When every call returns or raises [e], the comprehension returns
    if all calls do, and raises [e] as soon as one does. *)
Lemma for_each_outcome (ok : A -> bool) (xs : list A) :
  Forall (fun x => if ok x then exists y, f x = Return y
                   else f x = Raise e) xs ->
  if forallb ok xs then exists ys, for_each f xs = Return ys
  else for_each f xs = Raise e.
Proof.
  induction 1 as [|x xs Hx _ IH]; cbn [forallb for_each].
  - eauto.
  - destruct (ok x); cbn [andb].
    + destruct Hx as [y ->]. cbn [bind].
      destruct (forallb ok xs).
      * destruct IH as [ys ->]. cbn [bind]. eauto.
      * now rewrite IH.
    + now rewrite Hx.
Qed.

End ForEachFacts.

(** [json.dumps] returns a text on a serializable value and raises the
    [TypeError] on any other, at every nesting depth. *)
Lemma dumps_at_outcome (v : value) :
  forall level,
    if serializable v
    then exists text, Render.dumps_at level v = Return text
    else Render.dumps_at level v = Raise not_serializable_error.
Proof.
  induction v as [ |b|n|x|s|items IH|items IH|parts]
    using value_induction; intros level;
    cbn [serializable Render.dumps_at]; eauto.
  - pose proof (@for_each_outcome _ _ (Render.dumps_at (S level))
                  not_serializable_error serializable items) as Hout.
    destruct (forallb serializable items).
    + destruct Hout as [chunks ->].
      * eapply Forall_impl; [|exact IH]. intros x Hx. apply Hx.
      * cbn [bind]. eauto.
    + rewrite Hout; [reflexivity|].
      eapply Forall_impl; [|exact IH]. intros x Hx. apply Hx.
  - pose proof (@for_each_outcome _ _
                  (fun kv : string * value =>
                     let (k, x) := kv in
                     chunk <- Render.dumps_at (S level) x ;;
                     Return (Render.json_string k ++ ": " ++ chunk))
                  not_serializable_error
                  (fun kv : string * value =>
                     let (_, x) := kv in serializable x) items) as Hout.
    assert (Hitems :
      Forall (fun kv : string * value =>
                if (let (_, x) := kv in serializable x)
                then exists y,
                    (let (k, x) := kv in
                     chunk <- Render.dumps_at (S level) x ;;
                     Return (Render.json_string k ++ ": " ++ chunk))
                    = Return y
                else (let (k, x) := kv in
                      chunk <- Render.dumps_at (S level) x ;;
                      Return (Render.json_string k ++ ": " ++ chunk))
                     = Raise not_serializable_error) items).
    { eapply Forall_impl; [|exact IH]. intros [k x] Hx. cbn [snd] in Hx.
      specialize (Hx (S level)).
      destruct (serializable x).
      - destruct Hx as [text ->]. cbn [bind]. eauto.
      - now rewrite Hx. }
    specialize (Hout Hitems).
    destruct (forallb _ items).
    + destruct Hout as [chunks ->]. cbn [bind]. eauto.
    + now rewrite Hout.
Qed.

Lemma json_dumps_returns (v : value) :
  serializable v = true -> exists text, Render.json_dumps v = Return text.
Proof.
  intros H. pose proof (dumps_at_outcome v 0) as Hout.
  now rewrite H in Hout.
Qed.

Lemma json_dumps_raises (v : value) :
  serializable v = false -> Render.json_dumps v = Raise not_serializable_error.
Proof.
  intros H. pose proof (dumps_at_outcome v 0) as Hout.
  now rewrite H in Hout.
Qed.

(* ================================================================== *)
(** * Globbing *)
(* ================================================================== *)

Lemma entry_induction (P : entry -> Prop) :
  (forall n, P (File n)) ->
  (forall n children, Forall P children -> P (Dir n children)) ->
  forall e, P e.
Proof.
  intros HFile HDir. fix IH 1. intros [n|n children].
  - apply HFile.
  - apply HDir. induction children as [|c children IHchildren]; constructor.
    + apply IH.
    + exact IHchildren.
Qed.

Lemma name_of_child (dir : path) (n : string) : Fs.name (dir +++ [n]) = n.
Proof. unfold Fs.name. apply last_last. Qed.

Lemma matching_name (pattern : string) (dir : path) (es : list entry)
  (p : path) :
  In p (Fs.matching pattern dir es) ->
  PyStr.fnmatch pattern (Fs.name p) = true.
Proof.
  unfold Fs.matching. rewrite in_map_iff. intros [e [<- He]].
  apply filter_In in He. now rewrite name_of_child.
Qed.

Lemma rglob_below_name (pattern : string) (e : entry) :
  forall (dir p : path),
    In p (Fs.rglob_below pattern dir e) ->
    PyStr.fnmatch pattern (Fs.name p) = true.
Proof.
  induction e as [n|n children IH] using entry_induction; intros dir p.
  - intros [].
  - cbn [Fs.rglob_below]. rewrite in_app_iff, in_flat_map.
    intros [Hhere|[c [Hc Hp]]].
    + now apply matching_name in Hhere.
    + rewrite Forall_forall in IH. exact (IH c Hc _ _ Hp).
Qed.

(** Every path [rglob] yields has a name that matches the pattern. *)
Lemma rglob_name (w : world) (pattern : string) (p : path) :
  In p (Fs.rglob w pattern) -> PyStr.fnmatch pattern (Fs.name p) = true.
Proof.
  unfold Fs.rglob. rewrite in_app_iff, in_flat_map.
  intros [Hroot|[e [_ Hp]]].
  - now apply matching_name in Hroot.
  - now apply rglob_below_name in Hp.
Qed.

(** A literal character of the pattern is the next character of the
    name. *)
Lemma fnmatch_literal (c : ascii) (pattern name : string) :
  Ascii.eqb c "*" = false ->
  PyStr.fnmatch (String c pattern) name = true ->
  exists rest, name = String c rest /\ PyStr.fnmatch pattern rest = true.
Proof.
  intros Hc. cbn [PyStr.fnmatch]. rewrite Hc.
  destruct name as [|d rest]; [discriminate|].
  intros H. apply andb_prop in H. destruct H as [Hd Hrest].
  apply Ascii.eqb_eq in Hd. subst d. eauto.
Qed.

Ltac fnmatch_literal_in H :=
  apply fnmatch_literal in H;
  [destruct H as [? [-> H]] | reflexivity].

Lemma fnmatch_dockerfile (name : string) :
  PyStr.fnmatch "Dockerfile*" name = true ->
  PyStr.startswith name "Dockerfile" = true.
Proof.
  intros H. do 10 fnmatch_literal_in H. reflexivity.
Qed.

Lemma fnmatch_compose_file (name ext : string) :
  PyStr.fnmatch ("docker-compose*" ++ ext) name = true ->
  PyStr.contains name "compose" = true.
Proof.
  cbn [String.append]. intros H. do 14 fnmatch_literal_in H. reflexivity.
Qed.

(** Every docker file is a compose file or a Dockerfile. *)
Lemma docker_file_bucket (w : world) (f : path) :
  In f (docker_files w) -> In f (compose_files w) \/ In f (dockerfiles w).
Proof.
  intros Hf. unfold compose_files, dockerfiles. rewrite !filter_In.
  pose proof Hf as Hin. unfold docker_files in Hin.
  rewrite in_flat_map in Hin. destruct Hin as [pattern [Hpat Hglob]].
  apply rglob_name in Hglob. cbn [In] in Hpat.
  destruct Hpat as [<-|[<-|[<-|[]]]].
  - right. split; [exact Hf | now apply fnmatch_dockerfile].
  - left. split; [exact Hf | now apply (fnmatch_compose_file _ ".yml")].
  - left. split; [exact Hf | now apply (fnmatch_compose_file _ ".yaml")].
Qed.

(* ================================================================== *)
(** * The report document and [json.dumps] *)
(* ================================================================== *)

Lemma serializable_of_optional (o : option string) :
  serializable (of_optional o) = true.
Proof. now destruct o. Qed.

Lemma serializable_strings (l : list string) :
  forallb serializable (map VStr l) = true.
Proof. induction l; [reflexivity | assumption]. Qed.

Lemma serializable_relative_paths (l : list path) :
  forallb serializable (map (fun f => VStr (Fs.str_relative f)) l) = true.
Proof. induction l; [reflexivity | assumption]. Qed.

(** A list of [Path] objects is encoded only when it is empty. *)
Lemma serializable_paths (w : world) (l : list path) :
  forallb serializable (map (Fs.as_value w) l) = negb (nonempty l).
Proof. now destruct l. Qed.

Lemma serializable_languages (w : world) :
  serializable (value_of_findings (detect_languages w)) = true.
Proof.
  rewrite detect_languages_blocks.
  destruct (python_signal w), (nodejs_signal w), (go_signal w), (rust_signal w);
    cbn -[of_optional]; rewrite ?serializable_of_optional; reflexivity.
Qed.

Lemma serializable_suggestions (s : dict (list string)) :
  serializable (value_of_suggestions s) = true.
Proof.
  unfold value_of_suggestions. cbn [serializable].
  induction s as [|[k items] s IH]; [reflexivity|].
  cbn [map forallb fst snd serializable].
  now rewrite serializable_strings, IH.
Qed.

Lemma serializable_tools (t : dict bool) :
  serializable (value_of_tools t) = true.
Proof.
  unfold value_of_tools. cbn [serializable].
  induction t as [|[k b] t IH]; [reflexivity | exact IH].
Qed.

Lemma serializable_item (k : string) (v : value)
  (items : list (string * value)) :
  serializable (VDict ((k, v) :: items))
  = serializable v && serializable (VDict items).
Proof. reflexivity. Qed.

(** The docker finding never is: one of its two [Path] lists is not
    empty. *)
Lemma docker_finding_not_serializable (w : world) :
  nonempty (docker_files w) = true ->
  serializable (VDict (docker_finding w)) = false.
Proof.
  intros Hdocker. unfold docker_finding. cbn [serializable forallb].
  rewrite !serializable_paths, serializable_relative_paths.
  destruct (docker_files w) as [|f files] eqn:Hfiles; [discriminate|].
  destruct (docker_file_bucket w f) as [Hc|Hd].
  - rewrite Hfiles. now left.
  - destruct (compose_files w); [destruct Hc | reflexivity].
  - destruct (dockerfiles w); [destruct Hd|].
    cbn. now rewrite andb_false_r.
Qed.

Lemma serializable_infrastructure (w : world) :
  serializable (value_of_findings (detect_infrastructure w))
  = negb (nonempty (docker_files w)).
Proof.
  rewrite detect_infrastructure_blocks.
  destruct (nonempty (docker_files w)) eqn:Hdocker.
  - apply docker_finding_not_serializable in Hdocker.
    cbn [List.app]. unfold value_of_findings. cbn [map fst snd].
    now rewrite serializable_item, Hdocker.
  - destruct (Fs.exists_ w [".git"]), (nonempty (ci_files w));
      cbn -[of_optional];
      rewrite ?serializable_of_optional, ?serializable_strings; reflexivity.
Qed.

Lemma docker_detected (w : world) :
  Dict.mem "docker" (detect_infrastructure w) = nonempty (docker_files w).
Proof.
  unfold Dict.mem. rewrite detect_infrastructure_docker.
  now destruct (nonempty (docker_files w)).
Qed.

(** The structured report: [json.dumps] raises exactly when a docker
    file was found. *)
Lemma generate_report_json (w : world) :
  if Dict.mem "docker" (detect_infrastructure w)
  then generate_report w "json" = Raise not_serializable_error
  else exists suggestions text,
      suggest_environment_isolation w = Return suggestions
      /\ Render.json_dumps (report_document w suggestions) = Return text
      /\ generate_report w "json" = Return text.
Proof.
  destruct (suggest_environment_isolation_returns w) as [s [Hs _]].
  unfold generate_report. rewrite Hs. cbn [bind].
  keys.
  fold (report_document w s).
  assert (Hser : serializable (report_document w s)
                 = negb (Dict.mem "docker" (detect_infrastructure w))).
  { unfold report_document. cbn [serializable forallb].
    rewrite serializable_languages, serializable_infrastructure,
      serializable_suggestions, serializable_tools, docker_detected.
    now destruct (nonempty (docker_files w)). }
  destruct (Dict.mem "docker" (detect_infrastructure w)).
  - now apply json_dumps_raises.
  - destruct (json_dumps_returns _ Hser) as [text Htext].
    exists s, text. auto.
Qed.

(* ================================================================== *)
(** * Source files under the root *)
(* ================================================================== *)

Lemma filter_flat_map {A B : Type} (keep : B -> bool) (g : A -> list B)
  (l : list A) :
  filter keep (flat_map g l) = flat_map (fun x => filter keep (g x)) l.
Proof.
  induction l as [|x l IH]; [reflexivity|].
  cbn [flat_map]. now rewrite filter_app, IH.
Qed.

Lemma matching_filter (pattern : string) (dir : path) (es : list entry) :
  Fs.matching pattern dir es =
  filter (fun p => PyStr.fnmatch pattern (Fs.name p))
    (Fs.children_paths dir es).
Proof.
  unfold Fs.matching, Fs.children_paths.
  induction es as [|e es IH]; [reflexivity|].
  cbn [filter map]. rewrite name_of_child.
  destruct (PyStr.fnmatch pattern (entry_name e)); cbn [map]; now rewrite IH.
Qed.

Lemma rglob_below_filter (pattern : string) (e : entry) :
  forall parent,
    Fs.rglob_below pattern parent e =
    filter (fun p => PyStr.fnmatch pattern (Fs.name p))
      (Fs.walk_below parent e).
Proof.
  induction e as [n|n children IH] using entry_induction; intros parent.
  - reflexivity.
  - cbn [Fs.rglob_below Fs.walk_below].
    rewrite filter_app, matching_filter, filter_flat_map. f_equal.
    induction IH as [|c children Hc _ IHchildren]; [reflexivity|].
    cbn [flat_map]. now rewrite Hc, IHchildren.
Qed.

(** [rglob(pattern)] keeps, of all the entries below the root, those
    whose name matches. *)
Lemma rglob_filter_walk (w : world) (pattern : string) :
  Fs.rglob w pattern =
  filter (fun p => PyStr.fnmatch pattern (Fs.name p)) (Fs.walk w).
Proof.
  unfold Fs.rglob, Fs.walk.
  rewrite filter_app, matching_filter, filter_flat_map. f_equal.
  induction (tree w) as [|e es IH]; [reflexivity|].
  cbn [flat_map]. now rewrite rglob_below_filter, IH.
Qed.

(** A pattern without [*] matches itself only. *)
Lemma fnmatch_exact (pattern : string) :
  literal pattern = true ->
  forall name, PyStr.fnmatch pattern name = true <-> name = pattern.
Proof.
  induction pattern as [|c pattern IH]; intros Hlit name.
  - destruct name; cbn; split; congruence.
  - cbn [literal] in Hlit. apply andb_prop in Hlit.
    destruct Hlit as [Hc Hlit]. apply negb_true_iff in Hc.
    cbn [PyStr.fnmatch]. rewrite Hc.
    destruct name as [|d name]; [split; discriminate|].
    rewrite andb_true_iff, Ascii.eqb_eq, (IH Hlit name). split.
    + intros [-> ->]. reflexivity.
    + intros E. injection E as -> ->. auto.
Qed.

(** [*ext] matches the names that end with [ext]. *)
Lemma fnmatch_extension (ext : string) :
  literal ext = true ->
  forall name,
    PyStr.fnmatch (String "*" ext) name = true <-> has_extension ext name.
Proof.
  intros Hlit name. unfold has_extension.
  change (PyStr.fnmatch (String "*" ext))
    with (fix star (name : string) : bool :=
            PyStr.fnmatch ext name ||
            match name with
            | EmptyString => false
            | String _ name' => star name'
            end).
  induction name as [|c name IH].
  - rewrite orb_false_r, (@fnmatch_exact ext Hlit). split.
    + intros ->. now exists "".
    + intros [stem E]. destruct stem; [exact E | discriminate E].
  - rewrite orb_true_iff, (@fnmatch_exact ext Hlit), IH. split.
    + intros [->|[stem ->]]; [now exists "" | now exists (String c stem)].
    + intros [[|d stem] E]; [left; exact E|].
      right. injection E as _ ->. now exists stem.
Qed.

Lemma nonempty_exists {A : Type} (l : list A) :
  nonempty l = true <-> exists x, In x l.
Proof.
  destruct l as [|x l]; cbn [nonempty].
  - split; [discriminate | intros [x []]].
  - split; [intros _; exists x; now left | reflexivity].
Qed.

(** [rglob("*ext")] finds something exactly when some entry below the
    root carries the extension. *)
Lemma rglob_extension (w : world) (ext : string) :
  literal ext = true ->
  nonempty (Fs.rglob w (String "*" ext)) = true <-> source_exists w ext.
Proof.
  intros Hlit. rewrite nonempty_exists, rglob_filter_walk.
  unfold source_exists. split; intros [p Hp]; exists p.
  - apply filter_In in Hp. now rewrite <- (@fnmatch_extension ext Hlit).
  - apply filter_In. now rewrite (@fnmatch_extension ext Hlit).
Qed.

(** Which languages get an entry, in terms of the project tree: python
    by its source files alone; nodejs, go and rust by their source files
    or their manifest at the root. *)
Lemma language_detected_by (w : world) :
  (Dict.mem "python" (detect_languages w) = true <-> source_exists w ".py")
  /\ (Dict.mem "nodejs" (detect_languages w) = true <->
      Fs.exists_ w ["package.json"] = true
      \/ source_exists w ".ts" \/ source_exists w ".js")
  /\ (Dict.mem "go" (detect_languages w) = true <->
      source_exists w ".go" \/ Fs.exists_ w ["go.mod"] = true)
  /\ (Dict.mem "rust" (detect_languages w) = true <->
      Fs.exists_ w ["Cargo.toml"] = true \/ source_exists w ".rs").
Proof.
  destruct (language_detected w) as [-> [-> [-> ->]]].
  unfold python_signal, nodejs_signal, go_signal, rust_signal.
  rewrite !orb_true_iff.
  rewrite <- !rglob_extension by reflexivity.
  tauto.
Qed.

(* ================================================================== *)
(** * Failing commands *)
(* ================================================================== *)

(** A command that cannot be launched leaves the getter with [None]. *)
Lemma stripped_stdout_launch_fails (w : world) (args : list string)
  (cwd : option path) :
  launch_fails w cwd args -> stripped_stdout w args cwd = None.
Proof.
  intros [e He]. unfold stripped_stdout, subprocess_run. now rewrite He.
Qed.

(** A command that runs is not checked for its exit status by the
    getters: whatever it printed is the version. *)
Lemma stripped_stdout_completed (w : world) (args : list string)
  (cwd : option path) (p : CompletedProcess) :
  spawn w cwd args = Return p ->
  stripped_stdout w args cwd = Some (PyStr.strip (stdout p)).
Proof.
  intros Hp. unfold stripped_stdout, subprocess_run. now rewrite Hp.
Qed.

(** [_command_exists] does check it. *)
Lemma command_exists_fails (w : world) (command : string) :
  invocation_fails w None [command; "--version"] ->
  _command_exists w command = false.
Proof.
  unfold invocation_fails, _command_exists, subprocess_run.
  destruct (spawn w None [command; "--version"]) as [p|e]; [|reflexivity].
  intros Hrc. cbn [bind andb].
  destruct (Z.eqb_spec (returncode p) 0); [contradiction | reflexivity].
Qed.

Lemma command_exists_iff (w : world) (command : string) :
  _command_exists w command = true <->
  exists p, spawn w None [command; "--version"] = Return p
            /\ returncode p = 0%Z.
Proof.
  unfold _command_exists, subprocess_run.
  destruct (spawn w None [command; "--version"]) as [p|e]; cbn [bind andb].
  - destruct (Z.eqb_spec (returncode p) 0) as [Hz|Hnz]; cbn [negb try_except].
    + split; [eauto | reflexivity].
    + split; [discriminate|]. intros [q [Hq Hrc]]. congruence.
  - split; [discriminate|]. intros [q [Hq _]]. discriminate.
Qed.

Lemma current_version_field (w : world) (lang : string) (d : dict value) :
  Dict.get (detect_languages w) lang = Some d ->
  Dict.get d "current_version"
  = Some (of_optional (stripped_stdout w (version_command w lang) None)).
Proof.
  rewrite detect_languages_get. unfold version_command.
  destruct (String.eqb lang "python").
  { destruct (python_signal w); [|discriminate].
    intros H; injection H as <-; reflexivity. }
  destruct (String.eqb lang "nodejs").
  { destruct (nodejs_signal w); [|discriminate].
    intros H; injection H as <-; reflexivity. }
  destruct (String.eqb lang "go").
  { destruct (go_signal w); [|discriminate].
    intros H; injection H as <-; reflexivity. }
  destruct (String.eqb lang "rust"); [|discriminate].
  destruct (rust_signal w); [|discriminate].
  intros H; injection H as <-; reflexivity.
Qed.

(* ================================================================== *)
(** * Claim C1: which languages are detected *)
(* ================================================================== *)

(** C1 at a root whose only Python signal is a manifest: the manifest
    is found by [_find_requirements], no [.py] entry exists, and the
    result has no python entry (it is empty).  The nodejs, go and rust
    blocks, at roots holding only their manifest, do produce their
    entry. *)
Theorem python_manifest_only_not_detected :
  _find_requirements Sample.requirements_only = Some "requirements.txt"
  /\ Fs.rglob Sample.requirements_only "*.py" = []
  /\ Dict.get (detect_languages Sample.requirements_only) "python" = None
  /\ detect_languages Sample.requirements_only = []
  /\ Dict.mem "nodejs" (detect_languages Sample.package_json_only) = true
  /\ Dict.mem "go" (detect_languages Sample.go_mod_only) = true
  /\ Dict.mem "rust" (detect_languages Sample.cargo_toml_only) = true.
Proof. repeat split; reflexivity. Qed.

(* ================================================================== *)
(** * Claim C2: failing external commands *)
(* ================================================================== *)

(** C2, as the code has it: when a version command cannot be launched
    the finding's [current_version] is [None] (the getters are
    [Optional[str]]), not the string ["unknown"]; when a tool's
    [<binary> --version] probe ([npm --version] for [npm_audit]) cannot
    be launched or exits nonzero its availability is [False], as is
    that of [npm_audit] when [npm audit --help] cannot be launched; the
    exit status of [npm audit --help] is not looked at: once
    [npm --version] has exited with zero, [npm_audit] is whether
    ["audit"] occurs in what [npm audit --help] printed; the git fields
    degrade to [None], [None] and [False]; and nothing raises: the
    suggestions and the console report are returned for every world. *)
Theorem failed_probe_degrades (w : world) :
  (forall lang d,
      Dict.get (detect_languages w) lang = Some d ->
      launch_fails w None (version_command w lang) ->
      Dict.get d "current_version" = Some VNone)
  /\ (forall tool,
         In tool security_tool_names ->
         invocation_fails w None [tool_binary tool; "--version"] ->
         Dict.get (check_security_tools w) tool = Some false)
  /\ (launch_fails w None ["npm"; "audit"; "--help"] ->
      Dict.get (check_security_tools w) "npm_audit" = Some false)
  /\ (forall p q,
         spawn w None ["npm"; "--version"] = Return p ->
         returncode p = 0%Z ->
         spawn w None ["npm"; "audit"; "--help"] = Return q ->
         Dict.get (check_security_tools w) "npm_audit"
         = Some (PyStr.contains (stdout q) "audit"))
  /\ (forall d,
         Dict.get (detect_infrastructure w) "git" = Some d ->
         (launch_fails w (Some []) ["git"; "branch"; "--show-current"] ->
          Dict.get d "current_branch" = Some VNone)
         /\ (launch_fails w (Some []) ["git"; "remote"; "get-url"; "origin"] ->
             Dict.get d "remote_url" = Some VNone)
         /\ (launch_fails w (Some []) ["git"; "status"; "--porcelain"] ->
             Dict.get d "uncommitted_changes" = Some (VBool false)))
  /\ (exists s, suggest_environment_isolation w = Return s)
  /\ (exists text, generate_report w "console" = Return text).
Proof.
  split; [|split; [|split; [|split; [|split; [|split]]]]].
  - intros lang d Hd Hfail.
    rewrite (current_version_field w lang Hd).
    now rewrite (stripped_stdout_launch_fails Hfail).
  - intros tool Hin Hfail. unfold security_tool_names in Hin.
    cbn [In] in Hin.
    repeat destruct Hin as [<-|Hin]; try contradiction;
      apply command_exists_fails in Hfail;
      cbn [tool_binary String.eqb Ascii.eqb Bool.eqb] in Hfail;
      unfold check_security_tools; rewrite Hfail; reflexivity.
  - intros [e He]. unfold check_security_tools, _has_npm_audit, subprocess_run.
    rewrite He. cbn [Dict.get bind try_except]. keys.
    now rewrite andb_false_r.
  - intros p q Hp Hrc Hq.
    assert (Hnpm : _command_exists w "npm" = true).
    { apply command_exists_iff. exists p. now split. }
    unfold check_security_tools, _has_npm_audit, subprocess_run.
    rewrite Hnpm, Hq. cbn [Dict.get bind try_except andb]. keys.
    reflexivity.
  - intros d Hd. rewrite detect_infrastructure_git in Hd.
    destruct (Fs.exists_ w [".git"]); [|discriminate].
    injection Hd as <-. unfold git_finding. cbn [Dict.get].
    repeat split; intros Hfail.
    + unfold _get_git_branch.
      now rewrite (stripped_stdout_launch_fails Hfail).
    + unfold _get_git_remote.
      rewrite (stripped_stdout_launch_fails Hfail). reflexivity.
    + destruct Hfail as [e He]. unfold _has_uncommitted_changes, subprocess_run.
      rewrite He. reflexivity.
  - destruct (suggest_environment_isolation_returns w) as [s [Hs _]]. eauto.
  - apply generate_report_console_returns.
Qed.

Lemma failed_probe_degrades_witness :
  Dict.get (nodejs_finding Sample.js_only) "current_version" = Some VNone
  /\ Dict.get (check_security_tools Sample.js_only) "bandit" = Some false
  /\ Dict.get (check_security_tools Sample.js_only) "npm_audit" = Some false
  /\ Dict.get (check_security_tools Sample.npm_audit_exits_nonzero)
       "npm_audit" = Some true
  /\ Dict.get (git_finding Sample.git_checkout) "current_branch" = Some VNone
  /\ Dict.get (git_finding Sample.git_checkout) "remote_url" = Some VNone
  /\ Dict.get (git_finding Sample.git_checkout) "uncommitted_changes"
     = Some (VBool false).
Proof.
  assert (Hmissing : forall w cwd args,
             spawn w = Sample.no_binaries -> launch_fails w cwd args).
  { intros w cwd args Hspawn.
    exists (OSError "No such file or directory"). now rewrite Hspawn. }
  destruct (failed_probe_degrades Sample.js_only)
    as [Hversion [Htool [Haudit _]]].
  destruct (failed_probe_degrades Sample.npm_audit_exits_nonzero)
    as [_ [_ [_ [Hhelp _]]]].
  destruct (failed_probe_degrades Sample.git_checkout)
    as [_ [_ [_ [_ [Hgit _]]]]].
  destruct (Hgit (git_finding Sample.git_checkout) eq_refl)
    as [Hbranch [Hremote Hstatus]].
  split; [|split; [|split; [|split; [|split; [|split]]]]].
  - apply (Hversion "nodejs" (nodejs_finding Sample.js_only) eq_refl).
    now apply Hmissing.
  - apply (Htool "bandit"); [left; reflexivity | exact I].
  - apply Haudit. now apply Hmissing.
  - apply (Hhelp {| returncode := 0; stdout := "10.2.4" ++ Render.newline |}
             {| returncode := 1;
                stdout := "npm audit [fix|signatures]" ++ Render.newline |});
      reflexivity.
  - apply Hbranch. now apply Hmissing.
  - apply Hremote. now apply Hmissing.
  - apply Hstatus. now apply Hmissing.
Defined.

(** The [node] binary is missing, a JavaScript file makes the nodejs
    finding appear, and its version field is [None], not the string
    ["unknown"].  So a failing version command does not always leave
    ["unknown"] in the field. *)
Lemma missing_binary_version_is_not_unknown :
  launch_fails Sample.js_only None (version_command Sample.js_only "nodejs")
  /\ (exists d,
        Dict.get (detect_languages Sample.js_only) "nodejs" = Some d
        /\ Dict.get d "current_version" = Some VNone
        /\ Dict.get d "current_version" <> Some (VStr "unknown"))
  /\ ~ (forall w lang d,
          Dict.get (detect_languages w) lang = Some d ->
          invocation_fails w None (version_command w lang) ->
          Dict.get d "current_version" = Some (VStr "unknown")).
Proof.
  split; [|split].
  - exists (OSError "No such file or directory"). reflexivity.
  - exists (nodejs_finding Sample.js_only).
    repeat split; try reflexivity. discriminate.
  - intros Hclaim.
    specialize (Hclaim Sample.js_only "nodejs" (nodejs_finding Sample.js_only)
                  eq_refl I).
    discriminate Hclaim.
Qed.

(** The getters pass no [check=True]: a version command that runs and
    exits nonzero leaves its stripped output in the field, here the
    empty string. *)
Lemma nonzero_exit_version_is_stdout :
  invocation_fails Sample.node_exits_nonzero None
    (version_command Sample.node_exits_nonzero "nodejs")
  /\ exists d,
       Dict.get (detect_languages Sample.node_exits_nonzero) "nodejs" = Some d
       /\ Dict.get d "current_version" = Some (VStr "").
Proof.
  split.
  - cbn. discriminate.
  - exists (nodejs_finding Sample.node_exits_nonzero). split; reflexivity.
Qed.

(* ================================================================== *)
(** * Claim C3: the structured report *)
(* ================================================================== *)

(** C3 at a root holding a [Dockerfile]: the docker finding keeps the
    file as a string under [files] and as a [Path] object under
    [dockerfiles], and [json.dumps] raises on the latter, so that
    [generate_report] returns no document; the console report of the
    same root is produced.  So it is at every root: structured mode
    raises whenever a docker file was found, and returns the encoding of
    the four-key document otherwise. *)
Theorem json_report_raises_on_dockerfile :
  Dict.get (detect_infrastructure Sample.dockerfile_only) "docker"
  = Some [ ("files", VList [VStr "Dockerfile"]);
           ("compose_files", VList []);
           ("dockerfiles", VList [VPath ["srv"; "app"; "Dockerfile"]]) ]
  /\ generate_report Sample.dockerfile_only "json"
     = Raise (TypeError "Object of type PosixPath is not JSON serializable")
  /\ (exists text,
        generate_report Sample.dockerfile_only "console" = Return text)
  /\ forall w,
       if Dict.mem "docker" (detect_infrastructure w)
       then generate_report w "json" = Raise not_serializable_error
       else exists suggestions text,
           suggest_environment_isolation w = Return suggestions
           /\ Render.json_dumps (report_document w suggestions) = Return text
           /\ generate_report w "json" = Return text.
Proof.
  split; [reflexivity|]. split; [reflexivity|]. split.
  - apply generate_report_console_returns.
  - apply generate_report_json.
Qed.

(* ================================================================== *)
(** * Claim C4: the package-manager field *)
(* ================================================================== *)

Lemma python_package_manager_known (w : world) :
  In (_detect_python_package_manager w) python_package_managers.
Proof.
  unfold _detect_python_package_manager, python_package_managers.
  repeat match goal with
         | |- context [if ?b then _ else _] => destruct b
         end; simpl; auto.
Qed.

Lemma node_package_manager_known (w : world) :
  In (_detect_node_package_manager w) node_package_managers.
Proof.
  unfold _detect_node_package_manager, node_package_managers.
  repeat match goal with
         | |- context [if ?b then _ else _] => destruct b
         end; simpl; auto.
Qed.

(** C4, as the code has it: the python and nodejs findings carry a
    [package_manager] field, holding one of the language's
    package-manager names or ["unknown"]; the go and rust findings
    carry no such field. *)
Theorem package_manager_field (w : world) (lang : string) (d : dict value) :
  Dict.get (detect_languages w) lang = Some d ->
  (lang = "python" ->
   exists pm, Dict.get d "package_manager" = Some (VStr pm)
              /\ In pm python_package_managers)
  /\ (lang = "nodejs" ->
      exists pm, Dict.get d "package_manager" = Some (VStr pm)
                 /\ In pm node_package_managers)
  /\ (lang = "go" \/ lang = "rust" -> Dict.get d "package_manager" = None).
Proof.
  intros Hd. rewrite detect_languages_get in Hd.
  repeat split.
  - intros ->. keys_in Hd. destruct (python_signal w); [|discriminate].
    injection Hd as <-. eexists. split; [reflexivity|].
    apply python_package_manager_known.
  - intros ->. keys_in Hd. destruct (nodejs_signal w); [|discriminate].
    injection Hd as <-. eexists. split; [reflexivity|].
    apply node_package_manager_known.
  - intros [-> | ->]; keys_in Hd.
    + destruct (go_signal w); [|discriminate].
      injection Hd as <-. reflexivity.
    + destruct (rust_signal w); [|discriminate].
      injection Hd as <-. reflexivity.
Qed.

Lemma package_manager_field_witness :
  (exists pm,
     Dict.get (python_finding Sample.python_and_go) "package_manager"
       = Some (VStr pm) /\ In pm python_package_managers)
  /\ Dict.get (go_finding Sample.python_and_go) "package_manager" = None.
Proof.
  split.
  - apply (proj1 (@package_manager_field Sample.python_and_go "python"
                    (python_finding Sample.python_and_go) eq_refl)).
    reflexivity.
  - apply (proj2 (proj2 (@package_manager_field Sample.python_and_go "go"
                           (go_finding Sample.python_and_go) eq_refl))).
    left. reflexivity.
Defined.

(** A detected language whose finding has no package-manager field:
    go, on the specification's own [go.mod] example.  So not every
    finding has the field. *)
Lemma go_finding_without_package_manager :
  (exists d,
     Dict.get (detect_languages Sample.go_mod_only) "go" = Some d
     /\ Dict.get d "package_manager" = None
     /\ Dict.get d "go_mod" = Some (VBool true)
     /\ Dict.get d "files_count" = Some (VInt 0%Z))
  /\ ~ (forall w lang d,
          Dict.get (detect_languages w) lang = Some d ->
          exists pm, Dict.get d "package_manager" = Some (VStr pm)).
Proof.
  split.
  - exists (go_finding Sample.go_mod_only). repeat split; reflexivity.
  - intros Hclaim.
    destruct (Hclaim Sample.go_mod_only "go" (go_finding Sample.go_mod_only)
                eq_refl) as [pm Hpm].
    discriminate Hpm.
Qed.

(* ================================================================== *)
(** * Claim C5: the Node.js package manager *)
(* ================================================================== *)

Lemma node_package_manager_table (w : world) :
  _detect_node_package_manager w = first_lockfile w node_lockfiles.
Proof. reflexivity. Qed.

(** A [yarn.lock] decides alone, whatever other lockfiles exist. *)
Lemma yarn_lock_first (w : world) :
  Fs.exists_ w ["yarn.lock"] = true -> _detect_node_package_manager w = "yarn".
Proof.
  intros H. unfold _detect_node_package_manager.
  change (Fs.joinpath [] "yarn.lock") with ["yarn.lock"].
  now rewrite H.
Qed.

(** C5: with [yarn.lock] present and [package-lock.json] and
    [pnpm-lock.yaml] absent the Node.js package manager is ["yarn"], in
    the helper and in the [package_manager] field of the nodejs finding;
    in general the helper is the first match of the ordered table
    [node_lockfiles], and ["unknown"] when no lockfile exists. *)
Theorem node_package_manager_first_match (w : world) :
  (Fs.exists_ w ["yarn.lock"] = true ->
   Fs.exists_ w ["package-lock.json"] = false ->
   Fs.exists_ w ["pnpm-lock.yaml"] = false ->
   _detect_node_package_manager w = "yarn"
   /\ forall d, Dict.get (detect_languages w) "nodejs" = Some d ->
                Dict.get d "package_manager" = Some (VStr "yarn"))
  /\ _detect_node_package_manager w = first_lockfile w node_lockfiles
  /\ (Forall (fun entry => Fs.exists_ w [fst entry] = false) node_lockfiles ->
      _detect_node_package_manager w = "unknown").
Proof.
  split; [|split].
  - intros Hyarn _ _. split; [now apply yarn_lock_first|].
    intros d Hd. rewrite detect_languages_get in Hd. keys_in Hd.
    destruct (nodejs_signal w); [|discriminate].
    injection Hd as <-. unfold nodejs_finding. cbn [Dict.get]. keys.
    now rewrite yarn_lock_first.
  - apply node_package_manager_table.
  - intros Hnone. rewrite node_package_manager_table.
    unfold node_lockfiles in *.
    repeat match goal with
           | H : Forall _ (_ :: _) |- _ => inversion_clear H
           end.
    cbn [fst] in *. cbn [first_lockfile].
    repeat match goal with
           | H : Fs.exists_ _ _ = false |- _ => rewrite H; clear H
           end.
    reflexivity.
Qed.

Lemma node_package_manager_first_match_witness :
  (_detect_node_package_manager Sample.yarn_project = "yarn"
   /\ forall d,
        Dict.get (detect_languages Sample.yarn_project) "nodejs" = Some d ->
        Dict.get d "package_manager" = Some (VStr "yarn"))
  /\ _detect_node_package_manager Sample.empty_project = "unknown".
Proof.
  split.
  - apply (node_package_manager_first_match Sample.yarn_project); reflexivity.
  - apply (node_package_manager_first_match Sample.empty_project).
    repeat constructor.
Defined.

(* ================================================================== *)
(** * Claim C6: the JavaScript framework *)
(* ================================================================== *)

Section Framework.
Variable w : world.

(** [package.json] is there and holds a JSON object whose
    [dependencies] and [devDependencies] sections, where present, are
    objects: [deps] and [dev] are the two sections, an absent one
    being empty. *)
Variables data deps dev : dict value.
Hypothesis package_json_exists : Fs.exists_ w ["package.json"] = true.
Hypothesis package_json_loads :
  load_json w ["package.json"] = Return (VDict data).
Hypothesis dependencies_section :
  Dict.get_default data "dependencies" (VDict []) = VDict deps.
Hypothesis devDependencies_section :
  Dict.get_default data "devDependencies" (VDict []) = VDict dev.

Lemma js_framework_priority :
  _detect_js_framework w = first_framework (listed deps dev) framework_priority.
Proof.
  unfold _detect_js_framework.
  change (Fs.joinpath [] "package.json") with ["package.json"].
  rewrite package_json_exists, package_json_loads.
  cbn [negb bind data_get].
  rewrite dependencies_section, devDependencies_section.
  cbn [bind unpack_merge try_except].
  rewrite !mem_merge. reflexivity.
Qed.

Lemma js_framework_react :
  listed deps dev "react" = true -> _detect_js_framework w = Some "react".
Proof.
  intros H. rewrite js_framework_priority.
  cbn [first_framework framework_priority]. now rewrite H.
Qed.

End Framework.

(** C6: for a root whose [package.json] lists ["react"] among its
    dependencies or its devDependencies the detected framework is
    ["react"], whatever else is listed (so also when ["vue"] is); in
    general it is the first match of the priority order react, vue,
    angular (the [@angular/core] dependency), svelte.  The nodejs
    finding carries it in its [framework] field.  Here [data] is the
    object [package.json] holds, and [deps] and [dev] are its
    [dependencies] and [devDependencies] sections, an absent section
    counting as empty. *)
Theorem js_framework_first_match (w : world) (data deps dev : dict value) :
  Fs.exists_ w ["package.json"] = true ->
  load_json w ["package.json"] = Return (VDict data) ->
  Dict.get_default data "dependencies" (VDict []) = VDict deps ->
  Dict.get_default data "devDependencies" (VDict []) = VDict dev ->
  (listed deps dev "react" = true -> _detect_js_framework w = Some "react")
  /\ (listed deps dev "react" = true -> listed deps dev "vue" = true ->
      _detect_js_framework w = Some "react")
  /\ _detect_js_framework w
     = first_framework (listed deps dev) framework_priority
  /\ exists d,
       Dict.get (detect_languages w) "nodejs" = Some d
       /\ Dict.get d "framework"
          = Some (of_optional
                    (first_framework (listed deps dev) framework_priority)).
Proof.
  intros Hexists Hload Hdeps Hdev.
  pose proof (@js_framework_priority w data deps dev Hexists Hload Hdeps Hdev)
    as Hprio.
  pose proof (@js_framework_react w data deps dev Hexists Hload Hdeps Hdev)
    as Hreact.
  split; [exact Hreact|]. split; [intros H _; exact (Hreact H)|].
  split; [exact Hprio|].
  exists (nodejs_finding w). split.
  - rewrite detect_languages_get. keys.
    unfold nodejs_signal. now rewrite Hexists.
  - unfold nodejs_finding. cbn [Dict.get]. keys. now rewrite Hprio.
Qed.

Lemma js_framework_first_match_witness :
  _detect_js_framework Sample.react_project = Some "react".
Proof.
  refine (proj1
            (proj2 (@js_framework_first_match Sample.react_project
                      [ ("name", VStr "shop");
                        ("dependencies", VDict [("vue", VStr "^3.4.0")]);
                        ("devDependencies", VDict [("react", VStr "^18.2.0")]) ]
                      [("vue", VStr "^3.4.0")] [("react", VStr "^18.2.0")]
                      eq_refl eq_refl eq_refl eq_refl))
            eq_refl eq_refl).
Defined.

(** Outside that shape the probe degrades: a section that is present
    but is no object makes the merge raise, and the framework is not
    detected even when the other section lists React. *)
Lemma js_framework_malformed_section (w : world) (data deps : dict value) :
  Fs.exists_ w ["package.json"] = true ->
  load_json w ["package.json"] = Return (VDict data) ->
  Dict.get_default data "dependencies" (VDict []) = VDict deps ->
  Dict.get_default data "devDependencies" (VDict []) = VNone ->
  _detect_js_framework w = None.
Proof.
  intros Hexists Hload Hdeps Hdev. unfold _detect_js_framework.
  change (Fs.joinpath [] "package.json") with ["package.json"].
  rewrite Hexists, Hload. cbn [negb bind data_get].
  rewrite Hdeps, Hdev. reflexivity.
Qed.

(** The [package.json] of [Sample.react_null_dev_project] lists React
    under [dependencies] and has [null] for [devDependencies]: the
    merge raises, the bare [except] swallows it, and no framework is
    detected.  So a [package.json] whose dependencies include
    ["react"] does not always give ["react"]. *)
Lemma react_listed_but_not_detected :
  Fs.exists_ Sample.react_null_dev_project ["package.json"] = true
  /\ (exists data deps,
        load_json Sample.react_null_dev_project ["package.json"]
        = Return (VDict data)
        /\ Dict.get data "dependencies" = Some (VDict deps)
        /\ Dict.get data "devDependencies" = Some VNone
        /\ Dict.mem "react" deps = true)
  /\ _detect_js_framework Sample.react_null_dev_project = None
  /\ (exists d,
        Dict.get (detect_languages Sample.react_null_dev_project) "nodejs"
        = Some d
        /\ Dict.get d "framework" = Some VNone)
  /\ ~ (forall w data deps,
          Fs.exists_ w ["package.json"] = true ->
          load_json w ["package.json"] = Return (VDict data) ->
          Dict.get data "dependencies" = Some (VDict deps) ->
          Dict.mem "react" deps = true ->
          _detect_js_framework w = Some "react").
Proof.
  split; [reflexivity|]. split; [|split; [reflexivity|split]].
  - exists [ ("name", VStr "shop");
             ("dependencies", VDict [("react", VStr "^18.2.0")]);
             ("devDependencies", VNone) ],
           [("react", VStr "^18.2.0")].
    repeat split; reflexivity.
  - exists (nodejs_finding Sample.react_null_dev_project).
    split; reflexivity.
  - intros Hclaim.
    specialize (Hclaim Sample.react_null_dev_project
                  [ ("name", VStr "shop");
                    ("dependencies", VDict [("react", VStr "^18.2.0")]);
                    ("devDependencies", VNone) ]
                  [("react", VStr "^18.2.0")]
                  eq_refl eq_refl eq_refl eq_refl).
    discriminate Hclaim.
Qed.

(* ================================================================== *)
(** * Claim C7: nothing detected, no suggestions *)
(* ================================================================== *)

(** C7: when [detect_languages] finds no language and
    [detect_infrastructure] no signal, [suggest_environment_isolation]
    returns the empty mapping, and the console report has no
    suggestions section: its header is none of the report's lines, and
    the words of the header occur nowhere in the text. *)
Theorem no_findings_no_suggestions (w : world) :
  detect_languages w = [] ->
  detect_infrastructure w = [] ->
  suggest_environment_isolation w = Return []
  /\ exists report,
       console_report (detect_languages w) (detect_infrastructure w) []
         (check_security_tools w) = Return report
       /\ ~ In suggestions_header report
       /\ generate_report w "console"
          = Return (PyStr.join Render.newline report)
       /\ PyStr.contains (PyStr.join Render.newline report)
            "ENVIRONMENT ISOLATION SUGGESTIONS" = false.
Proof.
  intros Hlang Hinfra.
  assert (Hsug : suggest_environment_isolation w = Return []).
  { unfold suggest_environment_isolation. rewrite Hlang, Hinfra. reflexivity. }
  split; [exact Hsug|].
  unfold generate_report. rewrite Hsug, Hlang, Hinfra. cbn [bind].
  rewrite console_report_nothing. cbn [bind].
  keys.
  eexists. split; [reflexivity|].
  unfold check_security_tools.
  generalize (_command_exists w "bandit") (_command_exists w "safety")
    (_command_exists w "npm" && _has_npm_audit w) (_command_exists w "snyk")
    (_command_exists w "semgrep") (_command_exists w "gosec").
  intros b1 b2 b3 b4 b5 b6.
  split; [|split; [reflexivity|]].
  - destruct b1, b2, b3, b4, b5, b6; vm_compute;
      intros H; repeat (destruct H as [H|H]; [discriminate H|]); exact H.
  - destruct b1, b2, b3, b4, b5, b6; vm_compute; reflexivity.
Qed.

Lemma no_findings_no_suggestions_witness :
  suggest_environment_isolation Sample.empty_project = Return []
  /\ exists report,
       console_report (detect_languages Sample.empty_project)
         (detect_infrastructure Sample.empty_project) []
         (check_security_tools Sample.empty_project) = Return report
       /\ ~ In suggestions_header report
       /\ generate_report Sample.empty_project "console"
          = Return (PyStr.join Render.newline report)
       /\ PyStr.contains (PyStr.join Render.newline report)
            "ENVIRONMENT ISOLATION SUGGESTIONS" = false.
Proof.
  apply (no_findings_no_suggestions Sample.empty_project); reflexivity.
Defined.

(* ================================================================== *)
(** * Claim C8: the general containerization suggestion *)
(* ================================================================== *)

(** C8: [suggest_environment_isolation] returns a mapping; with more
    than one detected language and no docker signal its ["general"]
    entry holds the suggestion to adopt Docker, and with at most one
    language or with a docker signal there is no ["general"] entry. *)
Theorem general_docker_suggestion (w : world) :
  exists s,
    suggest_environment_isolation w = Return s
    /\ (1 < length (detect_languages w) ->
        Dict.mem "docker" (detect_infrastructure w) = false ->
        exists items,
          Dict.get s "general" = Some items /\ In docker_suggestion items)
    /\ (length (detect_languages w) <= 1
        \/ Dict.mem "docker" (detect_infrastructure w) = true ->
        Dict.get s "general" = None).
Proof.
  destruct (suggest_environment_isolation_returns w) as [s [Hs Hgen]].
  exists s. split; [exact Hs|]. split.
  - intros Hmany Hdocker. rewrite Hdocker in Hgen.
    apply Nat.ltb_lt in Hmany. rewrite Hmany in Hgen.
    exists [docker_suggestion]. split; [exact Hgen | now left].
  - intros [Hfew|Hdocker].
    + apply Nat.ltb_ge in Hfew. rewrite Hfew, andb_false_r in Hgen.
      exact Hgen.
    + rewrite Hdocker in Hgen. exact Hgen.
Qed.

Lemma general_docker_suggestion_witness :
  (exists s,
     suggest_environment_isolation Sample.python_and_go = Return s
     /\ exists items,
          Dict.get s "general" = Some items /\ In docker_suggestion items)
  /\ (exists s,
        suggest_environment_isolation Sample.python_and_go_docker = Return s
        /\ Dict.get s "general" = None).
Proof.
  split.
  - destruct (general_docker_suggestion Sample.python_and_go)
      as [s [Hs [Hmany _]]].
    exists s. split; [exact Hs|].
    apply Hmany; [apply Nat.ltb_lt|]; reflexivity.
  - destruct (general_docker_suggestion Sample.python_and_go_docker)
      as [s [Hs [_ Hnone]]].
    exists s. split; [exact Hs|].
    apply Hnone. right. reflexivity.
Defined.

(* ================================================================== *)
(** * Claim C9: security tools *)
(* ================================================================== *)

(** C9: whatever the project and the environment, the keys of
    [check_security_tools] are the six tool names, in this order and
    each once, and each is mapped to a boolean. *)
Theorem security_tools_keys (w : world) :
  Dict.keys (check_security_tools w) = security_tool_names
  /\ NoDup (Dict.keys (check_security_tools w))
  /\ Forall (fun tool =>
               exists available : bool,
                 Dict.get (check_security_tools w) tool = Some available)
       security_tool_names.
Proof.
  split; [reflexivity|]. split.
  - cbn [Dict.keys check_security_tools map fst].
    repeat (constructor;
            [cbn [In]; intros H;
             repeat (destruct H as [H|H]; [discriminate H|]); exact H|]).
    constructor.
  - unfold security_tool_names, check_security_tools.
    repeat (constructor; [eexists; reflexivity|]). constructor.
Qed.

(* ================================================================== *)
(** * Claim C10: the Python virtual environment *)
(* ================================================================== *)

Lemma python_env_activated (w : world) (v : string) :
  Dict.get (environ w) "VIRTUAL_ENV" = Some v -> v <> "" ->
  _detect_python_env w = Some v.
Proof.
  intros Hv Hne. unfold _detect_python_env. rewrite Hv.
  cbn [of_optional truthy].
  destruct (String.eqb_spec v ""); [contradiction | reflexivity].
Qed.

Lemma python_env_fallback (w : world) :
  Dict.get (environ w) "VIRTUAL_ENV" = None
  \/ Dict.get (environ w) "VIRTUAL_ENV" = Some "" ->
  _detect_python_env w = venv_fallback w.
Proof.
  intros [H|H]; unfold _detect_python_env; rewrite H; reflexivity.
Qed.

Lemma python_finding_virtual_env (w : world) (d : dict value) :
  Dict.get (detect_languages w) "python" = Some d ->
  Dict.get d "virtual_env" = Some (of_optional (_detect_python_env w)).
Proof.
  rewrite detect_languages_get. keys.
  destruct (python_signal w); [|discriminate].
  intros H. injection H as <-. reflexivity.
Qed.

(** The result is no function of the project root alone: the same tree
    under the same root, two environments, two findings. *)
Lemma virtual_env_depends_on_environ :
  tree Sample.activated = tree (Sample.make [File "app.py"])
  /\ project_path Sample.activated = project_path (Sample.make [File "app.py"])
  /\ detect_languages Sample.activated
     <> detect_languages (Sample.make [File "app.py"]).
Proof.
  repeat split. vm_compute. discriminate.
Qed.

(** C10, as the code has it: a non-empty [VIRTUAL_ENV] is the python
    finding's [virtual_env], whatever the project tree holds; when
    [VIRTUAL_ENV] is unset or empty the detector falls back to the
    [venv] directory, then the [.venv] directory, then no environment.
    So the result depends on the process environment: two worlds with
    the same root and the same tree can differ in their findings. *)
Theorem python_virtual_env (w : world) (d : dict value) :
  Dict.get (detect_languages w) "python" = Some d ->
  (forall v, Dict.get (environ w) "VIRTUAL_ENV" = Some v -> v <> "" ->
             Dict.get d "virtual_env" = Some (VStr v))
  /\ (Dict.get (environ w) "VIRTUAL_ENV" = None
      \/ Dict.get (environ w) "VIRTUAL_ENV" = Some "" ->
      Dict.get d "virtual_env" = Some (of_optional (venv_fallback w)))
  /\ (exists w1 w2,
        tree w1 = tree w2 /\ project_path w1 = project_path w2
        /\ detect_languages w1 <> detect_languages w2).
Proof.
  intros Hd. apply python_finding_virtual_env in Hd. split; [|split].
  - intros v Hv Hne. now rewrite Hd, (python_env_activated w Hv Hne).
  - intros Hunset. now rewrite Hd, (python_env_fallback w Hunset).
  - exists Sample.activated, (Sample.make [File "app.py"]).
    apply virtual_env_depends_on_environ.
Qed.

(** The three cases at work: an activated environment outside a
    project without any [venv] directory, the unset variable, and the
    empty one. *)
Lemma python_virtual_env_witness :
  Dict.get (python_finding Sample.activated) "virtual_env"
    = Some (VStr "/opt/envs/tools")
  /\ Dict.get (python_finding Sample.unset_virtual_env) "virtual_env"
     = Some (VStr "/srv/app/venv")
  /\ Dict.get (python_finding Sample.empty_virtual_env) "virtual_env"
     = Some (VStr "/srv/app/venv").
Proof.
  split; [|split].
  - apply (proj1 (@python_virtual_env Sample.activated
                    (python_finding Sample.activated) eq_refl)
             "/opt/envs/tools" eq_refl).
    discriminate.
  - apply (proj1 (proj2 (@python_virtual_env Sample.unset_virtual_env
                           (python_finding Sample.unset_virtual_env)
                           eq_refl))).
    left. reflexivity.
  - apply (proj1 (proj2 (@python_virtual_env Sample.empty_virtual_env
                           (python_finding Sample.empty_virtual_env)
                           eq_refl))).
    right. reflexivity.
Defined.

(** The fallback is also taken with [VIRTUAL_ENV] set: to the empty
    string.  The variable is in the environment, the finding names the
    project's [venv] directory, and without that directory, in the same
    environment, it names none: the directory was checked for. *)
Lemma virtual_env_set_but_empty :
  Dict.get (environ Sample.empty_virtual_env) "VIRTUAL_ENV" = Some ""
  /\ environ Sample.empty_virtual_env_bare = environ Sample.empty_virtual_env
  /\ (exists d,
        Dict.get (detect_languages Sample.empty_virtual_env) "python" = Some d
        /\ Dict.get d "virtual_env" = Some (VStr "/srv/app/venv"))
  /\ (exists d,
        Dict.get (detect_languages Sample.empty_virtual_env_bare) "python"
        = Some d
        /\ Dict.get d "virtual_env" = Some VNone)
  /\ ~ (forall w d v,
          Dict.get (detect_languages w) "python" = Some d ->
          Dict.get (environ w) "VIRTUAL_ENV" = Some v ->
          Dict.get d "virtual_env" = Some (VStr v)).
Proof.
  split; [reflexivity|]. split; [reflexivity|]. split; [|split].
  - exists (python_finding Sample.empty_virtual_env). split; reflexivity.
  - exists (python_finding Sample.empty_virtual_env_bare). split; reflexivity.
  - intros Hclaim.
    specialize (Hclaim Sample.empty_virtual_env
                  (python_finding Sample.empty_virtual_env) ""
                  eq_refl eq_refl).
    discriminate Hclaim.
Qed.

(* ================================================================== *)
(** * Further properties: the Python manifest helpers *)
(* ================================================================== *)

(** X1: [_find_requirements] answers with the first of
    [requirements.txt], [pyproject.toml], [setup.py], [Pipfile] that
    exists at the root: the answer exists, every name listed before it
    does not, and the answer is [None] only when none of the four
    exists. *)
Theorem find_requirements_first_existing (w : world) :
  match _find_requirements w with
  | Some found =>
      exists before after,
        req_files = before +++ found :: after
        /\ Fs.exists_ w [found] = true
        /\ Forall (fun name => Fs.exists_ w [name] = false) before
  | None => Forall (fun name => Fs.exists_ w [name] = false) req_files
  end.
Proof.
  unfold _find_requirements. cbn [first_existing].
  change (Fs.joinpath [] "requirements.txt") with ["requirements.txt"].
  change (Fs.joinpath [] "pyproject.toml") with ["pyproject.toml"].
  change (Fs.joinpath [] "setup.py") with ["setup.py"].
  change (Fs.joinpath [] "Pipfile") with ["Pipfile"].
  destruct (Fs.exists_ w ["requirements.txt"]) eqn:H1.
  { exists [], ["pyproject.toml"; "setup.py"; "Pipfile"].
    split; [reflexivity | split; [assumption|]];
      repeat (constructor; [assumption|]); constructor. }
  destruct (Fs.exists_ w ["pyproject.toml"]) eqn:H2.
  { exists ["requirements.txt"], ["setup.py"; "Pipfile"].
    split; [reflexivity | split; [assumption|]];
      repeat (constructor; [assumption|]); constructor. }
  destruct (Fs.exists_ w ["setup.py"]) eqn:H3.
  { exists ["requirements.txt"; "pyproject.toml"], ["Pipfile"].
    split; [reflexivity | split; [assumption|]];
      repeat (constructor; [assumption|]); constructor. }
  destruct (Fs.exists_ w ["Pipfile"]) eqn:H4.
  { exists ["requirements.txt"; "pyproject.toml"; "setup.py"], [].
    split; [reflexivity | split; [assumption|]];
      repeat (constructor; [assumption|]); constructor. }
  unfold req_files. repeat (constructor; [assumption|]). constructor.
Qed.

(** X2: the package manager is ["unknown"] exactly when none of
    [Pipfile], [pyproject.toml] and [requirements.txt] exists, and a
    known package manager implies a manifest is reported.  The two
    helpers rank the files in opposite orders: with a [Pipfile] next to
    a [requirements.txt] the manifest reported is [requirements.txt]
    and the package manager is ["pipenv"]. *)
Theorem python_package_manager_ranking (w : world) :
  (_detect_python_package_manager w = "unknown" <->
   Fs.exists_ w ["Pipfile"] = false
   /\ Fs.exists_ w ["pyproject.toml"] = false
   /\ Fs.exists_ w ["requirements.txt"] = false)
  /\ (_detect_python_package_manager w <> "unknown" ->
      _find_requirements w <> None)
  /\ (Fs.exists_ w ["Pipfile"] = true ->
      _detect_python_package_manager w = "pipenv")
  /\ (Fs.exists_ w ["requirements.txt"] = true ->
      _find_requirements w = Some "requirements.txt").
Proof.
  unfold _detect_python_package_manager, _find_requirements.
  cbn [first_existing].
  change (Fs.joinpath [] "requirements.txt") with ["requirements.txt"].
  change (Fs.joinpath [] "pyproject.toml") with ["pyproject.toml"].
  change (Fs.joinpath [] "setup.py") with ["setup.py"].
  change (Fs.joinpath [] "Pipfile") with ["Pipfile"].
  destruct (Fs.exists_ w ["Pipfile"]), (Fs.exists_ w ["pyproject.toml"]),
    (Fs.exists_ w ["requirements.txt"]), (Fs.exists_ w ["setup.py"]);
    (split; [split; [intros H; try discriminate H; auto
                    | intros [H1 [H2 H3]]; try discriminate; reflexivity]
            | split; [intros H; try discriminate; now destruct H
                     | split; intros H; try discriminate H; reflexivity]]).
Qed.

(* ================================================================== *)
(** * Further properties: the suggestions *)
(* ================================================================== *)

Lemma get_none_not_key {V : Type} (d : dict V) (k : string) :
  ~ In k (Dict.keys d) -> Dict.get d k = None.
Proof.
  induction d as [|[k0 v0] d IH]; intros Hk; [reflexivity|].
  cbn [Dict.keys map fst In] in Hk. cbn [Dict.get].
  destruct (String.eqb_spec k0 k); [tauto|]. apply IH. tauto.
Qed.

(** What the loop leaves under a key: the suggestions of the language,
    when there are some, else what was there before. *)
Lemma suggest_for_languages_get (items : list (string * dict value)) :
  NoDup (Dict.keys items) ->
  forall suggestions s,
    suggest_for_languages items suggestions = Return s ->
    forall k,
      Dict.get s k =
      match Dict.get items k with
      | Some details =>
          match lang_suggestions k details with
          | Return l => if nonempty l then Some l else Dict.get suggestions k
          | Raise _ => None
          end
      | None => Dict.get suggestions k
      end.
Proof.
  induction items as [|[lang details] items IH];
    intros Hnodup suggestions s Hs k.
  - cbn in Hs. injection Hs as <-. reflexivity.
  - cbn [Dict.keys map fst] in Hnodup. inversion_clear Hnodup as [|? ? Hnew Hrest].
    cbn [suggest_for_languages] in Hs.
    destruct (lang_suggestions lang details) as [l|e] eqn:Hl; [|discriminate Hs].
    cbn [bind] in Hs.
    rewrite (IH Hrest _ _ Hs k). cbn [Dict.get].
    destruct (String.eqb_spec lang k) as [->|Hne].
    + rewrite (@get_none_not_key _ items k Hnew), Hl.
      destruct (nonempty l); [|reflexivity].
      rewrite get_set, String.eqb_refl. reflexivity.
    + destruct (nonempty l); [|reflexivity].
      rewrite get_set. destruct (String.eqb_spec lang k); [tauto|reflexivity].
Qed.

Lemma detect_languages_nodup (w : world) :
  NoDup (Dict.keys (detect_languages w)).
Proof.
  rewrite detect_languages_blocks.
  destruct (python_signal w), (nodejs_signal w), (go_signal w), (rust_signal w);
    cbn [List.app Dict.keys map fst];
    repeat (constructor;
            [cbn [In]; intros H;
             repeat (destruct H as [H|H]; [discriminate H|]); exact H|]);
    constructor.
Qed.

(** [_detect_python_env] never answers with the empty string. *)
Lemma python_env_truthy (w : world) :
  truthy (of_optional (_detect_python_env w))
  = match _detect_python_env w with Some _ => true | None => false end.
Proof.
  unfold _detect_python_env.
  destruct (truthy (of_optional (Dict.get (environ w) "VIRTUAL_ENV"))) eqn:Hv.
  - destruct (Dict.get (environ w) "VIRTUAL_ENV"); [exact Hv | discriminate Hv].
  - destruct (Fs.exists_ w (Fs.joinpath [] "venv")); [reflexivity|].
    destruct (Fs.exists_ w (Fs.joinpath [] ".venv")); reflexivity.
Qed.

Lemma find_requirements_truthy (w : world) :
  truthy (of_optional (_find_requirements w))
  = match _find_requirements w with Some _ => true | None => false end.
Proof.
  unfold _find_requirements. cbn [first_existing].
  repeat match goal with
         | |- context [if ?b then _ else _] => destruct b; [reflexivity|]
         end.
  reflexivity.
Qed.

Lemma lang_suggestions_python (w : world) :
  lang_suggestions "python" (python_finding w) = Return (python_suggestions w).
Proof.
  unfold lang_suggestions, python_finding, python_suggestions. keys.
  unfold Dict.getitem, Dict.get_default. cbn [Dict.get]. keys. cbn [bind].
  rewrite python_env_truthy, find_requirements_truthy.
  destruct (_detect_python_env w), (_find_requirements w); reflexivity.
Qed.

Lemma lang_suggestions_nodejs (w : world) :
  lang_suggestions "nodejs" (nodejs_finding w) = Return (nodejs_suggestions w).
Proof.
  unfold lang_suggestions, nodejs_finding, nodejs_suggestions. keys.
  unfold Dict.get_default. cbn [Dict.get]. keys. cbn [truthy].
  destruct (Fs.exists_ w ["package.json"]), (_detect_js_framework w);
    reflexivity.
Qed.

Lemma lang_suggestions_go (w : world) :
  lang_suggestions "go" (go_finding w) = Return (go_suggestions w).
Proof.
  unfold lang_suggestions, go_finding, go_suggestions. keys.
  unfold Dict.get_default. cbn [Dict.get]. keys. cbn [truthy].
  destruct (Fs.exists_ w ["go.mod"]); reflexivity.
Qed.

Lemma lang_suggestions_rust (w : world) :
  lang_suggestions "rust" (rust_finding w) = Return (rust_suggestions w).
Proof.
  unfold lang_suggestions, rust_finding, rust_suggestions. keys.
  unfold Dict.get_default. cbn [Dict.get]. keys. cbn [truthy].
  destruct (Fs.exists_ w ["Cargo.toml"]); reflexivity.
Qed.

(** The suggestions, key by key. *)
Lemma suggestions_lookup (w : world) :
  exists s,
    suggest_environment_isolation w = Return s
    /\ forall k,
        Dict.get s k =
        if String.eqb k "general" then
          if negb (Dict.mem "docker" (detect_infrastructure w))
             && (1 <? length (detect_languages w))
          then Some [docker_suggestion] else None
        else if String.eqb k "python" then
          if python_signal w then Some (python_suggestions w) else None
        else if String.eqb k "nodejs" then
          if nodejs_signal w then Some (nodejs_suggestions w) else None
        else if String.eqb k "go" then
          if go_signal w then Some (go_suggestions w) else None
        else if String.eqb k "rust" then
          if rust_signal w && negb (Fs.exists_ w ["Cargo.toml"])
          then Some ["Initialize Cargo.toml"] else None
        else None.
Proof.
  destruct (detected_suggestions_return w) as [s0 [Hs0 Hgen0]].
  pose proof (@suggest_for_languages_get (detect_languages w)
                (detect_languages_nodup w) [] s0 Hs0) as Hget0.
  assert (Hlang : forall k, String.eqb k "general" = false ->
            Dict.get s0 k =
            if String.eqb k "python" then
              if python_signal w then Some (python_suggestions w) else None
            else if String.eqb k "nodejs" then
              if nodejs_signal w then Some (nodejs_suggestions w) else None
            else if String.eqb k "go" then
              if go_signal w then Some (go_suggestions w) else None
            else if String.eqb k "rust" then
              if rust_signal w && negb (Fs.exists_ w ["Cargo.toml"])
              then Some ["Initialize Cargo.toml"] else None
            else None).
  { intros k _. rewrite Hget0, detect_languages_get. cbn [Dict.get].
    destruct (String.eqb_spec k "python") as [->|_].
    { destruct (python_signal w); [|reflexivity].
      rewrite lang_suggestions_python. unfold python_suggestions.
      destruct (_detect_python_env w), (_find_requirements w); reflexivity. }
    destruct (String.eqb_spec k "nodejs") as [->|_].
    { destruct (nodejs_signal w); [|reflexivity].
      rewrite lang_suggestions_nodejs. unfold nodejs_suggestions.
      destruct (Fs.exists_ w ["package.json"]); reflexivity. }
    destruct (String.eqb_spec k "go") as [->|_].
    { destruct (go_signal w); [|reflexivity].
      rewrite lang_suggestions_go. unfold go_suggestions.
      destruct (Fs.exists_ w ["go.mod"]); reflexivity. }
    destruct (String.eqb_spec k "rust") as [->|_]; [|reflexivity].
    destruct (rust_signal w); [|reflexivity].
    rewrite lang_suggestions_rust. unfold rust_suggestions.
    destruct (Fs.exists_ w ["Cargo.toml"]); reflexivity. }
  unfold suggest_environment_isolation. rewrite Hs0. cbn [bind].
  destruct (negb (Dict.mem "docker" (detect_infrastructure w))
            && (1 <? length (detect_languages w))).
  - unfold Dict.getitem, Dict.get_default.
    rewrite get_set, Hgen0. keys. cbn [bind].
    eexists. split; [reflexivity|].
    intros k. rewrite !get_set, (String.eqb_sym "general" k).
    destruct (String.eqb k "general") eqn:Hk; [reflexivity|].
    now apply Hlang.
  - exists s0. split; [reflexivity|]. intros k.
    destruct (String.eqb_spec k "general") as [->|Hk]; [exact Hgen0|].
    apply Hlang. now apply String.eqb_neq.
Qed.


Lemma python_env_none (w : world) :
  _detect_python_env w = None <->
  (Dict.get (environ w) "VIRTUAL_ENV" = None
   \/ Dict.get (environ w) "VIRTUAL_ENV" = Some "")
  /\ Fs.exists_ w ["venv"] = false
  /\ Fs.exists_ w [".venv"] = false.
Proof.
  unfold _detect_python_env.
  change (Fs.joinpath [] "venv") with ["venv"].
  change (Fs.joinpath [] ".venv") with [".venv"].
  destruct (Dict.get (environ w) "VIRTUAL_ENV") as [v|]; cbn [of_optional truthy].
  - destruct (String.eqb_spec v "") as [->|Hv]; cbn [negb].
    + destruct (Fs.exists_ w ["venv"]), (Fs.exists_ w [".venv"]);
        split; try discriminate; try tauto; intros [_ [H1 H2]]; discriminate.
    + split; [discriminate|]. intros [[H|H] _]; [discriminate H|].
      injection H as ->. now destruct Hv.
  - destruct (Fs.exists_ w ["venv"]), (Fs.exists_ w [".venv"]);
      split; try discriminate; try tauto; intros [_ [H1 H2]]; discriminate.
Qed.

Lemma find_requirements_none (w : world) :
  _find_requirements w = None <->
  Forall (fun name => Fs.exists_ w [name] = false) req_files.
Proof.
  unfold _find_requirements, req_files. cbn [first_existing].
  change (Fs.joinpath [] "requirements.txt") with ["requirements.txt"].
  change (Fs.joinpath [] "pyproject.toml") with ["pyproject.toml"].
  change (Fs.joinpath [] "setup.py") with ["setup.py"].
  change (Fs.joinpath [] "Pipfile") with ["Pipfile"].
  split.
  - destruct (Fs.exists_ w ["requirements.txt"]) eqn:H1; [discriminate|].
    destruct (Fs.exists_ w ["pyproject.toml"]) eqn:H2; [discriminate|].
    destruct (Fs.exists_ w ["setup.py"]) eqn:H3; [discriminate|].
    destruct (Fs.exists_ w ["Pipfile"]) eqn:H4; [discriminate|].
    intros _. repeat (constructor; [assumption|]). constructor.
  - intros H.
    repeat match goal with
           | H : Forall _ (_ :: _) |- _ => inversion_clear H
           end.
    repeat match goal with
           | H : Fs.exists_ _ _ = false |- _ => rewrite H; clear H
           end.
    reflexivity.
Qed.

(** X4: when python is detected its suggestions are, in this order: to
    create a virtual environment, when [VIRTUAL_ENV] is unset or empty
    and the root has neither [venv] nor [.venv]; to create a manifest,
    when none of the four requirement files exists; and, always, to
    consider pyenv.  Without python there is no python entry. *)
Theorem python_suggestions_listed (w : world) :
  exists s,
    suggest_environment_isolation w = Return s
    /\ Dict.get s "python"
       = (if Dict.mem "python" (detect_languages w)
          then Some (python_suggestions w) else None)
    /\ (In "Create Python virtual environment (venv/virtualenv)"
          (python_suggestions w) <->
        (Dict.get (environ w) "VIRTUAL_ENV" = None
         \/ Dict.get (environ w) "VIRTUAL_ENV" = Some "")
        /\ Fs.exists_ w ["venv"] = false
        /\ Fs.exists_ w [".venv"] = false)
    /\ (In "Create requirements.txt or pyproject.toml" (python_suggestions w)
        <-> Forall (fun name => Fs.exists_ w [name] = false) req_files)
    /\ last (python_suggestions w) ""
       = "Consider pyenv for Python version management".
Proof.
  destruct (suggestions_lookup w) as [s [Hs Hget]].
  destruct (language_detected w) as [Hpy _].
  exists s. split; [exact Hs|]. split; [|split; [|split]].
  - rewrite Hget, Hpy. reflexivity.
  - rewrite <- python_env_none. unfold python_suggestions.
    destruct (_detect_python_env w), (_find_requirements w); cbn [List.app In];
      split; intros H; try discriminate H; auto;
      repeat (destruct H as [H|H]; [discriminate H|]); destruct H.
  - rewrite <- find_requirements_none. unfold python_suggestions.
    destruct (_detect_python_env w), (_find_requirements w); cbn [List.app In];
      split; intros H; try discriminate H; auto;
      repeat (destruct H as [H|H]; [discriminate H|]); destruct H.
  - unfold python_suggestions.
    destruct (_detect_python_env w), (_find_requirements w); reflexivity.
Qed.

(** X5: when nodejs is detected its suggestions are: to initialize
    [package.json], when it is missing; always, to consider nvm; and
    dev containers, when the framework is react, vue or angular (not
    svelte).  The first and the last never come together: a framework
    is only detected from an existing [package.json]. *)
Theorem nodejs_suggestions_listed (w : world) :
  exists s,
    suggest_environment_isolation w = Return s
    /\ Dict.get s "nodejs"
       = (if Dict.mem "nodejs" (detect_languages w)
          then Some (nodejs_suggestions w) else None)
    /\ (In "Initialize package.json" (nodejs_suggestions w) <->
        Fs.exists_ w ["package.json"] = false)
    /\ In "Consider nvm for Node.js version management" (nodejs_suggestions w)
    /\ (In "Use framework-specific dev containers" (nodejs_suggestions w) <->
        In (_detect_js_framework w) [Some "react"; Some "vue"; Some "angular"])
    /\ ~ (In "Initialize package.json" (nodejs_suggestions w)
          /\ In "Use framework-specific dev containers" (nodejs_suggestions w)).
Proof.
  destruct (suggestions_lookup w) as [s [Hs Hget]].
  destruct (language_detected w) as [_ [Hnode _]].
  assert (Hframework :
    In "Use framework-specific dev containers" (nodejs_suggestions w) <->
    In (_detect_js_framework w) [Some "react"; Some "vue"; Some "angular"]).
  { unfold nodejs_suggestions.
    destruct (_detect_js_framework w) as [f|].
    - cbn [existsb].
      destruct (String.eqb_spec f "react") as [->|Hr].
      { destruct (Fs.exists_ w ["package.json"]); cbn; tauto. }
      destruct (String.eqb_spec f "vue") as [->|Hv].
      { destruct (Fs.exists_ w ["package.json"]); cbn; tauto. }
      destruct (String.eqb_spec f "angular") as [->|Ha].
      { destruct (Fs.exists_ w ["package.json"]); cbn; tauto. }
      cbn [orb]. split.
      + destruct (Fs.exists_ w ["package.json"]); cbn [List.app In]; intros H;
          repeat (destruct H as [H|H]; [discriminate H|]); destruct H.
      + cbn [In]. intros [H|[H|[H|[]]]]; injection H as <-; tauto.
    - split.
      + destruct (Fs.exists_ w ["package.json"]); cbn [List.app In]; intros H;
          repeat (destruct H as [H|H]; [discriminate H|]); destruct H.
      + cbn [In]. intros [H|[H|[H|[]]]]; discriminate H. }
  assert (Hinit : In "Initialize package.json" (nodejs_suggestions w) <->
                  Fs.exists_ w ["package.json"] = false).
  { unfold nodejs_suggestions.
    destruct (Fs.exists_ w ["package.json"]); cbn [List.app In].
    - split; [|discriminate]. intros [H|H]; [discriminate H|].
      destruct (_detect_js_framework w) as [f|]; [|destruct H].
      destruct (existsb _ _); [|destruct H].
      destruct H as [H|[]]. discriminate H.
    - split; auto. }
  exists s. split; [exact Hs|]. split; [|split; [|split; [|split]]].
  - rewrite Hget, Hnode. reflexivity.
  - exact Hinit.
  - unfold nodejs_suggestions.
    destruct (Fs.exists_ w ["package.json"]); cbn [List.app In]; auto.
  - exact Hframework.
  - intros [Hmissing Hdev]. apply Hinit in Hmissing. apply Hframework in Hdev.
    unfold _detect_js_framework in Hdev.
    change (Fs.joinpath [] "package.json") with ["package.json"] in Hdev.
    rewrite Hmissing in Hdev. cbn [negb In] in Hdev.
    destruct Hdev as [H|[H|[H|[]]]]; discriminate H.
Qed.

(** X6: a detected go always gets the workspace suggestion, preceded by
    "Initialize go.mod" when [go.mod] is missing; rust gets an entry
    only when [Cargo.toml] is missing, that is, only when it was
    detected by its source files alone. *)
Theorem go_rust_suggestions_listed (w : world) :
  exists s,
    suggest_environment_isolation w = Return s
    /\ Dict.get s "go"
       = (if Dict.mem "go" (detect_languages w)
          then Some (go_suggestions w) else None)
    /\ go_suggestions w
       = (if Fs.exists_ w ["go.mod"]
          then ["Consider Go workspace for multi-module projects"]
          else ["Initialize go.mod";
                "Consider Go workspace for multi-module projects"])
    /\ Dict.get s "rust"
       = (if Dict.mem "rust" (detect_languages w)
             && negb (Fs.exists_ w ["Cargo.toml"])
          then Some ["Initialize Cargo.toml"] else None)
    /\ (Dict.mem "rust" s = true <->
        Fs.exists_ w ["Cargo.toml"] = false /\ source_exists w ".rs").
Proof.
  destruct (suggestions_lookup w) as [s [Hs Hget]].
  destruct (language_detected w) as [_ [_ [Hgo Hrust]]].
  exists s. split; [exact Hs|]. split; [|split; [|split]].
  - rewrite Hget, Hgo. reflexivity.
  - unfold go_suggestions. destruct (Fs.exists_ w ["go.mod"]); reflexivity.
  - rewrite Hget, Hrust. reflexivity.
  - unfold Dict.mem. rewrite Hget. keys.
    rewrite <- (@rglob_extension w ".rs" eq_refl).
    unfold rust_signal.
    destruct (Fs.exists_ w ["Cargo.toml"]),
      (nonempty (Fs.rglob w (String "*" ".rs"))) eqn:Hrs;
      cbn [orb andb negb];
      change (Fs.rglob w "*.rs") with (Fs.rglob w (String "*" ".rs"));
      rewrite ?Hrs; cbn [orb andb negb];
      split; try discriminate; try tauto;
      intros [H1 H2]; discriminate.
Qed.

(* ================================================================== *)
(** * Further properties: the language findings *)
(* ================================================================== *)

(** X7: the detected languages come in the fixed order python, nodejs,
    go, rust, each at most once: the keys of the result are the
    supported languages that have an entry, in that order. *)
Theorem detect_languages_order (w : world) :
  Dict.keys (detect_languages w)
  = filter (fun lang => Dict.mem lang (detect_languages w)) supported_languages
  /\ NoDup (Dict.keys (detect_languages w))
  /\ length (detect_languages w) <= 4.
Proof.
  split; [|split].
  - destruct (language_detected w) as [Hpy [Hnode [Hgo Hrust]]].
    unfold supported_languages. cbn [filter].
    rewrite Hpy, Hnode, Hgo, Hrust, detect_languages_blocks.
    destruct (python_signal w), (nodejs_signal w), (go_signal w),
      (rust_signal w); reflexivity.
  - apply detect_languages_nodup.
  - rewrite detect_languages_blocks.
    destruct (python_signal w), (nodejs_signal w), (go_signal w),
      (rust_signal w); cbn [List.app length]; lia.
Qed.

Lemma nonempty_length {A : Type} (l : list A) :
  nonempty l = true <-> 0 < length l.
Proof.
  destruct l; cbn [nonempty length]; split; intros H; try lia; try discriminate;
    reflexivity.
Qed.

(** X8: a finding that counts zero files is never python's, and its
    manifest flag is set: nodejs with [package.json], go with [go.mod],
    rust with [Cargo.toml]. *)
Theorem zero_files_means_manifest (w : world) (lang : string)
  (d : dict value) :
  Dict.get (detect_languages w) lang = Some d ->
  Dict.get d "files_count" = Some (VInt 0) ->
  (lang = "nodejs" /\ Dict.get d "package_json" = Some (VBool true))
  \/ (lang = "go" /\ Dict.get d "go_mod" = Some (VBool true))
  \/ (lang = "rust" /\ Dict.get d "cargo_toml" = Some (VBool true)).
Proof.
  rewrite detect_languages_get.
  destruct (String.eqb_spec lang "python") as [->|_].
  { unfold python_signal. destruct (nonempty _) eqn:Hfiles; [|discriminate].
    intros H; injection H as <-. cbn [python_finding Dict.get]. keys.
    apply nonempty_length in Hfiles. intros H; injection H as H. lia. }
  destruct (String.eqb_spec lang "nodejs") as [->|_].
  { unfold nodejs_signal.
    destruct (Fs.exists_ w ["package.json"]) eqn:Hmanifest.
    - intros H; injection H as <-. intros _. left. split; [reflexivity|].
      cbn [nodejs_finding Dict.get]. keys. now rewrite Hmanifest.
    - cbn [orb]. destruct (nonempty (Fs.rglob w "*.ts")) eqn:Hts.
      + intros H; injection H as <-. cbn [nodejs_finding Dict.get]. keys.
        apply nonempty_length in Hts. rewrite length_app.
        intros H; injection H as H. lia.
      + cbn [orb]. destruct (nonempty (Fs.rglob w "*.js")) eqn:Hjs;
          [|discriminate].
        intros H; injection H as <-. cbn [nodejs_finding Dict.get]. keys.
        apply nonempty_length in Hjs. rewrite length_app.
        intros H; injection H as H. lia. }
  destruct (String.eqb_spec lang "go") as [->|_].
  { unfold go_signal.
    destruct (Fs.exists_ w ["go.mod"]) eqn:Hmanifest.
    - rewrite orb_true_r. intros H; injection H as <-. intros _.
      right. left. split; [reflexivity|].
      cbn [go_finding Dict.get]. keys. now rewrite Hmanifest.
    - rewrite orb_false_r. destruct (nonempty _) eqn:Hfiles; [|discriminate].
      intros H; injection H as <-. cbn [go_finding Dict.get]. keys.
      apply nonempty_length in Hfiles. intros H; injection H as H. lia. }
  destruct (String.eqb_spec lang "rust") as [->|_]; [|discriminate].
  unfold rust_signal.
  destruct (Fs.exists_ w ["Cargo.toml"]) eqn:Hmanifest.
  - intros H; injection H as <-. intros _. right. right.
    split; [reflexivity|].
    cbn [rust_finding Dict.get]. keys. now rewrite Hmanifest.
  - cbn [orb]. destruct (nonempty _) eqn:Hfiles; [|discriminate].
    intros H; injection H as <-. cbn [rust_finding Dict.get]. keys.
    apply nonempty_length in Hfiles. intros H; injection H as H. lia.
Qed.

Lemma zero_files_means_manifest_witness :
  (("go" = "nodejs"
    /\ Dict.get (go_finding Sample.go_mod_only) "package_json"
       = Some (VBool true))
   \/ ("go" = "go"
       /\ Dict.get (go_finding Sample.go_mod_only) "go_mod"
          = Some (VBool true))
   \/ ("go" = "rust"
       /\ Dict.get (go_finding Sample.go_mod_only) "cargo_toml"
          = Some (VBool true))).
Proof.
  apply (@zero_files_means_manifest Sample.go_mod_only "go"
           (go_finding Sample.go_mod_only)); reflexivity.
Defined.

(* ================================================================== *)
(** * Further properties: the infrastructure findings *)
(* ================================================================== *)

Lemma detect_infrastructure_ci (w : world) :
  Dict.get (detect_infrastructure w) "ci_cd" =
    if nonempty (ci_files w) then Some (ci_finding w) else None.
Proof.
  rewrite detect_infrastructure_blocks.
  destruct (nonempty (docker_files w)), (Fs.exists_ w [".git"]),
    (nonempty (ci_files w)); reflexivity.
Qed.

(** X9: the infrastructure categories come in the fixed order docker,
    git, ci_cd, each at most once; git is there exactly when [.git]
    exists at the root, and docker exactly when some entry below the
    root, at any depth, has a name matching one of the three docker
    patterns. *)
Theorem infrastructure_presence (w : world) :
  Dict.keys (detect_infrastructure w)
  = filter (fun k => Dict.mem k (detect_infrastructure w)) infrastructure_keys
  /\ Dict.mem "git" (detect_infrastructure w) = Fs.exists_ w [".git"]
  /\ (Dict.mem "docker" (detect_infrastructure w) = true <->
      exists f pattern,
        In f (Fs.walk w) /\ In pattern dockerfile_patterns
        /\ PyStr.fnmatch pattern (Fs.name f) = true).
Proof.
  split; [|split].
  - unfold infrastructure_keys, Dict.mem. cbn [filter].
    rewrite detect_infrastructure_docker, detect_infrastructure_git,
      detect_infrastructure_ci, detect_infrastructure_blocks.
    destruct (nonempty (docker_files w)), (Fs.exists_ w [".git"]),
      (nonempty (ci_files w)); reflexivity.
  - unfold Dict.mem. rewrite detect_infrastructure_git.
    now destruct (Fs.exists_ w [".git"]).
  - rewrite docker_detected, nonempty_exists. unfold docker_files.
    fold dockerfile_patterns. split.
    + intros [f Hf]. apply in_flat_map in Hf. destruct Hf as [pattern [Hp Hf]].
      rewrite rglob_filter_walk in Hf. apply filter_In in Hf.
      exists f, pattern. tauto.
    + intros [f [pattern [Hf [Hp Hm]]]]. exists f. apply in_flat_map.
      exists pattern. split; [exact Hp|].
      rewrite rglob_filter_walk. apply filter_In. tauto.
Qed.

(** X10: the ci_cd finding lists, in the order [.github/workflows],
    [.gitlab-ci.yml], [Jenkinsfile], [.travis.yml], exactly the paths
    that exist; the list is never empty, and there is no ci_cd finding
    when none of the four exists.  A [.github] directory counts only
    through its [workflows] entry. *)
Theorem ci_detected_paths (w : world) :
  match Dict.get (detect_infrastructure w) "ci_cd" with
  | Some d =>
      exists detected,
        Dict.get d "detected" = Some (VList (map VStr detected))
        /\ detected <> []
        /\ detected
           = filter (fun p => Fs.exists_ w (Fs.parts_of p)) ci_patterns
  | None => Forall (fun p => Fs.exists_ w (Fs.parts_of p) = false) ci_patterns
  end
  /\ Fs.parts_of ".github/workflows" = [".github"; "workflows"]
  /\ (Fs.exists_ w [".github"; "workflows"] = true <->
      exists children,
        In (Dir ".github" children) (tree w)
        /\ exists e, In e children /\ entry_name e = "workflows").
Proof.
  split; [|split; [reflexivity|]].
  - rewrite detect_infrastructure_ci.
    destruct (nonempty (ci_files w)) eqn:Hci.
    + exists (ci_files w). split; [reflexivity|]. split; [|reflexivity].
      intros E. rewrite E in Hci. discriminate Hci.
    + unfold ci_files in Hci. fold ci_patterns in Hci.
      change (fun pattern => Fs.exists_ w (Fs.joinpath [] pattern))
        with (fun p => Fs.exists_ w (Fs.parts_of p)) in Hci.
      destruct (filter _ ci_patterns) as [|p l] eqn:Hfilter; [|discriminate].
      apply Forall_forall. intros p Hp.
      destruct (Fs.exists_ w (Fs.parts_of p)) eqn:Hex; [|reflexivity].
      assert (Hin : In p (filter (fun p => Fs.exists_ w (Fs.parts_of p))
                            ci_patterns))
        by (apply filter_In; tauto).
      rewrite Hfilter in Hin. destruct Hin.
  - unfold Fs.exists_. cbn [Fs.exists_in]. rewrite existsb_exists. split.
    + intros [[n|n children] [Hin He]]; [discriminate He|].
      apply andb_prop in He. destruct He as [Hn Hc].
      apply String.eqb_eq in Hn. subst n.
      apply existsb_exists in Hc. destruct Hc as [e [He Hname]].
      apply String.eqb_eq in Hname. eauto.
    + intros [children [Hin [e [He Hname]]]].
      exists (Dir ".github" children). split; [exact Hin|].
      rewrite String.eqb_refl. cbn [andb]. apply existsb_exists.
      exists e. split; [exact He|]. now apply String.eqb_eq.
Qed.

Lemma filter_all {A : Type} (keep : A -> bool) (l : list A) :
  (forall x, In x l -> keep x = true) -> filter keep l = l.
Proof.
  induction l as [|x l IH]; intros H; [reflexivity|].
  cbn [filter]. rewrite (H x (or_introl eq_refl)). f_equal.
  apply IH. intros y Hy. apply H. now right.
Qed.

Lemma filter_none {A : Type} (keep : A -> bool) (l : list A) :
  (forall x, In x l -> keep x = false) -> filter keep l = [].
Proof.
  induction l as [|x l IH]; intros H; [reflexivity|].
  cbn [filter]. rewrite (H x (or_introl eq_refl)).
  apply IH. intros y Hy. apply H. now right.
Qed.

Lemma filter_cover {A : Type} (f g : A -> bool) (l : list A) :
  (forall x, In x l -> f x = true \/ g x = true) ->
  length l <= length (filter f l) + length (filter g l).
Proof.
  induction l as [|x l IH]; intros H; [cbn; lia|].
  assert (IH' : length l <= length (filter f l) + length (filter g l))
    by (apply IH; intros y Hy; apply H; now right).
  cbn [filter length].
  destruct (H x (or_introl eq_refl)) as [Hx|Hx]; rewrite Hx;
    [destruct (g x) | destruct (f x)]; cbn [length]; lia.
Qed.

(** A compose file is no Dockerfile: its name starts with a small d. *)
Lemma compose_name_not_dockerfile (name ext : string) :
  PyStr.fnmatch ("docker-compose*" ++ ext) name = true ->
  PyStr.startswith name "Dockerfile" = false.
Proof.
  cbn [String.append]. intros H. fnmatch_literal_in H. reflexivity.
Qed.

(** X11: the docker finding sorts the docker files into two buckets
    without losing any: every file is a compose file or a Dockerfile
    (some are both).  The Dockerfile bucket is exactly what the pattern
    [Dockerfile*] found; the compose bucket holds everything the two
    compose patterns found, after the [Dockerfile*] matches whose name
    contains "compose". *)
Theorem docker_buckets (w : world) :
  match Dict.get (detect_infrastructure w) "docker" with
  | Some d =>
      Dict.get d "files"
      = Some (VList (map (fun f => VStr (Fs.str_relative f)) (docker_files w)))
      /\ Dict.get d "compose_files"
         = Some (VList (map (Fs.as_value w) (compose_files w)))
      /\ Dict.get d "dockerfiles"
         = Some (VList (map (Fs.as_value w) (dockerfiles w)))
      /\ docker_files w <> []
  | None => docker_files w = []
  end
  /\ dockerfiles w = Fs.rglob w "Dockerfile*"
  /\ compose_files w
     = filter (fun f => PyStr.contains (Fs.name f) "compose")
         (Fs.rglob w "Dockerfile*")
       +++ Fs.rglob w "docker-compose*.yml"
       +++ Fs.rglob w "docker-compose*.yaml"
  /\ length (docker_files w)
     <= length (compose_files w) + length (dockerfiles w).
Proof.
  split; [|split; [|split]].
  - rewrite detect_infrastructure_docker.
    destruct (docker_files w) eqn:Hfiles; cbn [nonempty]; [reflexivity|].
    rewrite <- Hfiles. repeat split; try reflexivity.
    rewrite Hfiles. discriminate.
  - unfold dockerfiles, docker_files. cbn [flat_map].
    rewrite !filter_app, app_nil_r.
    rewrite filter_all, !filter_none, !app_nil_r; [reflexivity| | |].
    + intros f Hf. apply rglob_name in Hf.
      now apply (compose_name_not_dockerfile _ ".yaml").
    + intros f Hf. apply rglob_name in Hf.
      now apply (compose_name_not_dockerfile _ ".yml").
    + intros f Hf. apply rglob_name in Hf. now apply fnmatch_dockerfile.
  - unfold compose_files, docker_files. cbn [flat_map].
    rewrite !filter_app, app_nil_r.
    rewrite (@filter_all _ _ (Fs.rglob w "docker-compose*.yml")),
      (@filter_all _ _ (Fs.rglob w "docker-compose*.yaml")); [reflexivity| |].
    + intros f Hf. apply rglob_name in Hf.
      now apply (fnmatch_compose_file _ ".yaml").
    + intros f Hf. apply rglob_name in Hf.
      now apply (fnmatch_compose_file _ ".yml").
  - unfold compose_files, dockerfiles. apply filter_cover.
    intros f Hf. destruct (docker_file_bucket w f Hf) as [H|H];
      unfold compose_files, dockerfiles in H; apply filter_In in H; tauto.
Qed.

(* ================================================================== *)
(** * Further properties: the external commands *)
(* ================================================================== *)

Lemma has_npm_audit_iff (w : world) :
  _has_npm_audit w = true <->
  exists q, spawn w None ["npm"; "audit"; "--help"] = Return q
            /\ PyStr.contains (stdout q) "audit" = true.
Proof.
  unfold _has_npm_audit, subprocess_run.
  destruct (spawn w None ["npm"; "audit"; "--help"]) as [q|e];
    cbn [bind andb try_except].
  - split; [eauto|]. intros [q' [Hq Hc]]. injection Hq as <-. exact Hc.
  - split; [discriminate|]. intros [q' [Hq _]]. discriminate Hq.
Qed.

(** X12: a security tool is reported available exactly when its
    [--version] command can be launched and exits with status 0; for
    [npm_audit] the command is [npm --version], and in addition
    [npm audit --help] must launch and print the word "audit", whatever
    its exit status. *)
Theorem security_tools_availability (w : world) :
  Forall (fun tool =>
            Dict.get (check_security_tools w) tool = Some true <->
            exists p, spawn w None [tool; "--version"] = Return p
                      /\ returncode p = 0%Z)
    ["bandit"; "safety"; "snyk"; "semgrep"; "gosec"]
  /\ (Dict.get (check_security_tools w) "npm_audit" = Some true <->
      (exists p, spawn w None ["npm"; "--version"] = Return p
                 /\ returncode p = 0%Z)
      /\ (exists q, spawn w None ["npm"; "audit"; "--help"] = Return q
                    /\ PyStr.contains (stdout q) "audit" = true)).
Proof.
  split.
  - repeat (constructor;
            [unfold check_security_tools; cbn [Dict.get]; keys;
             rewrite <- command_exists_iff;
             split; [intros H; now injection H | now intros ->]|]).
    constructor.
  - unfold check_security_tools. cbn [Dict.get]. keys.
    rewrite <- command_exists_iff, <- has_npm_audit_iff. split.
    + intros H. injection H as H. now apply andb_prop in H.
    + intros [-> ->]. reflexivity.
Qed.

Lemma all_space_lstrip_bounded (n : nat) :
  forall s, String.length s <= n ->
            PyStr.all_space (PyStr.lstrip s) = PyStr.all_space s.
Proof.
  induction n as [|n IH]; intros s Hlen.
  - destruct s; [reflexivity | cbn in Hlen; lia].
  - destruct s as [|c s1]; [reflexivity|].
    cbn [String.length] in Hlen.
    destruct (PyStr.is_space c) eqn:Hc.
    { cbn [PyStr.lstrip PyStr.all_space]. rewrite Hc. apply IH; lia. }
    destruct s1 as [|d s2].
    { cbn [PyStr.lstrip]. now rewrite Hc. }
    cbn [String.length] in Hlen.
    destruct (PyStr.two_byte_space c d) eqn:Htwo.
    { cbn [PyStr.lstrip PyStr.all_space]. rewrite Hc, Htwo. apply IH; lia. }
    destruct s2 as [|e s3].
    { cbn [PyStr.lstrip]. now rewrite Hc, Htwo. }
    cbn [String.length] in Hlen.
    destruct (PyStr.three_byte_space c d e) eqn:Hthree.
    { cbn [PyStr.lstrip PyStr.all_space]. rewrite Hc, Htwo, Hthree.
      apply IH; lia. }
    cbn [PyStr.lstrip]. now rewrite Hc, Htwo, Hthree.
Qed.

Lemma all_space_lstrip (s : string) :
  PyStr.all_space (PyStr.lstrip s) = PyStr.all_space s.
Proof. apply (@all_space_lstrip_bounded (String.length s)). lia. Qed.

Lemma rstrip_empty (s : string) :
  PyStr.rstrip s = "" <-> PyStr.all_space s = true.
Proof.
  destruct s as [|c s]; [now split|].
  cbn [PyStr.rstrip].
  destruct (PyStr.all_space (String c s)); split;
    (reflexivity || discriminate).
Qed.

(** [strip] leaves nothing exactly when the string is all whitespace. *)
Lemma strip_empty (s : string) :
  PyStr.strip s = "" <-> PyStr.all_space s = true.
Proof.
  unfold PyStr.strip. now rewrite rstrip_empty, all_space_lstrip.
Qed.

(** X13: uncommitted changes are reported exactly when [git status
    --porcelain], run in the project root, can be launched and prints
    something that is not whitespace only, the whitespace being what
    [str.isspace] accepts, Unicode's included.  The exit status plays
    no role, so a failing [git] that prints nothing reads as a clean
    tree. *)
Theorem uncommitted_changes_iff (w : world) :
  _has_uncommitted_changes w = true <->
  exists p,
    spawn w (Some []) ["git"; "status"; "--porcelain"] = Return p
    /\ PyStr.all_space (stdout p) = false.
Proof.
  unfold _has_uncommitted_changes, subprocess_run.
  destruct (spawn w (Some []) ["git"; "status"; "--porcelain"]) as [p|e];
    cbn [bind andb try_except truthy].
  - rewrite negb_true_iff, String.eqb_neq, strip_empty, not_true_iff_false.
    split.
    + intros Hp. now exists p.
    + intros [p' [Hp Hspace]]. now injection Hp as <-.
  - split; [discriminate|]. intros [p' [Hp _]]. discriminate Hp.
Qed.

(** X14: whenever the version command of a detected language can be
    launched, the finding's [current_version] is what it printed on its
    standard output, stripped, whatever the exit status. *)
Theorem version_is_stripped_stdout (w : world) (lang : string)
  (d : dict value) (p : CompletedProcess) :
  Dict.get (detect_languages w) lang = Some d ->
  spawn w None (version_command w lang) = Return p ->
  Dict.get d "current_version" = Some (VStr (PyStr.strip (stdout p))).
Proof.
  intros Hd Hp. rewrite (current_version_field w lang Hd).
  now rewrite (stripped_stdout_completed w _ None Hp).
Qed.

Lemma version_is_stripped_stdout_witness :
  Dict.get (nodejs_finding Sample.node_prints_version) "current_version"
  = Some (VStr "v20.11.1").
Proof.
  apply (@version_is_stripped_stdout Sample.node_prints_version "nodejs"
           (nodejs_finding Sample.node_prints_version)
           {| returncode := 3; stdout := Sample.node_banner |});
    reflexivity.
Defined.

(* ================================================================== *)
(** * Further properties: the console report *)
(* ================================================================== *)

Lemma for_each_in {A B : Type} (f : A -> result B) (xs : list A)
  (ys : list B) :
  for_each f xs = Return ys ->
  forall y, In y ys -> exists x, In x xs /\ f x = Return y.
Proof.
  revert ys. induction xs as [|x xs IH]; intros ys Hys y Hy.
  - cbn in Hys. injection Hys as <-. destruct Hy.
  - cbn [for_each] in Hys.
    destruct (f x) as [y0|e] eqn:Hx; [|discriminate Hys]. cbn [bind] in Hys.
    destruct (for_each f xs) as [ys0|e]; [|discriminate Hys].
    cbn [bind] in Hys. injection Hys as <-.
    destruct Hy as [<-|Hy].
    + exists x. split; [now left | exact Hx].
    + destruct (IH ys0 eq_refl y Hy) as [x' [Hin Hx']].
      exists x'. split; [now right | exact Hx'].
Qed.

Lemma language_lines_indented (lang : string) (details : dict value)
  (lines : list string) :
  language_lines lang details = Return lines ->
  Forall (fun line => indented line = true) lines.
Proof.
  unfold language_lines.
  destruct (Dict.getitem details "files_count") as [n|e]; [|discriminate].
  cbn [bind].
  destruct (Dict.mem "current_version" details).
  - destruct (Dict.getitem details "current_version") as [v|e]; [|discriminate].
    cbn [bind]. intros H. injection H as <-.
    repeat (constructor; [reflexivity|]).
    apply Forall_forall. intros line Hin. apply in_map_iff in Hin.
    destruct Hin as [kv [<- _]]. reflexivity.
  - cbn [bind]. intros H. injection H as <-.
    repeat (constructor; [reflexivity|]).
    apply Forall_forall. intros line Hin. apply in_map_iff in Hin.
    destruct Hin as [kv [<- _]]. reflexivity.
Qed.

Lemma component_lines_indented (component : string) (details : dict value) :
  Forall (fun line => indented line = true)
    (component_lines component details).
Proof.
  unfold component_lines. constructor; [reflexivity|].
  apply Forall_forall. intros line Hin. apply in_map_iff in Hin.
  destruct Hin as [kv [<- _]]. reflexivity.
Qed.

Lemma category_lines_indented (category : string) (items : list string) :
  Forall (fun line => indented line = true) (category_lines category items).
Proof.
  unfold category_lines. constructor; [reflexivity|].
  apply Forall_forall. intros line Hin. apply in_map_iff in Hin.
  destruct Hin as [item [<- _]]. reflexivity.
Qed.

Lemma flat_map_indented {A : Type} (f : A -> list string) (l : list A) :
  (forall x, Forall (fun line => indented line = true) (f x)) ->
  Forall (fun line => indented line = true) (flat_map f l).
Proof.
  intros H. apply Forall_forall. intros line Hin.
  apply in_flat_map in Hin. destruct Hin as [x [_ Hline]].
  specialize (H x). rewrite Forall_forall in H. now apply H.
Qed.

(** The shape of every console report: three fixed lines, the indented
    language blocks, the two optional sections, the tools section. *)
Lemma console_report_shape (languages infra : dict (dict value))
  (suggestions : dict (list string)) (security_tools : dict bool)
  (report : list string) :
  console_report languages infra suggestions security_tools = Return report ->
  exists language_part infra_part suggestion_part,
    report
    = ["🔍 ENVIRONMENT DETECTION REPORT"; PyStr.repeat "=" 50;
       Render.newline ++ "📚 DETECTED LANGUAGES:"]
      +++ language_part
      +++ (if nonempty infra then infrastructure_header :: infra_part else [])
      +++ (if nonempty suggestions
           then suggestions_header :: suggestion_part else [])
      +++ security_tools_header
      :: map (fun kv => tool_line (fst kv) (snd kv)) security_tools
    /\ Forall (fun line => indented line = true) language_part
    /\ Forall (fun line => indented line = true) infra_part
    /\ Forall (fun line => indented line = true) suggestion_part.
Proof.
  unfold console_report.
  destruct (for_each _ languages) as [blocks|e] eqn:Hblocks; [|discriminate].
  cbn [bind]. intros H. injection H as <-.
  exists (concat blocks),
    (flat_map (fun kv => component_lines (fst kv) (snd kv)) infra),
    (flat_map (fun kv => category_lines (fst kv) (snd kv)) suggestions).
  split; [reflexivity|]. split; [|split].
  - apply Forall_forall. intros line Hin. apply in_concat in Hin.
    destruct Hin as [block [Hblock Hline]].
    destruct (for_each_in _ _ Hblocks block Hblock) as [[lang details] [_ Hl]].
    apply language_lines_indented in Hl. rewrite Forall_forall in Hl.
    now apply Hl.
  - apply flat_map_indented. intros kv. apply component_lines_indented.
  - apply flat_map_indented. intros kv. apply category_lines_indented.
Qed.

Lemma not_in_indented (header : string) (lines : list string) :
  indented header = false ->
  Forall (fun line => indented line = true) lines ->
  ~ In header lines.
Proof.
  intros Hh Hl Hin. rewrite Forall_forall in Hl.
  rewrite (Hl header Hin) in Hh. discriminate Hh.
Qed.

Lemma tool_lines_indented (security_tools : dict bool) :
  Forall (fun line => indented line = true)
    (map (fun kv => tool_line (fst kv) (snd kv)) security_tools).
Proof.
  apply Forall_forall. intros line Hin. apply in_map_iff in Hin.
  destruct Hin as [[tool available] [<- _]]. reflexivity.
Qed.

(** X15: the entries of the list that [generate_report] joins into the
    console report.  The infrastructure header entry (a line feed, then
    the header) is in the list exactly when an infrastructure category
    was found, and the suggestions header entry exactly when there is a
    suggestion; the first entry is the title and the security-tools
    header entry is always in the list.  This speaks of the entries as
    the code appends them, not of the lines of the printed text: a
    value with a line feed in it prints as several lines. *)
Theorem console_sections (w : world) :
  exists s report,
    suggest_environment_isolation w = Return s
    /\ console_report (detect_languages w) (detect_infrastructure w) s
         (check_security_tools w) = Return report
    /\ generate_report w "console" = Return (PyStr.join Render.newline report)
    /\ (In infrastructure_header report <-> detect_infrastructure w <> [])
    /\ (In suggestions_header report <-> s <> [])
    /\ In security_tools_header report
    /\ hd "" report = "🔍 ENVIRONMENT DETECTION REPORT".
Proof.
  destruct (suggest_environment_isolation_returns w) as [s [Hs _]].
  destruct (console_report_returns w (detect_infrastructure w) s
              (check_security_tools w)) as [report Hreport].
  exists s, report. split; [exact Hs|]. split; [exact Hreport|].
  split.
  { unfold generate_report. rewrite Hs. cbn [bind]. keys.
    now rewrite Hreport. }
  destruct (console_report_shape _ _ _ _ Hreport)
    as [lp [ip [sp [-> [Hlp [Hip Hsp]]]]]].
  pose proof (tool_lines_indented (check_security_tools w)) as Htools.
  assert (Hih : indented infrastructure_header = false) by reflexivity.
  assert (Hsh : indented suggestions_header = false) by reflexivity.
  pose proof (not_in_indented _ Hih Hlp) as Hi1.
  pose proof (not_in_indented _ Hih Hsp) as Hi2.
  pose proof (not_in_indented _ Hih Htools) as Hi3.
  pose proof (not_in_indented _ Hsh Hlp) as Hs1.
  pose proof (not_in_indented _ Hsh Hip) as Hs2.
  pose proof (not_in_indented _ Hsh Htools) as Hs3.
  split; [|split; [|split; [|reflexivity]]].
  - rewrite !in_app_iff. cbn [In]. split.
    + intros [[H|[H|[H|[]]]]|[H|[H|[H|H]]]]; try discriminate H;
        try contradiction.
      * destruct (detect_infrastructure w); [destruct H | discriminate].
      * destruct (nonempty s); [|destruct H].
        destruct H as [H|H]; [discriminate H | contradiction].
      * destruct H as [H|H]; [discriminate H | contradiction].
    + intros Hne. right. right. left.
      destruct (detect_infrastructure w); [now destruct Hne | now left].
  - rewrite !in_app_iff. cbn [In]. split.
    + intros [[H|[H|[H|[]]]]|[H|[H|[H|H]]]]; try discriminate H;
        try contradiction.
      * destruct (nonempty (detect_infrastructure w)); [|destruct H].
        destruct H as [H|H]; [discriminate H | contradiction].
      * destruct s; [destruct H | discriminate].
      * destruct H as [H|H]; [discriminate H | contradiction].
    + intros Hne. right. right. right. left.
      destruct s; [now destruct Hne | now left].
  - rewrite !in_app_iff. right. right. right. right. now left.
Qed.

(** X16: the console report always ends with the six security tools,
    in their fixed order, one line each: a check mark for an available
    tool, a cross for one that is not. *)
Theorem console_report_tail (w : world) :
  exists s report,
    suggest_environment_isolation w = Return s
    /\ console_report (detect_languages w) (detect_infrastructure w) s
         (check_security_tools w) = Return report
    /\ exists before,
         report
         = before
           +++ security_tools_header
           :: map (fun tool =>
                     "  "
                     ++ (if Dict.get_default (check_security_tools w) tool false
                         then "✅" else "❌")
                     ++ " " ++ tool)
                security_tool_names.
Proof.
  destruct (suggest_environment_isolation_returns w) as [s [Hs _]].
  destruct (console_report_returns w (detect_infrastructure w) s
              (check_security_tools w)) as [report Hreport].
  exists s, report. split; [exact Hs|]. split; [exact Hreport|].
  destruct (console_report_shape _ _ _ _ Hreport) as [lp [ip [sp [-> _]]]].
  eexists. rewrite !app_assoc. reflexivity.
Qed.



(* ================================================================== *)
(** * Further properties: the JavaScript framework *)
(* ================================================================== *)

(** X18: a framework is only ever detected from a [package.json] that
    exists at the root and loads as a JSON object whose [dependencies]
    and [devDependencies] sections, where present, are objects; it is
    then one of react, vue, angular, svelte, the first in that priority
    whose dependency is listed.  A missing, unreadable or malformed
    [package.json] gives no framework. *)
Theorem js_framework_sound (w : world) (framework : string) :
  _detect_js_framework w = Some framework ->
  Fs.exists_ w ["package.json"] = true
  /\ In framework ["react"; "vue"; "angular"; "svelte"]
  /\ exists data deps dev,
       load_json w ["package.json"] = Return (VDict data)
       /\ Dict.get_default data "dependencies" (VDict []) = VDict deps
       /\ Dict.get_default data "devDependencies" (VDict []) = VDict dev
       /\ first_framework (listed deps dev) framework_priority
          = Some framework.
Proof.
  unfold _detect_js_framework.
  change (Fs.joinpath [] "package.json") with ["package.json"].
  destruct (Fs.exists_ w ["package.json"]); [|discriminate].
  cbn [negb]. intros H. split; [reflexivity|].
  destruct (load_json w ["package.json"]) as [data|e]; [|discriminate H].
  cbn [bind] in H.
  destruct data as [ |b|n|x|s|items|data|parts]; try discriminate H.
  cbn [data_get bind] in H.
  destruct (Dict.get_default data "dependencies" (VDict []))
    as [ |b|n|x|s|items|deps|parts] eqn:Hdeps; try discriminate H.
  destruct (Dict.get_default data "devDependencies" (VDict []))
    as [ |b|n|x|s|items|dev|parts] eqn:Hdev; try discriminate H.
  cbn [unpack_merge bind try_except] in H.
  rewrite !mem_merge in H.
  assert (Hfirst : first_framework (listed deps dev) framework_priority
                   = Some framework) by exact H.
  split.
  - unfold framework_priority in Hfirst. cbn [first_framework] in Hfirst.
    repeat match type of Hfirst with
           | (if ?c then _ else _) = _ => destruct c
           end;
      try discriminate Hfirst; injection Hfirst as <-; cbn [In]; auto.
  - exists data, deps, dev. auto.
Qed.

Lemma js_framework_sound_witness :
  Fs.exists_ Sample.react_project ["package.json"] = true
  /\ In "react" ["react"; "vue"; "angular"; "svelte"]
  /\ exists data deps dev,
       load_json Sample.react_project ["package.json"] = Return (VDict data)
       /\ Dict.get_default data "dependencies" (VDict []) = VDict deps
       /\ Dict.get_default data "devDependencies" (VDict []) = VDict dev
       /\ first_framework (listed deps dev) framework_priority = Some "react".
Proof.
  apply (@js_framework_sound Sample.react_project "react"). reflexivity.
Defined.

(* ================================================================== *)
(** * Further properties: the test fixture *)
(* ================================================================== *)

Section ProcessLaws.
Context {A : Type} {item_ops : App.Item A}.

(** What the loop has built so far stays in front of what it adds. *)
Lemma process_loop_results (items results : list A) :
  App.process_loop results items
  = (added <- App.process_loop [] items ;; Return (results +++ added)).
Proof.
  revert results. induction items as [|item rest IH]; intros results.
  - cbn [App.process_loop bind]. now rewrite app_nil_r.
  - cbn [App.process_loop].
    destruct (App.greater_than_zero item) as [[|]|e]; cbn [bind];
      [|apply IH|reflexivity].
    destruct (App.times_two item) as [doubled|e]; cbn [bind];
      [|reflexivity].
    rewrite (IH (results +++ [doubled])), (IH ([] +++ [doubled])).
    destruct (App.process_loop [] rest) as [added|e]; cbn [bind];
      [|reflexivity].
    now rewrite <- app_assoc.
Qed.

Lemma process_cons (item : A) (rest : list A) :
  App.process (item :: rest)
  = (test <- App.greater_than_zero item ;;
     if (test : bool) then
       doubled <- App.times_two item ;;
       results <- App.process rest ;;
       Return (doubled :: results)
     else App.process rest).
Proof.
  unfold App.process. cbn [App.process_loop].
  destruct (App.greater_than_zero item) as [[|]|e]; cbn [bind];
    try reflexivity.
  destruct (App.times_two item) as [doubled|e]; cbn [bind]; [|reflexivity].
  now rewrite process_loop_results.
Qed.

Lemma process_app (items more : list A) :
  App.process (items +++ more)
  = (first <- App.process items ;;
     second <- App.process more ;;
     Return (first +++ second)).
Proof.
  induction items as [|item rest IH].
  - cbn [List.app]. change (App.process []) with (Return (@nil A)).
    cbn [bind]. now destruct (App.process more).
  - change ((item :: rest) +++ more) with (item :: rest +++ more).
    rewrite !process_cons.
    destruct (App.greater_than_zero item) as [[|]|e]; cbn [bind];
      [|exact IH|reflexivity].
    destruct (App.times_two item) as [doubled|e]; cbn [bind];
      [|reflexivity].
    rewrite IH.
    destruct (App.process rest) as [first|e]; cbn [bind]; [|reflexivity].
    now destruct (App.process more).
Qed.

Lemma process_length (items results : list A) :
  App.process items = Return results -> length results <= length items.
Proof.
  revert results. induction items as [|item rest IH]; intros results.
  - intros H. injection H as <-. reflexivity.
  - rewrite process_cons.
    destruct (App.greater_than_zero item) as [[|]|e]; cbn [bind];
      [| |discriminate].
    + destruct (App.times_two item) as [doubled|e]; cbn [bind];
        [|discriminate].
      destruct (App.process rest) as [others|e]; cbn [bind];
        [|discriminate].
      intros H. injection H as <-. specialize (IH others eq_refl).
      cbn [length]. lia.
    + intros H. specialize (IH results H). cbn [length]. lia.
Qed.

End ProcessLaws.

Lemma process_numbers (items : list App.object) :
  forallb App.is_number items = true ->
  App.process items = Return (map App.double (filter App.positive items)).
Proof.
  induction items as [|item rest IH]; [reflexivity|].
  cbn [forallb]. intros H. apply andb_prop in H. destruct H as [Hitem Hrest].
  rewrite process_cons, (IH Hrest).
  destruct item as [n|[|]|x|s|]; try discriminate Hitem;
    cbn [App.greater_than_zero App.times_two App.object_item
         App.object_greater_than_zero App.object_times_two bind
         filter App.positive].
  - rewrite Z.gtb_ltb. destruct (0 <? n)%Z; cbn [bind map App.double];
      [|reflexivity].
    now rewrite Z.mul_comm.
  - reflexivity.
  - reflexivity.
  - now destruct (0 <? x)%float.
Qed.

Lemma process_not_a_number (before after : list App.object)
  (item : App.object) :
  forallb App.is_number before = true ->
  App.is_number item = false ->
  App.process (before +++ item :: after)
  = Raise (TypeError ("'>' not supported between instances of '"
                        ++ App.type_name item ++ "' and 'int'")).
Proof.
  intros Hbefore Hitem.
  rewrite process_app, (@process_numbers before Hbefore). cbn [bind].
  rewrite process_cons.
  destruct item as [n|b|x|s|]; try discriminate Hitem; reflexivity.
Qed.

Lemma first_not_a_number (items : list App.object) :
  forallb App.is_number items = false ->
  exists before item after,
    items = before +++ item :: after
    /\ forallb App.is_number before = true
    /\ App.is_number item = false.
Proof.
  induction items as [|item rest IH]; [discriminate|].
  cbn [forallb]. destruct (App.is_number item) eqn:Hitem; cbn [andb].
  - intros H. destruct (IH H) as [before [x [after [-> [Hb Hx]]]]].
    exists (item :: before), x, after. split; [reflexivity|].
    split; [|exact Hx]. cbn [forallb]. now rewrite Hitem, Hb.
  - intros _. exists [], item, rest. now repeat split.
Qed.

(** X19: [DataProcessor.process] on lists of ints, bools, floats, strs
    and [None].  It returns exactly when every item is a number, and
    then the results are the doubles of the items greater than zero,
    in their order, so never more results than items.  At the first
    item that is a [str] or [None] it raises the [TypeError] of the
    comparison.  On ints every result is positive and even.  A float
    is doubled in IEEE arithmetic: 0.1 gives 0.2, 2**1023 overflows to
    [inf], and [nan], like a negative float, is not greater than zero.
    Processing a concatenation is processing both parts in turn. *)
Theorem process_results (items more : list App.object) :
  ((exists results, App.process items = Return results) <->
   forallb App.is_number items = true)
  /\ (forall results,
         App.process items = Return results ->
         results = map App.double (filter App.positive items)
         /\ length results <= length items)
  /\ (forall before item after,
         items = before +++ item :: after ->
         forallb App.is_number before = true ->
         App.is_number item = false ->
         App.process items
         = Raise (TypeError ("'>' not supported between instances of '"
                               ++ App.type_name item ++ "' and 'int'")))
  /\ (forall numbers : list Z,
         App.process (map App.Int numbers)
         = Return (map (fun n => App.Int (2 * n))
                     (filter (fun n => (0 <? n)%Z) numbers))
         /\ Forall (fun n => (0 < 2 * n)%Z /\ Z.even (2 * n) = true)
              (filter (fun n => (0 <? n)%Z) numbers))
  /\ App.process
       [App.Float 0x1.999999999999ap-4; App.Float 0x1p1023;
        App.Float nan; App.Float (-1); App.Bool true; App.Bool false;
        App.Int 3; App.Int 0; App.Int (-4)]
     = Return [App.Float 0x1.999999999999ap-3; App.Float infinity;
               App.Int 2; App.Int 6]
  /\ App.process (items +++ more)
     = (first <- App.process items ;;
        second <- App.process more ;;
        Return (first +++ second)).
Proof.
  split; [|split; [|split; [|split; [|split]]]].
  - split.
    + intros [results Hresults].
      destruct (forallb App.is_number items) eqn:Hall; [reflexivity|].
      destruct (first_not_a_number items Hall)
        as [before [item [after [-> [Hbefore Hitem]]]]].
      rewrite (@process_not_a_number before after item Hbefore Hitem)
        in Hresults.
      discriminate Hresults.
    + intros Hall. eexists. now apply process_numbers.
  - intros results Hresults.
    assert (Hall : forallb App.is_number items = true).
    { destruct (forallb App.is_number items) eqn:Hall; [reflexivity|].
      destruct (first_not_a_number items Hall)
        as [before [item [after [-> [Hbefore Hitem]]]]].
      rewrite (@process_not_a_number before after item Hbefore Hitem)
        in Hresults.
      discriminate Hresults. }
    split; [|now apply process_length].
    rewrite (@process_numbers items Hall) in Hresults.
    now injection Hresults.
  - intros before item after -> Hbefore Hitem.
    now apply process_not_a_number.
  - intros numbers. split.
    + rewrite process_numbers.
      * f_equal. induction numbers as [|n numbers IH]; [reflexivity|].
        cbn [map filter App.positive].
        destruct (0 <? n)%Z; cbn [map App.double]; now rewrite IH.
      * induction numbers as [|n numbers IH]; [reflexivity | exact IH].
    + apply Forall_forall. intros n Hn. apply filter_In in Hn.
      destruct Hn as [_ Hn]. apply Z.ltb_lt in Hn. split; [lia|].
      now rewrite Z.even_mul.
  - reflexivity.
  - apply process_app.
Qed.

(** X23: whatever the items are, as long as the test [item > 0] and the
    product [item*2] are given: an empty list gives an empty list; one
    item is tested, then doubled when the test holds, and an exception
    of either ends the call; a list is processed front to back, the
    results of the first part before those of the second, and an
    exception in the first part leaves the second untouched; there are
    never more results than items. *)
Theorem process_any_items (A : Type) (item_ops : App.Item A)
  (item : A) (items more : list A) :
  App.process (@nil A) = Return []
  /\ App.process [item]
     = (test <- App.greater_than_zero item ;;
        if (test : bool) then
          doubled <- App.times_two item ;; Return [doubled]
        else Return [])
  /\ App.process (items +++ more)
     = (first <- App.process items ;;
        second <- App.process more ;;
        Return (first +++ second))
  /\ (forall e, App.process items = Raise e ->
                App.process (items +++ more) = Raise e)
  /\ (forall results,
         App.process items = Return results ->
         length results <= length items).
Proof.
  split; [reflexivity|]. split; [|split; [|split]].
  - rewrite process_cons.
    destruct (App.greater_than_zero item) as [[|]|e]; cbn [bind];
      try reflexivity; now destruct (App.times_two item).
  - apply process_app.
  - intros e He. now rewrite process_app, He.
  - intros results. apply process_length.
Qed.

(* ================================================================== *)
(** * Further properties: detection and the project tree *)
(* ================================================================== *)

(** X20: in terms of the project tree, python has an entry exactly
    when some entry below the root, at any depth, is named [*.py];
    nodejs, go and rust have one exactly when such a source entry
    exists ([*.ts] or [*.js], [*.go], [*.rs]) or their manifest
    ([package.json], [go.mod], [Cargo.toml]) exists at the root.  The
    file count of a finding is the number of such entries, directories
    with a matching name included. *)
Theorem detection_from_tree (w : world) :
  (Dict.mem "python" (detect_languages w) = true <-> source_exists w ".py")
  /\ (Dict.mem "nodejs" (detect_languages w) = true <->
      Fs.exists_ w ["package.json"] = true
      \/ source_exists w ".ts" \/ source_exists w ".js")
  /\ (Dict.mem "go" (detect_languages w) = true <->
      source_exists w ".go" \/ Fs.exists_ w ["go.mod"] = true)
  /\ (Dict.mem "rust" (detect_languages w) = true <->
      Fs.exists_ w ["Cargo.toml"] = true \/ source_exists w ".rs")
  /\ Forall (fun lang_ext =>
               forall d,
                 Dict.get (detect_languages w) (fst lang_ext) = Some d ->
                 Dict.get d "files_count"
                 = Some (VInt (Z.of_nat
                     (length
                        (filter (fun p =>
                                   PyStr.fnmatch (String "*" (snd lang_ext))
                                     (Fs.name p))
                           (Fs.walk w))))))
       [("python", ".py"); ("go", ".go"); ("rust", ".rs")].
Proof.
  destruct (language_detected_by w) as [Hpy [Hnode [Hgo Hrust]]].
  split; [exact Hpy|]. split; [exact Hnode|]. split; [exact Hgo|].
  split; [exact Hrust|].
  repeat (constructor;
          [cbn [fst snd]; intros d Hd; rewrite detect_languages_get in Hd;
           keys_in Hd;
           match type of Hd with
           | (if ?c then _ else _) = _ => destruct c; [|discriminate Hd]
           end;
           injection Hd as <-; rewrite <- rglob_filter_walk; reflexivity|]).
  constructor.
Qed.

(* ================================================================== *)
(** * Further properties: a missing version in the console report *)
(* ================================================================== *)

Lemma get_in {V : Type} (d : dict V) (k : string) (v : V) :
  Dict.get d k = Some v -> In (k, v) d.
Proof.
  induction d as [|[k0 v0] d IH]; cbn [Dict.get]; [discriminate|].
  destruct (String.eqb_spec k0 k) as [->|_].
  - intros H. injection H as <-. now left.
  - intros H. right. now apply IH.
Qed.

Lemma for_each_split {A B : Type} (f : A -> result B) (xs : list A)
  (ys : list B) :
  for_each f xs = Return ys ->
  forall x, In x xs ->
            exists ys1 y ys2, ys = ys1 +++ y :: ys2 /\ f x = Return y.
Proof.
  revert ys. induction xs as [|x0 xs IH]; intros ys Hys x Hx; [destruct Hx|].
  cbn [for_each] in Hys.
  destruct (f x0) as [y0|e] eqn:Hx0; [|discriminate Hys]. cbn [bind] in Hys.
  destruct (for_each f xs) as [ys0|e]; [|discriminate Hys].
  cbn [bind] in Hys. injection Hys as <-.
  destruct Hx as [<-|Hx].
  - exists [], y0, ys0. split; [reflexivity | exact Hx0].
  - destruct (IH ys0 eq_refl x Hx) as [ys1 [y [ys2 [-> Hy]]]].
    exists (y0 :: ys1), y, ys2. split; [reflexivity | exact Hy].
Qed.

(** A block opens with the language's header, the files line and, when
    the finding has a version field, the version line. *)
Lemma language_lines_head (lang : string) (details : dict value)
  (version : value) (lines : list string) :
  Dict.get details "current_version" = Some version ->
  language_lines lang details = Return lines ->
  exists count rest,
    Dict.get details "files_count" = Some count
    /\ lines
       = ["  " ++ PyStr.upper lang ++ ":";
          "    Files: " ++ Render.str count;
          "    Version: " ++ Render.str version] +++ rest.
Proof.
  intros Hversion. unfold language_lines, Dict.mem, Dict.getitem.
  rewrite Hversion.
  destruct (Dict.get details "files_count") as [count|]; [|discriminate].
  cbn [bind]. intros H. injection H as <-.
  eexists count, _. split; reflexivity.
Qed.

Lemma append_assoc (a b c : string) : (a ++ b) ++ c = a ++ b ++ c.
Proof. induction a as [|x a IH]; cbn; [reflexivity | now rewrite IH]. Qed.

(** Joining two non-empty lists of lines puts one separator between
    them. *)
Lemma join_app (sep : string) (before after : list string) :
  before <> [] -> after <> [] ->
  PyStr.join sep (before +++ after)
  = PyStr.join sep before ++ sep ++ PyStr.join sep after.
Proof.
  intros Hb Ha. induction before as [|x before IH]; [contradiction|].
  destruct before as [|y before].
  - destruct after as [|z after]; [contradiction | reflexivity].
  - change (PyStr.join sep ((x :: y :: before) +++ after))
      with (x ++ sep ++ PyStr.join sep ((y :: before) +++ after)).
    rewrite IH by discriminate.
    change (PyStr.join sep (x :: y :: before))
      with (x ++ sep ++ PyStr.join sep (y :: before)).
    now rewrite !append_assoc.
Qed.

(** Every console report is its three opening lines, the language
    blocks, and a tail that is never empty. *)
Lemma console_report_blocks (languages infra : dict (dict value))
  (suggestions : dict (list string)) (security_tools : dict bool)
  (report : list string) :
  console_report languages infra suggestions security_tools = Return report ->
  exists blocks tail,
    for_each (fun kv => language_lines (fst kv) (snd kv)) languages
    = Return blocks
    /\ report
       = ["🔍 ENVIRONMENT DETECTION REPORT"; PyStr.repeat "=" 50;
          Render.newline ++ "📚 DETECTED LANGUAGES:"]
         +++ concat blocks +++ tail
    /\ tail <> [].
Proof.
  unfold console_report.
  destruct (for_each _ languages) as [blocks|e]; [|discriminate].
  cbn [bind]. intros H. injection H as <-.
  eexists blocks, _. split; [reflexivity|]. split; [reflexivity|].
  intros H. apply (f_equal (@length string)) in H.
  rewrite !length_app in H. cbn [length] in H. lia.
Qed.

(** X21: when the version command of a detected language cannot be
    launched, the console report is still produced, and in it the
    language's block reads: the header of the language, the files line
    with the finding's count, then the line "Version: None".  The three
    are consecutive entries of the report, with entries before and
    after them, so in the printed text they are three whole consecutive
    lines. *)
Theorem missing_version_prints_none (w : world) (lang : string)
  (d : dict value) :
  Dict.get (detect_languages w) lang = Some d ->
  launch_fails w None (version_command w lang) ->
  exists s report before after count,
    suggest_environment_isolation w = Return s
    /\ console_report (detect_languages w) (detect_infrastructure w) s
         (check_security_tools w) = Return report
    /\ generate_report w "console" = Return (PyStr.join Render.newline report)
    /\ Dict.get d "files_count" = Some count
    /\ report
       = before
         +++ ["  " ++ PyStr.upper lang ++ ":";
              "    Files: " ++ Render.str count;
              "    Version: None"]
         +++ after
    /\ before <> [] /\ after <> []
    /\ PyStr.join Render.newline report
       = PyStr.join Render.newline before
         ++ Render.newline ++ "  " ++ PyStr.upper lang ++ ":"
         ++ Render.newline ++ "    Files: " ++ Render.str count
         ++ Render.newline ++ "    Version: None"
         ++ Render.newline ++ PyStr.join Render.newline after.
Proof.
  intros Hd Hfail.
  destruct (suggest_environment_isolation_returns w) as [s [Hs _]].
  destruct (console_report_returns w (detect_infrastructure w) s
              (check_security_tools w)) as [report Hreport].
  assert (Hversion : Dict.get d "current_version" = Some VNone).
  { rewrite (current_version_field w lang Hd).
    now rewrite (stripped_stdout_launch_fails Hfail). }
  destruct (console_report_blocks _ _ _ _ Hreport)
    as [blocks [tail [Hblocks [Hshape Htail]]]].
  destruct (for_each_split _ _ Hblocks (lang, d) (get_in _ _ Hd))
    as [blocks1 [block [blocks2 [-> Hblock]]]].
  cbn [fst snd] in Hblock.
  destruct (language_lines_head lang d Hversion Hblock)
    as [count [rest [Hcount ->]]].
  exists s, report,
    (["🔍 ENVIRONMENT DETECTION REPORT"; PyStr.repeat "=" 50;
      Render.newline ++ "📚 DETECTED LANGUAGES:"] +++ concat blocks1),
    (rest +++ concat blocks2 +++ tail), count.
  assert (Hsplit :
            report
            = (["🔍 ENVIRONMENT DETECTION REPORT"; PyStr.repeat "=" 50;
                Render.newline ++ "📚 DETECTED LANGUAGES:"]
               +++ concat blocks1)
              +++ ["  " ++ PyStr.upper lang ++ ":";
                   "    Files: " ++ Render.str count;
                   "    Version: None"]
              +++ rest +++ concat blocks2 +++ tail).
  { rewrite Hshape, concat_app. cbn [concat].
    now rewrite <- !app_assoc. }
  assert (Hafter : rest +++ concat blocks2 +++ tail <> []).
  { intros H. apply app_eq_nil in H. destruct H as [_ H].
    apply app_eq_nil in H. now destruct H. }
  split; [exact Hs|]. split; [exact Hreport|]. split.
  { unfold generate_report. rewrite Hs. cbn [bind]. keys.
    now rewrite Hreport. }
  split; [exact Hcount|]. split; [exact Hsplit|].
  split; [discriminate|]. split; [exact Hafter|].
  rewrite Hsplit at 1.
  rewrite join_app; [|discriminate|discriminate].
  rewrite (@join_app Render.newline
             ["  " ++ PyStr.upper lang ++ ":";
              "    Files: " ++ Render.str count; "    Version: None"]
             (rest +++ concat blocks2 +++ tail));
    [|discriminate|exact Hafter].
  cbn [PyStr.join]. now rewrite !append_assoc.
Qed.

Lemma missing_version_prints_none_witness :
  exists s report before after count,
    suggest_environment_isolation Sample.js_only = Return s
    /\ console_report (detect_languages Sample.js_only)
         (detect_infrastructure Sample.js_only) s
         (check_security_tools Sample.js_only) = Return report
    /\ generate_report Sample.js_only "console"
       = Return (PyStr.join Render.newline report)
    /\ Dict.get (nodejs_finding Sample.js_only) "files_count" = Some count
    /\ report
       = before
         +++ ["  " ++ PyStr.upper "nodejs" ++ ":";
              "    Files: " ++ Render.str count;
              "    Version: None"]
         +++ after
    /\ before <> [] /\ after <> []
    /\ PyStr.join Render.newline report
       = PyStr.join Render.newline before
         ++ Render.newline ++ "  " ++ PyStr.upper "nodejs" ++ ":"
         ++ Render.newline ++ "    Files: " ++ Render.str count
         ++ Render.newline ++ "    Version: None"
         ++ Render.newline ++ PyStr.join Render.newline after.
Proof.
  apply (@missing_version_prints_none Sample.js_only "nodejs"
           (nodejs_finding Sample.js_only)).
  - reflexivity.
  - exists (OSError "No such file or directory"). reflexivity.
Defined.

(* ================================================================== *)
(** * Further properties: the lines of the printed report *)
(* ================================================================== *)

Lemma split_not_nil (sep : ascii) (s : string) : PyStr.split sep s <> [].
Proof.
  destruct s as [|c s]; cbn [PyStr.split]; [discriminate|].
  destruct (Ascii.eqb c sep); [discriminate|].
  destruct (PyStr.split sep s); discriminate.
Qed.

(** A string without line feed is one line. *)
Lemma printed_lines_single (s : string) :
  single_line s = true -> printed_lines s = [s].
Proof.
  unfold printed_lines. induction s as [|c s IH]; [reflexivity|].
  cbn [single_line PyStr.split]. intros H. apply andb_prop in H.
  destruct H as [Hc Hs]. apply negb_true_iff in Hc. rewrite Hc.
  now rewrite (IH Hs).
Qed.

(** A line feed ends a line and starts the next one. *)
Lemma printed_lines_feed (a b : string) :
  printed_lines (a ++ String line_feed b)
  = printed_lines a +++ printed_lines b.
Proof.
  unfold printed_lines. induction a as [|c a IH].
  - cbn [append PyStr.split]. now rewrite Ascii.eqb_refl.
  - cbn [append PyStr.split]. destruct (Ascii.eqb c line_feed).
    + now rewrite IH.
    + rewrite IH.
      destruct (PyStr.split line_feed a) as [|l ls] eqn:Ha; [|reflexivity].
      now apply split_not_nil in Ha.
Qed.

(** The lines of a joined report are the lines of its entries. *)
Lemma printed_lines_join (report : list string) :
  report <> [] ->
  printed_lines (PyStr.join Render.newline report)
  = flat_map printed_lines report.
Proof.
  induction report as [|entry report IH]; [contradiction|]. intros _.
  destruct report as [|next report].
  - cbn [PyStr.join flat_map]. now rewrite app_nil_r.
  - change (PyStr.join Render.newline (entry :: next :: report))
      with (entry ++ String line_feed
                       (PyStr.join Render.newline (next :: report))).
    rewrite printed_lines_feed, IH by discriminate. reflexivity.
Qed.

Lemma printed_lines_entries (entries : list string) :
  forallb single_line entries = true ->
  flat_map printed_lines entries = entries.
Proof.
  induction entries as [|entry entries IH]; [reflexivity|].
  cbn [forallb flat_map]. intros H. apply andb_prop in H.
  destruct H as [Hentry Hentries].
  now rewrite (printed_lines_single _ Hentry), (IH Hentries).
Qed.

Lemma single_line_app (a b : string) :
  single_line (a ++ b) = single_line a && single_line b.
Proof.
  induction a as [|c a IH]; [reflexivity|].
  cbn [append single_line]. now rewrite IH, andb_assoc.
Qed.

(** The names of the findings and of their fields are fixed words, so
    their display holds no line feed. *)
Lemma language_names_single (w : world) (lang : string)
  (details : dict value) :
  In (lang, details) (detect_languages w) ->
  single_line (PyStr.upper lang) = true
  /\ forallb (fun key =>
                single_line (PyStr.title (PyStr.replace_char "_" " " key)))
       (map fst details) = true.
Proof.
  intros Hin. apply detect_languages_items in Hin.
  destruct Hin as [[-> ->]|[[-> ->]|[[-> ->]|[-> ->]]]];
    split; reflexivity.
Qed.

Lemma infrastructure_names_single (w : world) (component : string)
  (details : dict value) :
  In (component, details) (detect_infrastructure w) ->
  single_line (PyStr.upper component) = true
  /\ forallb (fun key =>
                single_line (PyStr.title (PyStr.replace_char "_" " " key)))
       (map fst details) = true.
Proof.
  rewrite detect_infrastructure_blocks.
  destruct (nonempty (docker_files w)), (Fs.exists_ w [".git"]),
    (nonempty (ci_files w));
    cbn [List.app In]; intros H;
    repeat match goal with
      | H : _ \/ _ |- _ => destruct H as [H|H]
      | H : (_, _) = (_, _) |- _ => injection H as <- <-
      | H : False |- _ => destruct H
      end;
    split; reflexivity.
Qed.

(** A field is printed on one line when its name and its value are. *)
Lemma field_lines_single (details shown : dict value) :
  incl shown details ->
  forallb (fun key =>
             single_line (PyStr.title (PyStr.replace_char "_" " " key)))
    (map fst details) = true ->
  forallb (fun field : string * value => single_line (Render.str (snd field)))
    details = true ->
  forallb single_line
    (map (fun kv : string * value =>
            "    " ++ PyStr.title (PyStr.replace_char "_" " " (fst kv))
                   ++ ": " ++ Render.str (snd kv))
       shown) = true.
Proof.
  intros Hincl Hkeys Hvalues. rewrite forallb_forall in *.
  intros line Hline. apply in_map_iff in Hline.
  destruct Hline as [[key v] [<- Hin]]. apply Hincl in Hin.
  pose proof (Hvalues (key, v) Hin) as Hvalue.
  assert (Hkey : In key (map fst details)).
  { apply in_map_iff. now exists (key, v). }
  apply Hkeys in Hkey. cbn [fst snd] in *.
  rewrite !single_line_app. now rewrite Hkey, Hvalue.
Qed.

Lemma language_lines_single (lang : string) (details : dict value)
  (lines : list string) :
  single_line (PyStr.upper lang) = true ->
  forallb (fun key =>
             single_line (PyStr.title (PyStr.replace_char "_" " " key)))
    (map fst details) = true ->
  forallb (fun field : string * value => single_line (Render.str (snd field)))
    details = true ->
  language_lines lang details = Return lines ->
  forallb single_line lines = true.
Proof.
  intros Hlang Hkeys Hvalues.
  assert (Hvalue : forall key v label,
             Dict.get details key = Some v ->
             single_line (label ++ Render.str v) = single_line label).
  { intros key v label Hget. apply get_in in Hget.
    rewrite forallb_forall in Hvalues.
    pose proof (Hvalues (key, v) Hget) as Hv. cbn [snd] in Hv.
    now rewrite single_line_app, Hv, andb_true_r. }
  assert (Hheader : single_line ("  " ++ PyStr.upper lang ++ ":") = true).
  { now rewrite !single_line_app, Hlang. }
  assert (Hfields :
            forallb single_line
              (map (fun kv : string * value =>
                      "    " ++ PyStr.title
                                  (PyStr.replace_char "_" " " (fst kv))
                             ++ ": " ++ Render.str (snd kv))
                 (filter (fun kv : string * value =>
                            negb (existsb (String.eqb (fst kv))
                                    ["files_count"; "current_version"]))
                    details)) = true).
  { apply (@field_lines_single details); [|exact Hkeys|exact Hvalues].
    intros kv Hkv. now apply filter_In in Hkv. }
  rewrite forallb_forall in Hfields.
  unfold language_lines, Dict.getitem, Dict.mem.
  destruct (Dict.get details "files_count") as [count|] eqn:Hcount;
    [|discriminate].
  pose proof (Hvalue _ _ "    Files: " Hcount) as Hfiles.
  destruct (Dict.get details "current_version") as [version|] eqn:Hversion;
    intros H; injection H as <-; apply forallb_forall;
    intros line [<-|[<-|Hline]]; try exact Hheader; try exact Hfiles.
  - destruct Hline as [<-|Hline]; [|exact (Hfields _ Hline)].
    exact (Hvalue _ _ "    Version: " Hversion).
  - exact (Hfields _ Hline).
Qed.

Lemma component_lines_single (component : string) (details : dict value) :
  single_line (PyStr.upper component) = true ->
  forallb (fun key =>
             single_line (PyStr.title (PyStr.replace_char "_" " " key)))
    (map fst details) = true ->
  forallb (fun field : string * value => single_line (Render.str (snd field)))
    details = true ->
  forallb single_line (component_lines component details) = true.
Proof.
  intros Hcomponent Hkeys Hvalues. unfold component_lines.
  cbn [forallb]. rewrite !single_line_app, Hcomponent.
  rewrite (@field_lines_single details details);
    [reflexivity|apply incl_refl|exact Hkeys|exact Hvalues].
Qed.

Lemma forallb_flat_map {A B : Type} (p : B -> bool) (f : A -> list B)
  (l : list A) :
  (forall x, In x l -> forallb p (f x) = true) ->
  forallb p (flat_map f l) = true.
Proof.
  intros H. apply forallb_forall. intros y Hy. apply in_flat_map in Hy.
  destruct Hy as [x [Hx Hy]]. specialize (H x Hx).
  rewrite forallb_forall in H. now apply H.
Qed.

Lemma language_blocks_single (w : world) (blocks : list (list string)) :
  single_line_values (detect_languages w) = true ->
  for_each (fun kv => language_lines (fst kv) (snd kv)) (detect_languages w)
  = Return blocks ->
  forallb single_line (concat blocks) = true.
Proof.
  intros Hvalues Hblocks. apply forallb_forall. intros line Hline.
  apply in_concat in Hline. destruct Hline as [block [Hblock Hline]].
  destruct (for_each_in _ _ Hblocks block Hblock)
    as [[lang details] [Hin Hlines]].
  destruct (language_names_single w lang details Hin) as [Hlang Hkeys].
  unfold single_line_values in Hvalues. rewrite forallb_forall in Hvalues.
  specialize (Hvalues _ Hin). cbn [fst snd] in Hvalues, Hlines.
  pose proof (language_lines_single lang details Hlang Hkeys Hvalues Hlines)
    as Hsingle.
  rewrite forallb_forall in Hsingle. now apply Hsingle.
Qed.

Lemma infrastructure_lines_single (w : world) :
  single_line_values (detect_infrastructure w) = true ->
  forallb single_line
    (flat_map (fun kv => component_lines (fst kv) (snd kv))
       (detect_infrastructure w)) = true.
Proof.
  intros Hvalues. apply forallb_flat_map. intros [component details] Hin.
  destruct (infrastructure_names_single w component details Hin)
    as [Hcomponent Hkeys].
  unfold single_line_values in Hvalues. rewrite forallb_forall in Hvalues.
  specialize (Hvalues _ Hin). cbn [fst snd] in *.
  now apply component_lines_single.
Qed.

(** The suggestions are fixed sentences. *)
Lemma lang_suggestions_single (lang : string) (details : dict value)
  (items : list string) :
  lang_suggestions lang details = Return items ->
  forallb single_line items = true.
Proof.
  unfold lang_suggestions.
  destruct (String.eqb lang "python").
  { destruct (Dict.getitem details "virtual_env") as [virtual_env|e];
      [|discriminate].
    cbn [bind]. intros H. injection H as <-.
    destruct (negb (truthy virtual_env)),
      (negb (truthy (Dict.get_default details "requirements" VNone)));
      reflexivity. }
  destruct (String.eqb lang "nodejs").
  { destruct (negb (truthy (Dict.get_default details "package_json" VNone)));
      destruct (Dict.get_default details "framework" VNone)
        as [ |b|n|x|f|l|d|p];
      try destruct (existsb (String.eqb f) ["react"; "vue"; "angular"]);
      intros H; injection H as <-; reflexivity. }
  destruct (String.eqb lang "go").
  { intros H. injection H as <-.
    destruct (negb (truthy (Dict.get_default details "go_mod" VNone)));
      reflexivity. }
  destruct (String.eqb lang "rust").
  { intros H. injection H as <-.
    destruct (negb (truthy (Dict.get_default details "cargo_toml" VNone)));
      reflexivity. }
  intros H. now injection H as <-.
Qed.

Lemma set_single (suggestions : dict (list string)) (category : string)
  (items : list string) :
  single_line_suggestions suggestions = true ->
  single_line (PyStr.upper category) = true ->
  forallb single_line items = true ->
  single_line_suggestions (Dict.set suggestions category items) = true.
Proof.
  intros Hs Hcategory Hitems. unfold single_line_suggestions in *.
  induction suggestions as [|[k v] suggestions IH].
  - cbn [Dict.set forallb fst snd]. now rewrite Hcategory, Hitems.
  - cbn [forallb fst snd] in Hs. apply andb_prop in Hs.
    destruct Hs as [Hkv Hrest].
    cbn [Dict.set]. destruct (String.eqb k category); cbn [forallb fst snd].
    + now rewrite Hcategory, Hitems, Hrest.
    + now rewrite Hkv, (IH Hrest).
Qed.

Lemma suggest_for_languages_single (items : list (string * dict value)) :
  (forall lang details,
      In (lang, details) items -> single_line (PyStr.upper lang) = true) ->
  forall suggestions s,
    single_line_suggestions suggestions = true ->
    suggest_for_languages items suggestions = Return s ->
    single_line_suggestions s = true.
Proof.
  induction items as [|[lang details] items IH];
    intros Hlangs suggestions s Hsuggestions.
  - intros H. now injection H as <-.
  - cbn [suggest_for_languages].
    destruct (lang_suggestions lang details) as [l|e] eqn:Hl; [|discriminate].
    cbn [bind]. apply IH.
    + intros lang' details' Hin. apply (Hlangs lang' details'). now right.
    + destruct (nonempty l); [|exact Hsuggestions].
      apply set_single; [exact Hsuggestions| |].
      * apply (Hlangs lang details). now left.
      * exact (lang_suggestions_single _ _ Hl).
Qed.

Lemma suggestions_single (w : world) (s : dict (list string)) :
  suggest_environment_isolation w = Return s ->
  single_line_suggestions s = true.
Proof.
  unfold suggest_environment_isolation.
  destruct (suggest_for_languages (detect_languages w) []) as [s0|e] eqn:Hs0;
    [|discriminate].
  cbn [bind].
  assert (Hsingle : single_line_suggestions s0 = true).
  { apply (@suggest_for_languages_single (detect_languages w)) with (2 := eq_refl)
      (3 := Hs0).
    intros lang details Hin.
    now destruct (language_names_single w lang details Hin). }
  destruct (negb (Dict.mem "docker" (detect_infrastructure w))
            && (1 <? length (detect_languages w))).
  - unfold Dict.getitem. rewrite get_set.
    cbn [String.eqb Ascii.eqb Bool.eqb bind]. intros H. injection H as <-.
    assert (Hgeneral :
              forallb single_line (Dict.get_default s0 "general" []) = true).
    { unfold Dict.get_default.
      destruct (Dict.get s0 "general") as [general|] eqn:Hg; [|reflexivity].
      apply get_in in Hg. unfold single_line_suggestions in Hsingle.
      rewrite forallb_forall in Hsingle. specialize (Hsingle _ Hg).
      cbn [fst snd] in Hsingle. now apply andb_prop in Hsingle. }
    apply set_single; [apply set_single| |]; try reflexivity;
      try assumption.
    rewrite forallb_app, Hgeneral. reflexivity.
  - intros H. now injection H as <-.
Qed.

Lemma suggestion_lines_single (s : dict (list string)) :
  single_line_suggestions s = true ->
  forallb single_line
    (flat_map (fun kv => category_lines (fst kv) (snd kv)) s) = true.
Proof.
  intros Hs. apply forallb_flat_map. intros [category items] Hin.
  unfold single_line_suggestions in Hs. rewrite forallb_forall in Hs.
  specialize (Hs _ Hin). cbn [fst snd] in *. apply andb_prop in Hs.
  destruct Hs as [Hcategory Hitems]. unfold category_lines.
  apply forallb_forall. intros line [<-|Hline].
  - now rewrite !single_line_app, Hcategory.
  - apply in_map_iff in Hline. destruct Hline as [item [<- Hitem]].
    rewrite forallb_forall in Hitems.
    now rewrite single_line_app, (Hitems _ Hitem).
Qed.

Lemma tool_lines_single (w : world) :
  forallb single_line
    (map (fun kv => tool_line (fst kv) (snd kv)) (check_security_tools w))
  = true.
Proof.
  assert (Hline : forall tool available,
             single_line tool = true ->
             single_line (tool_line tool available) = true).
  { intros tool available Htool. unfold tool_line.
    rewrite !single_line_app, Htool. now destruct available. }
  unfold check_security_tools. cbn [map fst snd forallb].
  rewrite !Hline; reflexivity.
Qed.

Lemma console_report_parts (languages infra : dict (dict value))
  (suggestions : dict (list string)) (security_tools : dict bool)
  (report : list string) :
  console_report languages infra suggestions security_tools = Return report ->
  exists blocks,
    for_each (fun kv => language_lines (fst kv) (snd kv)) languages
    = Return blocks
    /\ report
       = ["🔍 ENVIRONMENT DETECTION REPORT"; PyStr.repeat "=" 50;
          Render.newline ++ "📚 DETECTED LANGUAGES:"]
         +++ concat blocks
         +++ (if nonempty infra
              then infrastructure_header
                   :: flat_map (fun kv => component_lines (fst kv) (snd kv))
                        infra
              else [])
         +++ (if nonempty suggestions
              then suggestions_header
                   :: flat_map (fun kv => category_lines (fst kv) (snd kv))
                        suggestions
              else [])
         +++ security_tools_header
         :: map (fun kv => tool_line (fst kv) (snd kv)) security_tools.
Proof.
  unfold console_report.
  destruct (for_each _ languages) as [blocks|e]; [|discriminate].
  cbn [bind]. intros H. injection H as <-.
  exists blocks. split; reflexivity.
Qed.

(** X22: the printed console report, line by line, when no value of a
    finding is printed with a line feed in it.  The text opens with the
    title, the rule, an empty line and the languages header; the
    language blocks follow; then, exactly when an infrastructure
    category was found, an empty line, the infrastructure header and
    its blocks; then, exactly when there is a suggestion, an empty
    line, the suggestions header and its blocks; then an empty line,
    the security-tools header and one line per tool.  Every line of a
    block is indented, so the infrastructure header is a line of the
    text exactly when an infrastructure category was found, and the
    suggestions header exactly when there is a suggestion. *)
Theorem printed_sections (w : world) :
  single_line_values (detect_languages w) = true ->
  single_line_values (detect_infrastructure w) = true ->
  exists s text language_part infra_part suggestion_part,
    suggest_environment_isolation w = Return s
    /\ generate_report w "console" = Return text
    /\ printed_lines text
       = ["🔍 ENVIRONMENT DETECTION REPORT"; PyStr.repeat "=" 50;
          ""; "📚 DETECTED LANGUAGES:"]
         +++ language_part
         +++ (if nonempty (detect_infrastructure w)
              then "" :: "🏗️  INFRASTRUCTURE:" :: infra_part else [])
         +++ (if nonempty s
              then "" :: "💡 ENVIRONMENT ISOLATION SUGGESTIONS:"
                      :: suggestion_part
              else [])
         +++ "" :: "🛡️  SECURITY TOOLS AVAILABILITY:"
         :: map (fun kv => tool_line (fst kv) (snd kv))
              (check_security_tools w)
    /\ Forall (fun line => indented line = true)
         (language_part +++ infra_part +++ suggestion_part)
    /\ (In "🏗️  INFRASTRUCTURE:" (printed_lines text) <->
        detect_infrastructure w <> [])
    /\ (In "💡 ENVIRONMENT ISOLATION SUGGESTIONS:" (printed_lines text) <->
        s <> []).
Proof.
  intros Hlanguages Hinfra.
  destruct (suggest_environment_isolation_returns w) as [s [Hs _]].
  destruct (console_report_returns w (detect_infrastructure w) s
              (check_security_tools w)) as [report Hreport].
  destruct (console_report_parts _ _ _ _ Hreport) as [blocks [Hblocks Hparts]].
  set (language_part := concat blocks).
  set (infra_part :=
         flat_map (fun kv => component_lines (fst kv) (snd kv))
           (detect_infrastructure w)).
  set (suggestion_part :=
         flat_map (fun kv => category_lines (fst kv) (snd kv)) s).
  set (tool_part :=
         map (fun kv => tool_line (fst kv) (snd kv)) (check_security_tools w)).
  fold language_part infra_part suggestion_part tool_part in Hparts.
  exists s, (PyStr.join Render.newline report), language_part, infra_part,
    suggestion_part.
  assert (Hlp : forallb single_line language_part = true)
    by exact (@language_blocks_single w blocks Hlanguages Hblocks).
  assert (Hip : forallb single_line infra_part = true)
    by exact (@infrastructure_lines_single w Hinfra).
  assert (Hsp : forallb single_line suggestion_part = true)
    by exact (@suggestion_lines_single s (@suggestions_single w s Hs)).
  assert (Htp : forallb single_line tool_part = true)
    by exact (tool_lines_single w).
  assert (Hlines :
            printed_lines (PyStr.join Render.newline report)
            = ["🔍 ENVIRONMENT DETECTION REPORT"; PyStr.repeat "=" 50;
               ""; "📚 DETECTED LANGUAGES:"]
              +++ language_part
              +++ (if nonempty (detect_infrastructure w)
                   then "" :: "🏗️  INFRASTRUCTURE:" :: infra_part else [])
              +++ (if nonempty s
                   then "" :: "💡 ENVIRONMENT ISOLATION SUGGESTIONS:"
                           :: suggestion_part
                   else [])
              +++ "" :: "🛡️  SECURITY TOOLS AVAILABILITY:" :: tool_part).
  { rewrite printed_lines_join by (rewrite Hparts; discriminate).
    rewrite Hparts, !flat_map_app.
    change (flat_map printed_lines
              ["🔍 ENVIRONMENT DETECTION REPORT"; PyStr.repeat "=" 50;
               Render.newline ++ "📚 DETECTED LANGUAGES:"])
      with ["🔍 ENVIRONMENT DETECTION REPORT"; PyStr.repeat "=" 50;
            ""; "📚 DETECTED LANGUAGES:"].
    rewrite (printed_lines_entries _ Hlp).
    change (flat_map printed_lines (security_tools_header :: tool_part))
      with ("" :: "🛡️  SECURITY TOOLS AVAILABILITY:"
               :: flat_map printed_lines tool_part).
    rewrite (printed_lines_entries _ Htp).
    destruct (nonempty (detect_infrastructure w)), (nonempty s);
      repeat match goal with
        | |- context [flat_map printed_lines (infrastructure_header :: ?l)] =>
            change (flat_map printed_lines (infrastructure_header :: l))
              with ("" :: "🏗️  INFRASTRUCTURE:" :: flat_map printed_lines l)
        | |- context [flat_map printed_lines (suggestions_header :: ?l)] =>
            change (flat_map printed_lines (suggestions_header :: l))
              with ("" :: "💡 ENVIRONMENT ISOLATION SUGGESTIONS:"
                       :: flat_map printed_lines l)
        end;
      rewrite ?(printed_lines_entries _ Hip), ?(printed_lines_entries _ Hsp);
      reflexivity. }
  assert (Hli : Forall (fun line => indented line = true) language_part).
  { apply Forall_forall. intros line Hin. apply in_concat in Hin.
    destruct Hin as [block [Hblock Hline]].
    destruct (for_each_in _ _ Hblocks block Hblock) as [[lang details] [_ Hl]].
    apply language_lines_indented in Hl. rewrite Forall_forall in Hl.
    now apply Hl. }
  assert (Hii : Forall (fun line => indented line = true) infra_part).
  { apply flat_map_indented. intros kv. apply component_lines_indented. }
  assert (Hsi : Forall (fun line => indented line = true) suggestion_part).
  { apply flat_map_indented. intros kv. apply category_lines_indented. }
  pose proof (tool_lines_indented (check_security_tools w)) as Hti.
  fold tool_part in Hti.
  split; [exact Hs|]. split.
  { unfold generate_report. rewrite Hs. cbn [bind]. keys.
    now rewrite Hreport. }
  split; [exact Hlines|]. split.
  { apply Forall_app. split; [exact Hli|]. apply Forall_app. now split. }
  assert (Hih : indented "🏗️  INFRASTRUCTURE:" = false) by reflexivity.
  assert (Hsh : indented "💡 ENVIRONMENT ISOLATION SUGGESTIONS:" = false)
    by reflexivity.
  pose proof (not_in_indented _ Hih Hli) as Hi1.
  pose proof (not_in_indented _ Hih Hsi) as Hi2.
  pose proof (not_in_indented _ Hih Hti) as Hi3.
  pose proof (not_in_indented _ Hsh Hli) as Hs1.
  pose proof (not_in_indented _ Hsh Hii) as Hs2.
  pose proof (not_in_indented _ Hsh Hti) as Hs3.
  rewrite Hlines. split.
  - rewrite !in_app_iff. cbn [In]. split.
    + intros [[H|[H|[H|[H|[]]]]]|[H|[H|[H|H]]]]; try discriminate H;
        try contradiction.
      * destruct (detect_infrastructure w); [destruct H | discriminate].
      * destruct (nonempty s); [|destruct H].
        destruct H as [H|[H|H]]; [discriminate H| discriminate H
                                  | contradiction].
      * destruct H as [H|[H|H]]; [discriminate H| discriminate H
                                  | contradiction].
    + intros Hne. right. right. left.
      destruct (detect_infrastructure w); [now destruct Hne|].
      right. now left.
  - rewrite !in_app_iff. cbn [In]. split.
    + intros [[H|[H|[H|[H|[]]]]]|[H|[H|[H|H]]]]; try discriminate H;
        try contradiction.
      * destruct (nonempty (detect_infrastructure w)); [|destruct H].
        destruct H as [H|[H|H]]; [discriminate H| discriminate H
                                  | contradiction].
      * destruct s; [destruct H | discriminate].
      * destruct H as [H|[H|H]]; [discriminate H| discriminate H
                                  | contradiction].
    + intros Hne. right. right. right. left.
      destruct s; [now destruct Hne|]. right. now left.
Qed.

Lemma printed_sections_witness :
  exists s text language_part infra_part suggestion_part,
    suggest_environment_isolation Sample.python_and_go_docker = Return s
    /\ generate_report Sample.python_and_go_docker "console" = Return text
    /\ printed_lines text
       = ["🔍 ENVIRONMENT DETECTION REPORT"; PyStr.repeat "=" 50;
          ""; "📚 DETECTED LANGUAGES:"]
         +++ language_part
         +++ (if nonempty (detect_infrastructure Sample.python_and_go_docker)
              then "" :: "🏗️  INFRASTRUCTURE:" :: infra_part else [])
         +++ (if nonempty s
              then "" :: "💡 ENVIRONMENT ISOLATION SUGGESTIONS:"
                      :: suggestion_part
              else [])
         +++ "" :: "🛡️  SECURITY TOOLS AVAILABILITY:"
         :: map (fun kv => tool_line (fst kv) (snd kv))
              (check_security_tools Sample.python_and_go_docker)
    /\ Forall (fun line => indented line = true)
         (language_part +++ infra_part +++ suggestion_part)
    /\ (In "🏗️  INFRASTRUCTURE:" (printed_lines text) <->
        detect_infrastructure Sample.python_and_go_docker <> [])
    /\ (In "💡 ENVIRONMENT ISOLATION SUGGESTIONS:" (printed_lines text) <->
        s <> []).
Proof.
  apply (@printed_sections Sample.python_and_go_docker); reflexivity.
Defined.
